(** * Firefox Workspaces: the background script's state engine

    A shallow embedding of [background.js]: the in-memory registry, the
    window-binding table, the debounce timers and the handlers that act on
    them, together with the store and the browser they talk to.

    Every handler of the script is an [async] function that runs on a single
    thread.  A handler is embedded as one computation in a state-and-exception
    monad over [World]; its writes to the store and its calls to the user
    interface glue are recorded, in program order, in the world's [trace].
    A handler runs to its end before the next event is taken: what other
    handlers could do while one is suspended at an [await] is not modelled,
    except for [openWorkspace], whose stretches before and after its first
    suspension are also given on their own, so that two overlapping calls can
    be run. *)

From stdpp Require Import gmap strings list fin_maps sorting.

Open Scope string_scope.
Open Scope list_scope.
Open Scope Z_scope.

(** ** Data model *)

(** A live tab as the browser reports it ([browser.tabs.Tab]). *)
Record BrowserTab := mkTab {
  tab_id : Z;
  tab_url : option string;
  tab_title : option string;
  tab_pinned : bool
}.

(** A persisted tab descriptor, [{u, t, p}]. *)
Record TabDescriptor := mkDesc {
  u : option string;
  t : option string;
  p : bool
}.

(** A registry entry, as built by [createWorkspace]. *)
Record Workspace := mkWorkspace {
  id : string;
  name : string;
  color : string;
  pinned : bool;
  archived : bool;
  createdAt : Z;
  updatedAt : Z;
  tabCount : nat
}.

Record Settings := mkSettings {
  autoSave : bool;
  includePinnedTabs : bool;
  focusExistingWindow : bool
}.

(** One entry of the effect trace: a store write, or a call into the
    badge, menu and content-script glue.  *)
Inductive Effect :=
  | SaveWorkspaceTabs (wsId : string) (tabs : list TabDescriptor) (version : Z)
  | SaveLastHash (wsId : string) (hash : string)
  | SaveWorkspaceIndex (index : list Workspace)
  | SaveWindowBindings (bindings : gmap Z string)
  | SaveSettings (s : Settings)
  | DeleteWorkspaceData (wsId : string)
  | NotifyContentScripts (windowId : Z)
  | UpdateWindowIndicators (windowId : Z)
  | RefreshAllWindowIndicators
  | UpdateContextMenu.

(** Modelled from the spec: the durable store behind the [Storage] object of
    [shared/storage.js], whose code lies outside [background.js].  It is a
    key/value store that answers a read with the value last written: the
    registry, one snapshot (descriptors and version counter) and one
    fingerprint per workspace id, the binding table and the settings. *)
Record Store := mkStore {
  st_index : list Workspace;
  st_tabs : gmap string (list TabDescriptor);
  st_version : gmap string Z;
  st_hash : gmap string string;
  st_bindings : gmap Z string;
  st_settings : Settings
}.

(** The browser: its live windows with their tabs in order, the next fresh
    window/tab id, the wall clock read by [Date.now()], the pending
    [setTimeout] callbacks (each closes over the two arguments it will pass to
    [saveWorkspaceSnapshot]), the next timer handle, and the number of random
    draws made so far. *)
Record Host := mkHost {
  windows : gmap Z (list BrowserTab);
  nextId : Z;
  clock : Z;
  timers : gmap Z (string * Z);
  nextTimer : Z;
  entropy : nat
}.

(** The script's four top-level variables, the store, the browser and the
    trace of effects issued so far (oldest first). *)
Record World := mkWorld {
  workspaceIndex : list Workspace;
  windowBindings : gmap Z string;
  settings : Settings;
  saveTimers : gmap string Z;
  store : Store;
  host : Host;
  trace : list Effect
}.

(** The helpers of [shared/utils.js], whose code lies outside
    [background.js], and the browser's [JSON.stringify].  The handlers are
    embedded over an arbitrary choice of them.  [generateId] and
    [getRandomColor] draw on randomness: they are functions of the number of
    draws made so far. *)
Record Env := mkEnv {
  shouldExcludeUrl : option string → bool;
  createTabDescriptor : BrowserTab → TabDescriptor;
  quickHash : string → string;
  jsonStringify : list TabDescriptor → string;
  generateId : nat → string;
  getRandomColor : nat → string;
  getDefaultWorkspaceName : list Workspace → string;
  getSyncStorageUsage : Store → Z
}.

(** ** Field updates *)

Definition set_workspaceIndex (x : list Workspace) (w : World) : World :=
  mkWorld x (windowBindings w) (settings w) (saveTimers w) (store w) (host w) (trace w).
Definition set_windowBindings (x : gmap Z string) (w : World) : World :=
  mkWorld (workspaceIndex w) x (settings w) (saveTimers w) (store w) (host w) (trace w).
Definition set_settings (x : Settings) (w : World) : World :=
  mkWorld (workspaceIndex w) (windowBindings w) x (saveTimers w) (store w) (host w) (trace w).
Definition set_saveTimers (x : gmap string Z) (w : World) : World :=
  mkWorld (workspaceIndex w) (windowBindings w) (settings w) x (store w) (host w) (trace w).
Definition set_store (x : Store) (w : World) : World :=
  mkWorld (workspaceIndex w) (windowBindings w) (settings w) (saveTimers w) x (host w) (trace w).
Definition set_host (x : Host) (w : World) : World :=
  mkWorld (workspaceIndex w) (windowBindings w) (settings w) (saveTimers w) (store w) x (trace w).
Definition emit (e : Effect) (w : World) : World :=
  mkWorld (workspaceIndex w) (windowBindings w) (settings w) (saveTimers w) (store w) (host w)
          (trace w ++ [e]).

Definition set_windows (x : gmap Z (list BrowserTab)) (h : Host) : Host :=
  mkHost x (nextId h) (clock h) (timers h) (nextTimer h) (entropy h).
Definition set_nextId (x : Z) (h : Host) : Host :=
  mkHost (windows h) x (clock h) (timers h) (nextTimer h) (entropy h).
Definition set_clock (x : Z) (h : Host) : Host :=
  mkHost (windows h) (nextId h) x (timers h) (nextTimer h) (entropy h).
Definition set_timers (x : gmap Z (string * Z)) (h : Host) : Host :=
  mkHost (windows h) (nextId h) (clock h) x (nextTimer h) (entropy h).
Definition set_nextTimer (x : Z) (h : Host) : Host :=
  mkHost (windows h) (nextId h) (clock h) (timers h) x (entropy h).
Definition set_entropy (x : nat) (h : Host) : Host :=
  mkHost (windows h) (nextId h) (clock h) (timers h) (nextTimer h) x.

(** ** The monad of handlers *)

(** A handler either returns a value or throws; either way it leaves a
    world behind (JavaScript does not roll back the writes made before a
    throw). *)
Inductive Outcome (A : Type) :=
  | Returned (a : A)
  | Thrown (reason : string).
Arguments Returned {A} a.
Arguments Thrown {A} reason.

Definition M (A : Type) : Type := World → Outcome A * World.

Definition ret {A} (a : A) : M A := λ w, (Returned a, w).
Definition bind {A B} (m : M A) (k : A → M B) : M B :=
  λ w, match m w with
       | (Returned a, w') => k a w'
       | (Thrown e, w') => (Thrown e, w')
       end.
Definition throw {A} (reason : string) : M A := λ w, (Thrown reason, w).
(** [try { body } catch (e) { handler }] *)
Definition try_catch {A} (body : M A) (handler : string → M A) : M A :=
  λ w, match body w with
       | (Returned a, w') => (Returned a, w')
       | (Thrown e, w') => handler e w'
       end.
Definition gets {A} (f : World → A) : M A := λ w, (Returned (f w), w).
Definition modify (f : World → World) : M unit := λ w, (Returned tt, f w).

(** stdpp's monad notations: [x ← m; k] and [m;; k]. *)
Global Instance M_ret : MRet M := @ret.
Global Instance M_bind : MBind M := λ A B k m, bind m k.

(** The world a handler leaves behind, and what it returned. *)
Definition exec {A} (m : M A) (w : World) : World := (m w).2.
Definition outcome {A} (m : M A) (w : World) : Outcome A := (m w).1.

(** ** JavaScript truthiness of the values the script tests *)

Definition truthyZ (z : Z) : bool := negb (z =? 0)%Z.
Definition truthyStr (s : string) : bool := negb (String.eqb s "").
Definition truthyOptZ (o : option Z) : bool :=
  match o with Some z => truthyZ z | None => false end.
Definition truthyOptStr (o : option string) : bool :=
  match o with Some s => truthyStr s | None => false end.
(** [a || b] on possibly-undefined numbers. *)
Definition orElseZ (a b : option Z) : option Z := if truthyOptZ a then a else b.

(** ** The durable store *)

(** Modelled from the spec: the read and write primitives of the [Storage]
    object ([shared/storage.js], outside [background.js]).  A snapshot write
    stores the descriptors and the version it is given; the fingerprint is
    written by its own call ([saveLastHash]), as [saveWorkspaceSnapshot] does
    in two separate steps.  A workspace that was never written reads as no
    descriptors, version 0 and no fingerprint.  Every call completes. *)
Module Storage.

Definition getSettings : M Settings := gets (λ w, st_settings (store w)).
Definition getWorkspaceIndex : M (list Workspace) := gets (λ w, st_index (store w)).
Definition getWindowBindings : M (gmap Z string) := gets (λ w, st_bindings (store w)).

Definition getWorkspaceTabs (wsId : string) : M (list TabDescriptor) :=
  gets (λ w, default [] (st_tabs (store w) !! wsId)).
Definition getWorkspaceVersion (wsId : string) : M Z :=
  gets (λ w, default 0 (st_version (store w) !! wsId)).
Definition getLastHash (wsId : string) : M (option string) :=
  gets (λ w, st_hash (store w) !! wsId).

Definition write (f : Store → Store) (e : Effect) : M unit :=
  modify (λ w, emit e (set_store (f (store w)) w)).

Definition saveWorkspaceTabs (wsId : string) (tabs : list TabDescriptor) (version : Z)
  : M unit :=
  write (λ s, mkStore (st_index s) (<[wsId := tabs]> (st_tabs s))
                      (<[wsId := version]> (st_version s)) (st_hash s)
                      (st_bindings s) (st_settings s))
        (SaveWorkspaceTabs wsId tabs version).
Definition saveLastHash (wsId : string) (hash : string) : M unit :=
  write (λ s, mkStore (st_index s) (st_tabs s) (st_version s)
                      (<[wsId := hash]> (st_hash s)) (st_bindings s) (st_settings s))
        (SaveLastHash wsId hash).
Definition saveWorkspaceIndex (index : list Workspace) : M unit :=
  write (λ s, mkStore index (st_tabs s) (st_version s) (st_hash s)
                      (st_bindings s) (st_settings s))
        (SaveWorkspaceIndex index).
Definition saveWindowBindings (bindings : gmap Z string) : M unit :=
  write (λ s, mkStore (st_index s) (st_tabs s) (st_version s) (st_hash s)
                      bindings (st_settings s))
        (SaveWindowBindings bindings).
Definition saveSettings (x : Settings) : M unit :=
  write (λ s, mkStore (st_index s) (st_tabs s) (st_version s) (st_hash s)
                      (st_bindings s) x)
        (SaveSettings x).
Definition deleteWorkspaceData (wsId : string) : M unit :=
  write (λ s, mkStore (st_index s) (delete wsId (st_tabs s))
                      (delete wsId (st_version s)) (delete wsId (st_hash s))
                      (st_bindings s) (st_settings s))
        (DeleteWorkspaceData wsId).

End Storage.

(** ** The browser *)

(** The WebExtension calls the script makes.  Window and tab ids are the
    browser's positive integers; a call on a window or tab that does not
    exist rejects where the script itself expects it to ([windows.update],
    [tabs.move]), and [tabs.query] answers an unknown window with no tabs. *)
Module Browser.

Definition on_host (f : Host → Host) : M unit := modify (λ w, set_host (f (host w)) w).

Definition windows_getAll : M (list Z) :=
  gets (λ w, elements (dom (windows (host w)))).

Definition tabs_query (windowId : Z) : M (list BrowserTab) :=
  gets (λ w, default [] (windows (host w) !! windowId)).

Definition all_tabs (ws : gmap Z (list BrowserTab)) : list BrowserTab :=
  concat (snd <$> map_to_list ws).
Definition find_tab (tabId : Z) (ws : gmap Z (list BrowserTab)) : option BrowserTab :=
  head (filter (λ tb, tab_id tb = tabId) (all_tabs ws)).
Definition drop_tab (tabId : Z) (ws : gmap Z (list BrowserTab))
  : gmap Z (list BrowserTab) :=
  filter (λ tb, tab_id tb ≠ tabId) <$> ws.

(** [browser.tabs.move(tabId, {windowId, index: -1})]: to the end of the
    destination window. *)
Definition tabs_move (tabId windowId : Z) : M unit :=
  ws ← gets (λ w, windows (host w));
  match find_tab tabId ws, ws !! windowId with
  | Some tb, Some _ =>
      on_host (set_windows (alter (λ l, l ++ [tb]) windowId (drop_tab tabId ws)))
  | _, _ => throw "Invalid tab or window ID"
  end.

Definition tabs_remove (tabId : Z) : M unit :=
  on_host (λ h, set_windows (drop_tab tabId (windows h)) h).

(** [browser.windows.update(windowId, {focused: true})] *)
Definition windows_focus (windowId : Z) : M unit :=
  ws ← gets (λ w, windows (host w));
  match ws !! windowId with
  | Some _ => mret ()
  | None => throw "Invalid window ID"
  end.

(** [browser.windows.create({url, focused: true})]: a fresh window holding
    one fresh tab; answers the window's id. *)
Definition windows_create (url : string) : M Z :=
  h ← gets host;
  let wid := nextId h in
  on_host (λ h, set_nextId (wid + 2)
                  (set_windows (<[wid := [mkTab (wid + 1) (Some url) None false]]>
                                  (windows h)) h));;
  mret wid.

(** [browser.tabs.create({windowId, url, active: false})] *)
Definition tabs_create (windowId : Z) (url : string) : M unit :=
  h ← gets host;
  match windows h !! windowId with
  | Some _ =>
      on_host (λ h, set_nextId (nextId h + 1)
                      (set_windows (alter (λ l, l ++ [mkTab (nextId h) (Some url) None false])
                                          windowId (windows h)) h))
  | None => throw "Invalid window ID"
  end.

(** [browser.tabs.update(tabId, {pinned: true})] *)
Definition tabs_pin (tabId : Z) : M unit :=
  on_host (λ h, set_windows
                  (fmap (M := list)
                        (λ tb, if decide (tab_id tb = tabId)
                               then mkTab (tab_id tb) (tab_url tb) (tab_title tb) true
                               else tb) <$> windows h) h).

Definition Date_now : M Z := gets (λ w, clock (host w)).

(** [setTimeout(() => saveWorkspaceSnapshot(workspaceId, windowId), ms)]:
    the callback is kept with the two values it closes over. *)
Definition setTimeout (workspaceId : string) (windowId : Z) : M Z :=
  h ← gets host;
  let handle := nextTimer h in
  on_host (λ h, set_nextTimer (handle + 1)
                  (set_timers (<[handle := (workspaceId, windowId)]> (timers h)) h));;
  mret handle.

Definition clearTimeout (handle : Z) : M unit :=
  on_host (λ h, set_timers (delete handle (timers h)) h).

(** One draw of randomness. *)
Definition draw : M nat :=
  n ← gets (λ w, entropy (host w));
  on_host (set_entropy (S n));;
  mret n.

End Browser.

(** ** The binding table as a JavaScript object *)

(** The keys of the table are the decimal strings of window ids, and
    [parseInt(key, 10)] gives the id back, so the table is kept as a map from
    ids.  JavaScript enumerates the keys that are array indices (the integers
    from 0 to 2^32 - 2, which the ids the browser gives its windows are) in
    ascending numeric order, and after them any other key in the order in
    which it was added, which a map does not record.  [indexKeys] marks the
    tables whose keys are all array indices. *)
Definition arrayIndex (k : Z) : bool := (0 <=? k) && (k <? 4294967295).
Definition indexKeys (bindings : gmap Z string) : bool :=
  forallb (λ kv : Z * string, arrayIndex kv.1) (map_to_list bindings).

(** [Object.entries(windowBindings)], for a table with [indexKeys]: the
    entries in ascending order of their keys.  What depends on the order of
    the entries is stated for such tables. *)
Definition key_le (x y : Z * string) : Prop := x.1 ≤ y.1.
Global Instance key_le_dec x y : Decision (key_le x y) := Z_le_dec x.1 y.1.

Definition entries (bindings : gmap Z string) : list (Z * string) :=
  merge_sort key_le (map_to_list bindings).

(** [Object.entries(windowBindings).find(([, wsId]) => wsId === workspaceId)?.[0]] *)
Definition findWindow (bindings : gmap Z string) (workspaceId : string) : option Z :=
  (λ r, r.2.1) <$> list_find (λ kv : Z * string, kv.2 = workspaceId) (entries bindings).

(** [workspaceIndex.findIndex(ws => ws.id === workspaceId)], with [None] for -1,
    together with the entry found ([workspaceIndex.find]). *)
Definition findIndex (index : list Workspace) (workspaceId : option string)
  : option (nat * Workspace) :=
  match workspaceId with
  | Some i => list_find (λ ws, id ws = i) index
  | None => None
  end.

(** ** Messages *)

(** The object destructured by [createWorkspace]; a missing [name],
    [color] or [windowId] is [None]. *)
Record CreateData := mkCreateData {
  cd_name : option string;
  cd_color : option string;
  cd_fromCurrentWindow : bool;
  cd_windowId : option Z
}.

(** A message of the popup or the options page.  The fields a request does not
    carry are [None] ([undefined]). *)
Record Message := mkMessage {
  action : string;
  m_data : option CreateData;
  m_workspaceId : option string;
  m_name : string;
  m_settings : Settings;
  m_windowId : option Z
}.

(** What [handleMessage] answers: one constructor per shape of object the
    script returns; [RError reason] is [{error: reason}] and
    [RWorkspace None] is [{workspace: null}]. *)
Inductive Response :=
  | RWorkspaces (workspaces : list Workspace) (bindings : gmap Z string)
  | RWorkspace (workspace : option Workspace)
  | RWindowId (windowId : Z)
  | RSuccess
  | RPinned (pinned : bool)
  | RSettings (s : Settings)
  | RUsage (usage : Z)
  | RError (reason : string).

(** The first argument a tab listener receives, as [handleTabChange] reads it:
    its [windowId] and [id] properties.  [onRemoved] and [onMoved] pass a bare
    tab id, a number, on which both properties are [undefined]. *)
Record TabChangeInfo := mkInfo {
  info_windowId : option Z;
  info_id : option Z
}.

Definition with_name (x : string) (ws : Workspace) : Workspace :=
  mkWorkspace (id ws) x (color ws) (pinned ws) (archived ws) (createdAt ws) (updatedAt ws)
              (tabCount ws).
Definition with_pinned (x : bool) (ws : Workspace) : Workspace :=
  mkWorkspace (id ws) (name ws) (color ws) x (archived ws) (createdAt ws) (updatedAt ws)
              (tabCount ws).
Definition with_updatedAt (x : Z) (ws : Workspace) : Workspace :=
  mkWorkspace (id ws) (name ws) (color ws) (pinned ws) (archived ws) (createdAt ws) x
              (tabCount ws).
Definition with_tabCount (x : nat) (ws : Workspace) : Workspace :=
  mkWorkspace (id ws) (name ws) (color ws) (pinned ws) (archived ws) (createdAt ws)
              (updatedAt ws) x.

(** [for (const x of l) { await f(x) }] *)
Fixpoint forEach {A} (l : list A) (f : A → M unit) : M unit :=
  match l with
  | [] => mret ()
  | x :: l' => f x;; forEach l' f
  end.

(** ** The handlers of [background.js] *)

Section Handlers.

Variable env : Env.

(** The badge, menu and content-script glue.  Each of these catches its own
    failures and touches none of the state modelled here; a call is recorded
    in the trace. *)
Definition notifyContentScripts (windowId : Z) : M unit :=
  modify (emit (NotifyContentScripts windowId)).
Definition updateWindowIndicators (windowId : Z) : M unit :=
  modify (emit (UpdateWindowIndicators windowId)).
Definition refreshAllWindowIndicators : M unit :=
  modify (emit RefreshAllWindowIndicators).
Definition updateContextMenu : M unit :=
  modify (emit UpdateContextMenu).

(** The chain [.filter(tab => !shouldExcludeUrl(tab.url))
    .filter(tab => settings.includePinnedTabs || !tab.pinned)
    .map(createTabDescriptor)] that [saveWorkspaceSnapshot] and
    [createWorkspace] both apply to the tabs of a window. *)
Definition keptTab (s : Settings) (tab : BrowserTab) : bool :=
  negb (shouldExcludeUrl env (tab_url tab)) && (includePinnedTabs s || negb (tab_pinned tab)).
Definition describeTabs (s : Settings) (tabs : list BrowserTab) : list TabDescriptor :=
  createTabDescriptor env <$>
    filter (λ tab, includePinnedTabs s || negb (tab_pinned tab))
           (filter (λ tab, negb (shouldExcludeUrl env (tab_url tab))) tabs).

(** [quickHash(JSON.stringify(tabDescriptors))] *)
Definition fingerprint (tabDescriptors : list TabDescriptor) : string :=
  quickHash env (jsonStringify env tabDescriptors).

Definition cleanupStaleBindings : M unit :=
  wins ← Browser.windows_getAll;
  let validWindowIds : gset Z := list_to_set wins in
  bindings ← gets windowBindings;
  let newBindings :=
    foldl (λ (acc : gmap Z string) kv,
             if decide (kv.1 ∈ validWindowIds) then <[kv.1 := kv.2]> acc else acc)
          ∅ (entries bindings) in
  modify (set_windowBindings newBindings);;
  b ← gets windowBindings;
  Storage.saveWindowBindings b.

Definition saveWorkspaceSnapshot (workspaceId : string) (windowId : Z) : M unit :=
  try_catch
    (tabs ← Browser.tabs_query windowId;
     s ← gets settings;
     let tabDescriptors := describeTabs s tabs in
     let newHash := fingerprint tabDescriptors in
     lastHash ← Storage.getLastHash workspaceId;
     if decide (lastHash = Some newHash) then mret ()
     else
       currentVersion ← Storage.getWorkspaceVersion workspaceId;
       let newVersion := currentVersion + 1 in
       Storage.saveWorkspaceTabs workspaceId tabDescriptors newVersion;;
       Storage.saveLastHash workspaceId newHash;;
       index ← gets workspaceIndex;
       match findIndex index (Some workspaceId) with
       | Some (wsIndex, ws) =>
           now ← Browser.Date_now;
           modify (set_workspaceIndex
                     (<[wsIndex := with_tabCount (length tabDescriptors)
                                     (with_updatedAt now ws)]> index));;
           index' ← gets workspaceIndex;
           Storage.saveWorkspaceIndex index'
       | None => mret ()
       end)
    (λ _, mret ()).

Definition handleTabChange (info : TabChangeInfo) : M unit :=
  s ← gets settings;
  if negb (autoSave s) then mret ()
  else
    let windowId := orElseZ (info_windowId info) (info_id info) in
    bindings ← gets windowBindings;
    match windowId with
    | Some wid =>
        match bindings !! wid with
        | Some workspaceId =>
            if negb (truthyStr workspaceId) then mret ()
            else
              pending ← gets saveTimers;
              (if truthyOptZ (pending !! workspaceId)
               then Browser.clearTimeout (default 0 (pending !! workspaceId))
               else mret ());;
              handle ← Browser.setTimeout workspaceId wid;
              modify (λ w, set_saveTimers (<[workspaceId := handle]> (saveTimers w)) w)
        | None => mret ()
        end
    | None => mret ()
    end.

(** The browser runs a pending timer callback: the timer is spent and the
    callback calls [saveWorkspaceSnapshot] on the values it closed over. *)
Definition fireTimer (handle : Z) : M unit :=
  pending ← gets (λ w, timers (host w));
  match pending !! handle with
  | Some (workspaceId, windowId) =>
      Browser.clearTimeout handle;;
      saveWorkspaceSnapshot workspaceId windowId
  | None => mret ()
  end.

(** The [browser.windows.onRemoved] listener. *)
Definition onWindowRemoved (windowId : Z) : M unit :=
  bindings ← gets windowBindings;
  if truthyOptStr (bindings !! windowId) then
    modify (λ w, set_windowBindings (delete windowId (windowBindings w)) w);;
    b ← gets windowBindings;
    Storage.saveWindowBindings b;;
    updateWindowIndicators windowId
  else mret ().

(** The [storage.onChanged] listener of [setupStorageListener], for a change
    of the registry key in the synchronized area; [None] is a change without
    a new value. *)
Definition onSyncIndexChanged (newValue : option (list Workspace)) : M unit :=
  modify (set_workspaceIndex (default [] newValue));;
  updateContextMenu;;
  refreshAllWindowIndicators.

(** [targetWindowId] is a key of the table, a non-empty string, so the test
    [if (targetWindowId)] asks whether [find] found an entry. *)
Definition moveTabToWorkspace (tab : BrowserTab) (targetWorkspaceId : string) : M unit :=
  bindings ← gets windowBindings;
  match findWindow bindings targetWorkspaceId with
  | Some targetWindowId => Browser.tabs_move (tab_id tab) targetWindowId
  | None =>
      tabs ← Storage.getWorkspaceTabs targetWorkspaceId;
      let tabs := tabs ++ [createTabDescriptor env tab] in
      version ← Storage.getWorkspaceVersion targetWorkspaceId;
      Storage.saveWorkspaceTabs targetWorkspaceId tabs (version + 1);;
      Browser.tabs_remove (tab_id tab)
  end.

(** [const { name, color, fromCurrentWindow, windowId } = data] throws a
    [TypeError] when [data] is [undefined]. *)
Definition createWorkspace (data : option CreateData) : M Response :=
  match data with
  | None => throw "TypeError: data is undefined"
  | Some d =>
      index ← gets workspaceIndex;
      newId ← Browser.draw;
      newColor ← (if truthyOptStr (cd_color d) then mret (default "" (cd_color d))
                  else n ← Browser.draw; mret (getRandomColor env n));
      now ← Browser.Date_now;
      let workspace :=
        mkWorkspace (generateId env newId)
                    (if truthyOptStr (cd_name d) then default "" (cd_name d)
                     else getDefaultWorkspaceName env index)
                    newColor false false now now 0 in
      '(workspace, tabs) ←
        (if cd_fromCurrentWindow d && truthyOptZ (cd_windowId d) then
           let windowId := default 0 (cd_windowId d) in
           browserTabs ← Browser.tabs_query windowId;
           s ← gets settings;
           let tabs := describeTabs s browserTabs in
           let workspace := with_tabCount (length tabs) workspace in
           modify (λ w, set_windowBindings (<[windowId := id workspace]> (windowBindings w)) w);;
           b ← gets windowBindings;
           Storage.saveWindowBindings b;;
           notifyContentScripts windowId;;
           updateWindowIndicators windowId;;
           mret (workspace, tabs)
         else
           mret (with_tabCount 1 workspace,
                 [mkDesc (Some "about:newtab") (Some "New Tab") false]));
      modify (λ w, set_workspaceIndex (workspaceIndex w ++ [workspace]) w);;
      index' ← gets workspaceIndex;
      Storage.saveWorkspaceIndex index';;
      Storage.saveWorkspaceTabs (id workspace) tabs 1;;
      Storage.saveWorkspaceTabs (id workspace) tabs 1;;
      updateContextMenu;;
      mret (RWorkspace (Some workspace))
  end.

(** [tabs.map(t => t.u).filter(url => url && !shouldExcludeUrl(url))] *)
Definition restorableUrls (tabs : list TabDescriptor) : list string :=
  omap (λ d, match u d with
             | Some url =>
                 if truthyStr url && negb (shouldExcludeUrl env (Some url))
                 then Some url else None
             | None => None
             end) tabs.

Definition openWorkspace (workspaceId : option string) : M Response :=
  index ← gets workspaceIndex;
  match findIndex index workspaceId, workspaceId with
  | Some (_, workspace), Some wsId =>
      bindings ← gets windowBindings;
      s ← gets settings;
      let existingWindowId := findWindow bindings wsId in
      focused ←
        match existingWindowId with
        | Some existing =>
            if focusExistingWindow s then
              try_catch (Browser.windows_focus existing;; mret (Some existing))
                        (λ _, mret None)
            else mret None
        | None => mret None
        end;
      match focused with
      | Some existing => mret (RWindowId existing)
      | None =>
          tabs ← Storage.getWorkspaceTabs wsId;
          let urls := restorableUrls tabs in
          let urls := match urls with [] => ["about:newtab"] | _ => urls end in
          newWindow ← Browser.windows_create (default "" (head urls));
          forEach (tail urls) (Browser.tabs_create newWindow);;
          windowTabs ← Browser.tabs_query newWindow;
          forEach (zip windowTabs tabs)
                  (λ '(wt, d), if p d then Browser.tabs_pin (tab_id wt) else mret ());;
          modify (λ w, set_windowBindings (<[newWindow := wsId]> (windowBindings w)) w);;
          b ← gets windowBindings;
          Storage.saveWindowBindings b;;
          notifyContentScripts newWindow;;
          updateWindowIndicators newWindow;;
          mret (RWindowId newWindow)
      end
  | _, _ => mret (RError "Workspace not found")
  end.

(** [openWorkspace] up to its first suspension on the way to a new window,
    [await Storage.getWorkspaceTabs(workspaceId)]: the look-up in the
    registry and the already-open check, with the attempt to focus.  It
    answers [inl response] when the call is over, and [inr wsId] when the call
    goes on to build a window. *)
Definition openWorkspace_check (workspaceId : option string) : M (Response + string) :=
  index ← gets workspaceIndex;
  match findIndex index workspaceId, workspaceId with
  | Some (_, workspace), Some wsId =>
      bindings ← gets windowBindings;
      s ← gets settings;
      let existingWindowId := findWindow bindings wsId in
      focused ←
        match existingWindowId with
        | Some existing =>
            if focusExistingWindow s then
              try_catch (Browser.windows_focus existing;; mret (Some existing))
                        (λ _, mret None)
            else mret None
        | None => mret None
        end;
      match focused with
      | Some existing => mret (inl (RWindowId existing))
      | None => mret (inr wsId)
      end
  | _, _ => mret (inl (RError "Workspace not found"))
  end.

(** [openWorkspace] from that await on: the window is built, bound and
    announced. *)
Definition openWorkspace_build (wsId : string) : M Response :=
  tabs ← Storage.getWorkspaceTabs wsId;
  let urls := restorableUrls tabs in
  let urls := match urls with [] => ["about:newtab"] | _ => urls end in
  newWindow ← Browser.windows_create (default "" (head urls));
  forEach (tail urls) (Browser.tabs_create newWindow);;
  windowTabs ← Browser.tabs_query newWindow;
  forEach (zip windowTabs tabs)
          (λ '(wt, d), if p d then Browser.tabs_pin (tab_id wt) else mret ());;
  modify (λ w, set_windowBindings (<[newWindow := wsId]> (windowBindings w)) w);;
  b ← gets windowBindings;
  Storage.saveWindowBindings b;;
  notifyContentScripts newWindow;;
  updateWindowIndicators newWindow;;
  mret (RWindowId newWindow).

(** What is left of the call after the check. *)
Definition openWorkspace_resume (r : Response + string) : M Response :=
  match r with
  | inl response => mret response
  | inr wsId => openWorkspace_build wsId
  end.

(** Two calls of [openWorkspace] that overlap: the second message arrives
    while the first call is suspended at one of its awaits between the
    already-open check and the binding of its window.  The check of the
    second call reads the registry, the table and the settings, none of which
    the first call writes before it binds, so the run is that of the two
    checks followed by the rest of the first call and the rest of the
    second. *)
Definition openWorkspace_overlapped (first second : option string)
  : M (Response * Response) :=
  r1 ← openWorkspace_check first;
  r2 ← openWorkspace_check second;
  a1 ← openWorkspace_resume r1;
  a2 ← openWorkspace_resume r2;
  mret (a1, a2).

Definition deleteWorkspace (workspaceId : option string) : M Response :=
  index ← gets workspaceIndex;
  match findIndex index workspaceId, workspaceId with
  | Some (i, _), Some wsId =>
      modify (set_workspaceIndex (delete i index));;
      index' ← gets workspaceIndex;
      Storage.saveWorkspaceIndex index';;
      Storage.saveWorkspaceIndex index';;
      Storage.deleteWorkspaceData wsId;;
      updateContextMenu;;
      bindings ← gets windowBindings;
      forEach (entries bindings)
              (λ '(windowId, bound),
                 if decide (bound = wsId) then
                   modify (λ w, set_windowBindings (delete windowId (windowBindings w)) w);;
                   updateWindowIndicators windowId
                 else mret ());;
      b ← gets windowBindings;
      Storage.saveWindowBindings b;;
      mret RSuccess
  | _, _ => mret (RError "Workspace not found")
  end.

Definition renameWorkspace (workspaceId : option string) (newName : string) : M Response :=
  index ← gets workspaceIndex;
  match findIndex index workspaceId with
  | Some (i, workspace) =>
      now ← Browser.Date_now;
      modify (set_workspaceIndex (<[i := with_updatedAt now (with_name newName workspace)]> index));;
      index' ← gets workspaceIndex;
      Storage.saveWorkspaceIndex index';;
      updateContextMenu;;
      refreshAllWindowIndicators;;
      mret RSuccess
  | None => mret (RError "Workspace not found")
  end.

Definition toggleWorkspacePin (workspaceId : option string) : M Response :=
  index ← gets workspaceIndex;
  match findIndex index workspaceId with
  | Some (i, workspace) =>
      let workspace := with_pinned (negb (pinned workspace)) workspace in
      modify (set_workspaceIndex (<[i := workspace]> index));;
      index' ← gets workspaceIndex;
      Storage.saveWorkspaceIndex index';;
      mret (RPinned (pinned workspace))
  | None => mret (RError "Workspace not found")
  end.

Definition getCurrentWorkspace (windowId : option Z) : M Response :=
  if negb (truthyOptZ windowId) then mret (RWorkspace None)
  else
    bindings ← gets windowBindings;
    let workspaceId := windowId ≫= (λ k, bindings !! k) in
    if negb (truthyOptStr workspaceId) then mret (RWorkspace None)
    else
      index ← gets workspaceIndex;
      match findIndex index workspaceId with
      | Some (_, workspace) => mret (RWorkspace (Some workspace))
      | None => mret (RWorkspace None)
      end.

Definition handleMessage (message : Message) : M Response :=
  let a := action message in
  if String.eqb a "getWorkspaces" then
    index ← gets workspaceIndex;
    bindings ← gets windowBindings;
    mret (RWorkspaces index bindings)
  else if String.eqb a "createWorkspace" then createWorkspace (m_data message)
  else if String.eqb a "openWorkspace" then openWorkspace (m_workspaceId message)
  else if String.eqb a "deleteWorkspace" then deleteWorkspace (m_workspaceId message)
  else if String.eqb a "renameWorkspace" then
    renameWorkspace (m_workspaceId message) (m_name message)
  else if String.eqb a "togglePin" then toggleWorkspacePin (m_workspaceId message)
  else if String.eqb a "getSettings" then
    s ← gets settings;
    mret (RSettings s)
  else if String.eqb a "saveSettings" then
    modify (set_settings (m_settings message));;
    s ← gets settings;
    Storage.saveSettings s;;
    mret RSuccess
  else if String.eqb a "getStorageUsage" then
    usage ← gets (λ w, getSyncStorageUsage env (store w));
    mret (RUsage usage)
  else if String.eqb a "getCurrentWorkspace" then getCurrentWorkspace (m_windowId message)
  else mret (RError "Unknown action").

(** [init], up to the registration of the listeners. *)
Definition init : M unit :=
  s ← Storage.getSettings;
  modify (set_settings s);;
  index ← Storage.getWorkspaceIndex;
  modify (set_workspaceIndex index);;
  bindings ← Storage.getWindowBindings;
  modify (set_windowBindings bindings);;
  cleanupStaleBindings;;
  refreshAllWindowIndicators;;
  updateContextMenu.

End Handlers.

(** ** Events *)

(** What can happen to the background script: a message, a tab listener
    call, a timer firing, a window closing (the browser drops the window, then
    calls the [onRemoved] listener), the context-menu click that moves a tab,
    a registry change arriving from sync, the clock advancing, and a reload of
    the script (its variables start over, its pending timers are gone, and
    [init] runs). *)
Inductive Event :=
  | EvMessage (message : Message)
  | EvTabChange (info : TabChangeInfo)
  | EvTimer (handle : Z)
  | EvWindowRemoved (windowId : Z)
  | EvMoveTab (tab : BrowserTab) (targetWorkspaceId : string)
  | EvSyncIndex (newValue : option (list Workspace))
  | EvTick (ms : Z)
  | EvStartup.

Section Events.

Variable env : Env.

Definition windowClosed (windowId : Z) : M unit :=
  Browser.on_host (λ h, set_windows (delete windowId (windows h)) h);;
  onWindowRemoved windowId.

Definition reload : M unit :=
  modify (λ w, mkWorld [] ∅ (mkSettings false false false) ∅ (store w)
                       (set_timers ∅ (host w)) (trace w));;
  init.

Definition handle (ev : Event) : M unit :=
  match ev with
  | EvMessage message => handleMessage env message;; mret ()
  | EvTabChange info => handleTabChange info
  | EvTimer h => fireTimer env h
  | EvWindowRemoved windowId => windowClosed windowId
  | EvMoveTab tab target => moveTabToWorkspace env tab target
  | EvSyncIndex newValue => onSyncIndexChanged newValue
  | EvTick ms => Browser.on_host (λ h, set_clock (clock h + ms) h)
  | EvStartup => reload
  end.

(** An event handler that throws leaves the world as it was at the throw. *)
Definition step (ev : Event) (w : World) : World := exec (handle ev) w.

Definition run (evs : list Event) (w : World) : World := foldl (λ w ev, step ev w) w evs.

End Events.

(** A first start: nothing stored, nothing open. *)
Definition emptyStore (s : Settings) : Store := mkStore [] ∅ ∅ ∅ ∅ s.
Definition emptyHost : Host := mkHost ∅ 1 0 ∅ 1 0.
Definition boot (s : Settings) (h : Host) : World :=
  mkWorld [] ∅ s ∅ (emptyStore s) h [].

(** ** A concrete choice of the helpers, for running the handlers *)

(** Modelled from the spec: the helpers of [shared/utils.js] (outside
    [background.js]).  The exclusion policy treats a missing or empty URL and
    the browser's internal [about:] pages as excluded; the codec copies url,
    title and pinned flag; the serialization is a stand-in for
    [JSON.stringify] that tells any two descriptor sequences apart, and the
    fingerprint is the serialization itself, so it never collides; ids are
    unique and non-empty. *)
Module Sample.

Definition shouldExcludeUrl (url : option string) : bool :=
  match url with
  | None => true
  | Some s => String.eqb s "" || String.prefix "about:" s
  end.

Definition createTabDescriptor (tab : BrowserTab) : TabDescriptor :=
  mkDesc (tab_url tab) (tab_title tab) (tab_pinned tab).

Definition jsonStringify (ds : list TabDescriptor) : string :=
  String.concat ","
    (map (λ d, "{" ++ default "" (u d) ++ "|" ++ default "" (t d) ++ "|"
                ++ (if p d then "true" else "false") ++ "}")%string ds).

(** The n-th id is "ws" followed by n strokes. *)
Fixpoint strokes (n : nat) : string :=
  match n with
  | O => ""
  | S n' => String.append "i" (strokes n')
  end.
Definition generateId (n : nat) : string := String.append "ws" (strokes n).

Definition env : Env :=
  mkEnv shouldExcludeUrl createTabDescriptor (λ s, s) jsonStringify generateId
        (λ _, "#3B82F6") (λ _, "Workspace") (λ _, 0).

End Sample.

(** ** What the claims observe *)

Section Observations.

Variable env : Env.

(** The descriptors a capture of window [windowId] would compute now. *)
Definition captured (w : World) (windowId : Z) : list TabDescriptor :=
  describeTabs env (settings w) (default [] (windows (host w) !! windowId)).

(** The version the store holds for a workspace. *)
Definition storedVersion (w : World) (workspaceId : string) : Z :=
  default 0 (st_version (store w) !! workspaceId).
Definition storedTabs (w : World) (workspaceId : string) : list TabDescriptor :=
  default [] (st_tabs (store w) !! workspaceId).
Definition storedHash (w : World) (workspaceId : string) : option string :=
  st_hash (store w) !! workspaceId.

(** The snapshot writes in a trace that target one workspace. *)
Definition snapshotWrites (workspaceId : string) (tr : list Effect) : list Z :=
  omap (λ e, match e with
             | SaveWorkspaceTabs i _ v => if decide (i = workspaceId) then Some v else None
             | _ => None
             end) tr.

(** The window [openWorkspace] focuses instead of opening a new one: the
    first window bound to the workspace in the order of [entries] (the
    lowest-numbered one), when [focusExistingWindow] is set and that window
    is live. *)
Definition focusable (w : World) (workspaceId : string) : option Z :=
  match findWindow (windowBindings w) workspaceId with
  | Some existing =>
      if focusExistingWindow (settings w) then
        match windows (host w) !! existing with
        | Some _ => Some existing
        | None => None
        end
      else None
  | None => None
  end.

(** The world [openWorkspace] leaves after opening window [nextId]: the
    browser's windows are [hw], its id counter is [n]. *)
Definition opened (w : World) (workspaceId : string)
    (hw : gmap Z (list BrowserTab)) (n : Z) : World :=
  let newWindow := nextId (host w) in
  let bindings := <[newWindow := workspaceId]> (windowBindings w) in
  mkWorld (workspaceIndex w) bindings (settings w) (saveTimers w)
          (mkStore (st_index (store w)) (st_tabs (store w)) (st_version (store w))
                   (st_hash (store w)) bindings (st_settings (store w)))
          (set_nextId n (set_windows hw (host w)))
          (trace w ++ [SaveWindowBindings bindings; NotifyContentScripts newWindow;
                       UpdateWindowIndicators newWindow]).

End Observations.

(** ** The binding life cycle *)

(** The operations that make, drop and reap bindings. *)
Inductive BindingOp :=
  | OpCreate (data : CreateData)
  | OpOpen (workspaceId : option string)
  | OpClose (windowId : Z)
  | OpReap.

Section BindingOps.

Variable env : Env.

Definition applyOp (op : BindingOp) : M unit :=
  match op with
  | OpCreate data => createWorkspace env (Some data);; mret ()
  | OpOpen workspaceId => openWorkspace env workspaceId;; mret ()
  | OpClose windowId => windowClosed windowId
  | OpReap => cleanupStaleBindings
  end.

Definition applyOps (ops : list BindingOp) (w : World) : World :=
  foldl (λ w op, exec (applyOp op) w) w ops.

(** A request to create a workspace from a window names a live window. *)
Definition opReady (w : World) (op : BindingOp) : Prop :=
  match op with
  | OpCreate data =>
      cd_fromCurrentWindow data = true →
      ∀ k, cd_windowId data = Some k → k ≠ 0 → is_Some (windows (host w) !! k)
  | _ => True
  end.

Fixpoint opsReady (w : World) (ops : list BindingOp) : Prop :=
  match ops with
  | [] => True
  | op :: rest => opReady w op ∧ opsReady (exec (applyOp op) w) rest
  end.

(** Ids are truthy, and the ids still to be generated are not in use. *)
Definition WellFormed (w : World) : Prop :=
  (∀ ws, ws ∈ workspaceIndex w → id ws ≠ "") ∧
  (∀ k v, windowBindings w !! k = Some v → v ≠ "") ∧
  (∀ n, (entropy (host w) ≤ n)%nat →
        (∀ ws, ws ∈ workspaceIndex w → id ws ≠ generateId env n) ∧
        (∀ k, windowBindings w !! k ≠ Some (generateId env n))).

End BindingOps.

(** The ids in the registry and in the binding table are truthy. *)
Definition TruthyIds (w : World) : Prop :=
  (∀ ws, ws ∈ workspaceIndex w → id ws ≠ "") ∧
  (∀ k v, windowBindings w !! k = Some v → v ≠ "").

(** The browser hands out fresh ids: the tabs that exist have ids below the
    next one. *)
Definition freshTabs (h : Host) : bool :=
  forallb (λ tb, tab_id tb <? nextId h) (Browser.all_tabs (windows h)).

(** The binding table holds no key of a window that is not live. *)
Definition boundToLive (w : World) : Prop :=
  ∀ k v, windowBindings w !! k = Some v → is_Some (windows (host w) !! k).

(** No two windows are bound to the same workspace. *)
Definition oneWindowPerWorkspace (w : World) : Prop :=
  ∀ k1 k2 v, windowBindings w !! k1 = Some v → windowBindings w !! k2 = Some v → k1 = k2.

(** A window is bound to at most one workspace. *)
Definition oneWorkspacePerWindow (w : World) : Prop :=
  ∀ k v1 v2, windowBindings w !! k = Some v1 → windowBindings w !! k = Some v2 → v1 = v2.

Definition BindingInvariant (w : World) : Prop :=
  oneWorkspacePerWindow w ∧ oneWindowPerWorkspace w ∧ boundToLive w.

(** ** Debounce timers *)



(** A handler that leaves an observation of the world as it found it,
    whether it returns or throws. *)
Definition preserves {A B} (observe : World → B) (m : M A) : Prop :=
  ∀ w, observe (m w).2 = observe w.




(** ** Sample worlds *)

Module Scenario.

Definition allOn : Settings := mkSettings true true true.
Definition noFocus : Settings := mkSettings true true false.

(** One window, number 1, with two ordinary tabs, an internal page and a
    pinned tab; the clock reads 1000. *)
Definition oneWindow : Host :=
  mkHost {[ 1 := [mkTab 10 (Some "https://a.example") (Some "A") false;
                  mkTab 11 (Some "https://b.example") (Some "B") false;
                  mkTab 12 (Some "about:config") None false;
                  mkTab 13 (Some "https://c.example") (Some "C") true] ]}
         20 1000 ∅ 1 0.

Definition create (name : string) (windowId : option Z) : Message :=
  mkMessage "createWorkspace"
            (Some (mkCreateData (Some name) (Some "#3B82F6")
                                (bool_decide (is_Some windowId)) windowId))
            None "" allOn None.

(** The same, with a second window, number 2, holding one tab. *)
Definition twoWindows : Host :=
  mkHost (<[ 2 := [mkTab 30 (Some "https://d.example") (Some "D") false] ]>
            (windows oneWindow))
         40 1000 ∅ 1 0.

(** Workspace "Research" has just been created from window 1. *)
Definition research (s : Settings) : World :=
  step Sample.env (EvMessage (create "Research" (Some 1))) (boot s oneWindow).

(** "Research" was created from window 1 of two, a tab change was
    captured when its timer fired, and window 1 was closed. *)
Definition researchClosed : World :=
  run Sample.env
      [EvMessage (create "Research" (Some 1));
       EvTabChange (mkInfo (Some 1) (Some 10));
       EvTimer 1;
       EvWindowRemoved 1]
      (boot allOn twoWindows).

End Scenario.

(** Whether each version in a sequence of snapshot writes is strictly greater
    than the version persisted before it. *)
Fixpoint strictlyIncreasingFrom (previous : Z) (versions : list Z) : bool :=
  match versions with
  | [] => true
  | v :: rest => bool_decide (previous < v) && strictlyIncreasingFrom v rest
  end.

(** ** The tab listeners *)

(** What the browser passes to the listeners registered by
    [setupTabListeners]: [onCreated(tab)], [onRemoved(tabId, removeInfo)],
    [onMoved(tabId, moveInfo)], [onUpdated(tabId, changeInfo, tab)] with the
    new URL when it changed, [onAttached(tabId, attachInfo)] and
    [onDetached(tabId, detachInfo)]. *)
Inductive TabEvent :=
  | TabCreated (tab : BrowserTab) (windowId : Z)
  | TabRemoved (tabId : Z)
  | TabMoved (tabId : Z)
  | TabUpdated (tabId : Z) (changedUrl : option string) (windowId : Z)
  | TabAttached (tabId : Z) (newWindowId : Z)
  | TabDetached (tabId : Z) (oldWindowId : Z).

(** [onCreated], [onRemoved] and [onMoved] are given [handleTabChange]
    itself, which reads [windowId] and [id] off its first argument: a tab for
    [onCreated], a bare tab id (a number, with neither property) for the other
    two.  The other three listeners build the argument. *)
Definition onTabEvent (e : TabEvent) : M unit :=
  match e with
  | TabCreated tab windowId => handleTabChange (mkInfo (Some windowId) (Some (tab_id tab)))
  | TabRemoved _ => handleTabChange (mkInfo None None)
  | TabMoved _ => handleTabChange (mkInfo None None)
  | TabUpdated _ changedUrl windowId =>
      if truthyOptStr changedUrl then handleTabChange (mkInfo (Some windowId) None)
      else mret ()
  | TabAttached _ newWindowId => handleTabChange (mkInfo (Some newWindowId) None)
  | TabDetached _ oldWindowId => handleTabChange (mkInfo (Some oldWindowId) None)
  end.

(** The pending timers are coalesced: handles are positive and below the next
    handle, and every pending timer is the one [saveTimers] records for its
    workspace. *)
Definition TimersCoalesced (w : World) : Prop :=
  0 < nextTimer (host w) ∧
  (∀ h c, timers (host w) !! h = Some c → 0 < h < nextTimer (host w)) ∧
  (∀ h ws wid, timers (host w) !! h = Some (ws, wid) → saveTimers w !! ws = Some h).

(** ** The context menu *)

(** The rest of [s] after [pattern], when [s] starts with it. *)
Fixpoint stripPrefix (pattern s : string) : option string :=
  match pattern with
  | EmptyString => Some s
  | String a pattern' =>
      match s with
      | String b s' => if Ascii.eqb a b then stripPrefix pattern' s' else None
      | EmptyString => None
      end
  end.

(** [s.startsWith(pattern)] *)
Definition startsWith (s pattern : string) : bool :=
  match stripPrefix pattern s with Some _ => true | None => false end.

(** [s.replace(pattern, '')] for a string pattern: the first occurrence of
    the pattern is removed. *)
Fixpoint removeFirst (pattern s : string) : string :=
  match stripPrefix pattern s with
  | Some rest => rest
  | None =>
      match s with
      | EmptyString => EmptyString
      | String c s' => String c (removeFirst pattern s')
      end
  end.

(** The id and title of the submenu item [updateContextMenu] creates for a
    registry entry, and the items it creates for the registry, in order. *)
Definition menuItemId (ws : Workspace) : string := String.append "move-to-ws-" (id ws).
Definition menuItems (index : list Workspace) : list (string * string) :=
  (λ ws, (menuItemId ws, name ws)) <$> index.

(** The [browser.menus.onClicked] listener of [setupContextMenu]. *)
Definition onMenuClicked (env : Env) (clickedItemId : string) (tab : BrowserTab) : M unit :=
  if startsWith clickedItemId "move-to-ws-"
  then moveTabToWorkspace env tab (removeFirst "move-to-ws-" clickedItemId)
  else mret ().

(** ** The badge label *)

Definition BADGE_MAX_CHARS : nat := 4.

(** The characters [trim] strips and [\s] matches, among the code units
    below 256 that a character of a [string] stands for: tab, line feed,
    vertical tab, form feed, carriage return, space and no-break space. *)
Definition isWhiteSpace (c : Ascii.ascii) : bool :=
  let n := Ascii.N_of_ascii c in
  ((9 <=? n) && (n <=? 13) || (n =? 32) || (n =? 160))%N.

Fixpoint trimStartChars (l : list Ascii.ascii) : list Ascii.ascii :=
  match l with
  | c :: l' => if isWhiteSpace c then trimStartChars l' else l
  | [] => []
  end.

(** [s.trim()] *)
Definition trim (s : string) : string :=
  String.string_of_list_ascii
    (reverse (trimStartChars (reverse (trimStartChars (String.list_ascii_of_string s))))).

(** [s.split(/\s+/)]: the pieces between the runs of white space, with an
    empty piece before a leading run and after a trailing one.  [inGap] says
    that the previous character was white space, [piece] is the piece being
    read. *)
Fixpoint splitChars (inGap : bool) (piece : list Ascii.ascii) (l : list Ascii.ascii)
  : list (list Ascii.ascii) :=
  match l with
  | [] => [piece]
  | c :: l' =>
      if isWhiteSpace c then
        if inGap then splitChars true [] l' else piece :: splitChars true [] l'
      else splitChars false (piece ++ [c]) l'
  end.
Definition splitWhiteSpace (s : string) : list string :=
  String.string_of_list_ascii <$> splitChars false [] (String.list_ascii_of_string s).

(** [word[0]], which [join] turns into the empty string when the word is
    empty. *)
Definition firstCharacter (word : string) : string :=
  match word with
  | String c _ => String c EmptyString
  | EmptyString => EmptyString
  end.

(** [getWorkspaceBadgeText], over the browser's [toUpperCase]. *)
Definition getWorkspaceBadgeText (toUpperCase : string → string) (name : string) : string :=
  let trimmed := trim name in
  if negb (truthyStr trimmed) then ""
  else
    let parts := splitWhiteSpace trimmed in
    let label :=
      if decide (length parts = 1%nat)
      then String.substring 0 BADGE_MAX_CHARS (default "" (head parts))
      else String.concat "" (firstCharacter <$> take 2 parts) in
    String.substring 0 BADGE_MAX_CHARS (toUpperCase label).

(** Names of white space only, and names without white space. *)
Definition onlyWhiteSpace (s : string) : bool :=
  forallb isWhiteSpace (String.list_ascii_of_string s).
Definition noWhiteSpace (s : string) : bool :=
  forallb (λ c, negb (isWhiteSpace c)) (String.list_ascii_of_string s).

(** ** Settings *)

(** The events that replace the settings: a [saveSettings] message. *)
Definition savesSettings (ev : Event) : bool :=
  match ev with
  | EvMessage message => String.eqb (action message) "saveSettings"
  | _ => false
  end.

(** * Properties *)

(** ** Proof steps shared by the handlers *)

(** The equations of the monad, oriented for rewriting a handler applied to
    a world, one call at a time. *)
Section MonadLaws.

Context {A B C : Type}.

Lemma mbind_gets (f : World → A) (k : A → M B) w : (gets f ≫= k) w = k (f w) w.
Proof. reflexivity. Qed.
Lemma mbind_modify (f : World → World) (k : unit → M B) w :
  (modify f ≫= k) w = k () (f w).
Proof. reflexivity. Qed.
Lemma mbind_mret (a : A) (k : A → M B) w : (mret a ≫= k) w = k a w.
Proof. reflexivity. Qed.
Lemma mbind_throw (e : string) (k : A → M B) w : (throw e ≫= k) w = (Thrown e, w).
Proof. reflexivity. Qed.
Lemma mbind_assoc (m : M A) (f : A → M B) (g : B → M C) w :
  ((m ≫= f) ≫= g) w = (m ≫= λ x, f x ≫= g) w.
Proof.
  unfold mbind, M_bind, bind. destruct (m w) as [[a|e] w']; [|done].
  by destruct (f a w') as [[b|e] w''].
Qed.
Lemma mret_run (a : A) w : mret (M := M) a w = (Returned a, w).
Proof. reflexivity. Qed.
Lemma gets_run (f : World → A) w : gets f w = (Returned (f w), w).
Proof. reflexivity. Qed.
Lemma modify_run (f : World → World) w : modify f w = (Returned (), f w).
Proof. reflexivity. Qed.
Lemma throw_run (e : string) w : throw (A := A) e w = (Thrown e, w).
Proof. reflexivity. Qed.
Lemma mbind_run (m : M A) (k : A → M B) w a w' :
  m w = (Returned a, w') → (m ≫= k) w = k a w'.
Proof. unfold mbind, M_bind, bind. by intros ->. Qed.

End MonadLaws.

(** Read a field back through the updates. *)
Ltac fields :=
  unfold set_workspaceIndex, set_windowBindings, set_settings, set_saveTimers, set_store,
    set_host, emit, set_windows, set_nextId, set_clock, set_timers, set_nextTimer,
    set_entropy in *;
  cbn [workspaceIndex windowBindings settings saveTimers store host trace
       windows nextId clock timers nextTimer entropy
       st_index st_tabs st_version st_hash st_bindings st_settings fst snd] in *.


(** Run the next call of a handler applied to a world. *)
Ltac call :=
  first [ rewrite mbind_assoc | rewrite mbind_gets | rewrite mbind_modify
        | rewrite mbind_mret | rewrite mbind_throw
        | rewrite mret_run | rewrite gets_run | rewrite modify_run | rewrite throw_run ];
  cbn beta.
Ltac calls := repeat (call; fields).

(** Run the monadic plumbing of a small handler down to its state transformer. *)
Ltac run_handler :=
  repeat (progress
            (unfold mbind, mret, M_bind, M_ret, bind, ret, gets, modify, throw, try_catch,
                    exec, outcome, Storage.write, Browser.on_host in *;
             cbn beta iota zeta in *)).

Lemma findIndex_Some index workspaceId i ws :
  findIndex index workspaceId = Some (i, ws) →
  workspaceId = Some (id ws) ∧ index !! i = Some ws ∧
  ∀ j ws', index !! j = Some ws' → (j < i)%nat → id ws' ≠ id ws.
Proof.
  destruct workspaceId as [k|]; simpl; [|done].
  intros (Hl & <- & Hbefore)%list_find_Some. eauto.
Qed.


Lemma findIndex_elem_of index workspaceId i ws :
  findIndex index workspaceId = Some (i, ws) → ws ∈ index.
Proof.
  intros (_ & Hl & _)%findIndex_Some. by eapply list_elem_of_lookup_2.
Qed.

(** ** Looking up the workspace of a window *)

(** C10. [getCurrentWorkspace] never throws and never answers with an
    error, and it leaves the world untouched.  It answers
    [{workspace: null}] when the window id is missing or falsy, when the
    window has no entry in the binding table, and when the bound id is absent
    from the registry.  When the window id is truthy and the window is bound
    to a (truthy) id present in the registry, it answers with the registry
    entry of that id, the first one if several carry it.  And it answers
    with a record in no other case. *)
Theorem getCurrentWorkspace_never_errors (w : World) (windowId : option Z) :
  ∃ r : option Workspace,
    getCurrentWorkspace windowId w = (Returned (RWorkspace r), w) ∧
    (truthyOptZ windowId = false → r = None) ∧
    (∀ k, windowId = Some k → windowBindings w !! k = None → r = None) ∧
    (∀ k wsId, windowId = Some k → windowBindings w !! k = Some wsId →
               (∀ ws, ws ∈ workspaceIndex w → id ws ≠ wsId) → r = None) ∧
    (∀ k wsId i ws,
       windowId = Some k → k ≠ 0 →
       windowBindings w !! k = Some wsId → wsId ≠ "" →
       workspaceIndex w !! i = Some ws → id ws = wsId →
       (∀ j ws', (j < i)%nat → workspaceIndex w !! j = Some ws' → id ws' ≠ wsId) →
       r = Some ws) ∧
    (∀ ws, r = Some ws →
           ∃ k, windowId = Some k ∧ k ≠ 0 ∧
                windowBindings w !! k = Some (id ws) ∧ id ws ≠ "" ∧
                ws ∈ workspaceIndex w).
Proof.
  unfold getCurrentWorkspace.
  destruct (truthyOptZ windowId) eqn:Htruthy; run_handler.
  2:{ exists None. split; [done|]. split; [done|]. split; [done|]. split; [done|].
      split; [|done]. intros k wsId i ws -> Hk. unfold truthyZ in Htruthy.
      apply negb_false_iff, Z.eqb_eq in Htruthy. done. }
  destruct windowId as [k|]; [|done]. simpl in Htruthy. simpl.
  destruct (windowBindings w !! k) as [wsId|] eqn:Hbound; simpl.
  2:{ exists None. split; [done|]. split; [done|]. split; [done|]. split; [done|].
      split; [|done]. intros k' wsId i ws [= <-] _ Hb. congruence. }
  destruct (truthyStr wsId) eqn:Hws; simpl.
  2:{ exists None. split; [done|]. split; [done|]. split; [done|]. split; [done|].
      split; [|done]. intros k' wsId' i ws [= <-] _ Hb Hne. simplify_eq.
      unfold truthyStr in Hws. apply negb_false_iff, String.eqb_eq in Hws. done. }
  destruct (list_find (λ ws, id ws = wsId) (workspaceIndex w)) as [[i ws]|] eqn:Hfind.
  - exists (Some ws). apply (findIndex_Some _ (Some wsId)) in Hfind as Hf.
    destruct Hf as ([= ->] & Hl & Hfirst).
    split; [done|]. split; [done|]. split; [intros k' [= <-]; congruence|].
    split; [|split].
    + intros k' wsId' [= <-] Hb Hnone. simplify_eq.
      exfalso. eapply Hnone; [|done]. by eapply list_elem_of_lookup_2.
    + intros k' wsId' i' ws' [= <-] _ Hb _ Hl' Hid' Hfirst'. simplify_eq.
      destruct (Nat.lt_trichotomy i i') as [Hlt|[->|Hgt]].
      * exfalso. by eapply (Hfirst' i ws).
      * congruence.
      * exfalso. by eapply (Hfirst i' ws').
    + intros ws' [= <-]. exists k. split; [done|]. split.
      { unfold truthyZ in Htruthy. intros ->. done. }
      split; [done|]. split.
      { unfold truthyStr in Hws. intros Heq. rewrite Heq in Hws. done. }
      by eapply list_elem_of_lookup_2.
  - exists None. split; [done|]. split; [done|]. split; [done|]. split; [done|].
    split; [|done]. intros k' wsId' i ws [= <-] _ Hb _ Hl Hid _. simplify_eq.
    apply list_find_None in Hfind. rewrite Forall_forall in Hfind.
    exfalso. apply (Hfind ws); [|done]. by eapply list_elem_of_lookup_2.
Qed.

(** ** Snapshot capture *)

Section Capture.

Variable env : Env.

Lemma saveWorkspaceSnapshot_skip w workspaceId windowId :
  storedHash w workspaceId = Some (fingerprint env (captured env w windowId)) →
  saveWorkspaceSnapshot env workspaceId windowId w = (Returned (), w).
Proof.
  unfold storedHash, captured, saveWorkspaceSnapshot, Storage.getLastHash,
    Browser.tabs_query. intros Hh. run_handler.
  rewrite decide_True by done. done.
Qed.

Lemma saveWorkspaceSnapshot_write w workspaceId windowId :
  storedHash w workspaceId ≠ Some (fingerprint env (captured env w windowId)) →
  let w' := exec (saveWorkspaceSnapshot env workspaceId windowId) w in
  outcome (saveWorkspaceSnapshot env workspaceId windowId) w = Returned () ∧
  settings w' = settings w ∧ host w' = host w ∧
  windowBindings w' = windowBindings w ∧ saveTimers w' = saveTimers w ∧
  storedHash w' workspaceId = Some (fingerprint env (captured env w windowId)) ∧
  storedTabs w' workspaceId = captured env w windowId ∧
  storedVersion w' workspaceId = storedVersion w workspaceId + 1 ∧
  snapshotWrites workspaceId (trace w') =
    snapshotWrites workspaceId (trace w) ++ [storedVersion w workspaceId + 1].
Proof.
  unfold storedHash, storedTabs, storedVersion, captured, saveWorkspaceSnapshot,
    Storage.getLastHash, Storage.getWorkspaceVersion, Storage.saveWorkspaceTabs,
    Storage.saveLastHash, Storage.saveWorkspaceIndex, Browser.tabs_query, Browser.Date_now.
  intros Hh. run_handler.
  rewrite decide_False by done. cbn.
  destruct (list_find _ (workspaceIndex w)) as [[i ws]|]; cbn;
    rewrite ?lookup_insert_eq; unfold snapshotWrites;
    rewrite ?omap_app; cbn; rewrite ?decide_True by done; rewrite ?app_nil_r;
    repeat split; done.
Qed.

End Capture.

(** C3. Capture is idempotent with respect to the fingerprint.  When the
    fingerprint of the freshly captured descriptors equals the one stored for
    the workspace, [saveWorkspaceSnapshot] returns the world it was given:
    no write, so snapshot, fingerprint, version, registry and trace are all
    unchanged.  A second capture right after a first one is always such a
    no-op; so two captures in a row bump the version exactly once when the
    first one finds a different fingerprint, with exactly one snapshot write
    added to the trace. *)
Theorem capture_idempotent (env : Env) (w : World) (workspaceId : string) (windowId : Z) :
  let capture := saveWorkspaceSnapshot env workspaceId windowId in
  let fresh := fingerprint env (captured env w windowId) in
  let once := exec capture w in
  let twice := exec capture once in
  (storedHash w workspaceId = Some fresh → capture w = (Returned (), w)) ∧
  capture once = (Returned (), once) ∧
  (storedHash w workspaceId ≠ Some fresh →
     storedVersion twice workspaceId = storedVersion w workspaceId + 1 ∧
     snapshotWrites workspaceId (trace twice) =
       snapshotWrites workspaceId (trace w) ++ [storedVersion w workspaceId + 1]).
Proof.
  intros capture fresh once twice.
  assert (Hskip : storedHash w workspaceId = Some fresh → capture w = (Returned (), w))
    by apply saveWorkspaceSnapshot_skip.
  assert (Hsecond : capture once = (Returned (), once)).
  { destruct (decide (storedHash w workspaceId = Some fresh)) as [Heq|Hne].
    - subst once. unfold exec. rewrite (Hskip Heq). simpl. auto.
    - destruct (saveWorkspaceSnapshot_write env w workspaceId windowId Hne)
        as (_ & Hs & Hh & _ & _ & Hhash & _).
      apply saveWorkspaceSnapshot_skip. fold capture once in Hs, Hh, Hhash.
      unfold captured. rewrite Hs, Hh. exact Hhash. }
  split; [done|]. split; [done|].
  intros Hne.
  assert (Htwice : twice = once) by (subst twice; unfold exec at 1; by rewrite Hsecond).
  rewrite Htwice.
  destruct (saveWorkspaceSnapshot_write env w workspaceId windowId Hne)
    as (_ & _ & _ & _ & _ & _ & _ & Hv & Htr).
  done.
Qed.

(** ** Renaming a workspace *)

(** C9, as the code has it.  Renaming a workspace found in the registry
    rewrites exactly that entry: its name becomes the supplied name and its
    [updatedAt] becomes the clock reading [Date.now()], every other field and
    every other entry stay as they were, and the rewritten registry is what
    is persisted.  No snapshot, version or fingerprint of any workspace is
    touched.  The new [updatedAt] is later than the old one whenever the
    clock reads later than the old stamp. *)
Theorem renameWorkspace_frame (w : World) (workspaceId newName : string)
    (i : nat) (ws : Workspace) :
  findIndex (workspaceIndex w) (Some workspaceId) = Some (i, ws) →
  let w' := exec (renameWorkspace (Some workspaceId) newName) w in
  outcome (renameWorkspace (Some workspaceId) newName) w = Returned RSuccess ∧
  workspaceIndex w' !! i =
    Some (mkWorkspace (id ws) newName (color ws) (pinned ws) (archived ws) (createdAt ws)
                      (clock (host w)) (tabCount ws)) ∧
  (∀ j, j ≠ i → workspaceIndex w' !! j = workspaceIndex w !! j) ∧
  length (workspaceIndex w') = length (workspaceIndex w) ∧
  st_index (store w') = workspaceIndex w' ∧
  st_tabs (store w') = st_tabs (store w) ∧
  st_version (store w') = st_version (store w) ∧
  st_hash (store w') = st_hash (store w) ∧
  (∀ ws', workspaceIndex w' !! i = Some ws' →
          updatedAt ws < clock (host w) → updatedAt ws < updatedAt ws').
Proof.
  intros Hfind. apply findIndex_Some in Hfind as Hf. destruct Hf as (_ & Hl & _).
  unfold renameWorkspace, Storage.saveWorkspaceIndex, Browser.Date_now,
    updateContextMenu, refreshAllWindowIndicators.
  run_handler. rewrite Hfind. cbn.
  apply lookup_lt_Some in Hl as Hlt.
  repeat split; try done.
  - by rewrite list_lookup_insert_eq.
  - intros j Hj. by rewrite list_lookup_insert_ne.
  - by rewrite length_insert.
  - intros ws'. rewrite list_lookup_insert_eq by done. by intros [= <-].
Qed.

(** The rename of a freshly created workspace, one second later. *)
Lemma renameWorkspace_frame_witness :
  let w := step Sample.env (EvTick 1000)
             (step Sample.env
                (EvMessage (mkMessage "createWorkspace"
                              (Some (mkCreateData (Some "Research") None false None))
                              None "" (mkSettings true true true) None))
                (boot (mkSettings true true true) emptyHost)) in
  let w' := exec (renameWorkspace (Some "ws") "Client A") w in
  (name <$> workspaceIndex w' !! 0%nat) = Some "Client A" ∧
  (updatedAt <$> workspaceIndex w' !! 0%nat) = Some 1000 ∧
  st_version (store w') = st_version (store w).
Proof.
  intros w w'.
  destruct (renameWorkspace_frame w "ws" "Client A" 0
              (mkWorkspace "ws" "Research" "#3B82F6" false false 0 0 1))
    as (_ & Hentry & _ & _ & _ & _ & Hver & _).
  - vm_compute. reflexivity.
  - fold w'. fold w' in Hentry, Hver. rewrite Hentry.
    split; [reflexivity|]. split; [vm_compute; reflexivity | exact Hver].
Defined.

(** C9, as the claim states it, fails: a registry entry that arrived through
    sync with a stamp from a device whose clock runs ahead gets an earlier
    [updatedAt] when it is renamed here. *)
Lemma renameWorkspace_updatedAt_not_increasing :
  let w := step Sample.env
             (EvSyncIndex (Some [mkWorkspace "W1" "Old" "#3B82F6" false false 5000 5000 1]))
             (boot (mkSettings true true true) (mkHost ∅ 1 1000 ∅ 1 0)) in
  let w' := exec (renameWorkspace (Some "W1") "Client A") w in
  (updatedAt <$> workspaceIndex w !! 0%nat) = Some 5000 ∧
  (name <$> workspaceIndex w' !! 0%nat) = Some "Client A" ∧
  (updatedAt <$> workspaceIndex w' !! 0%nat) = Some 1000 ∧
  ¬ (∀ a b, (updatedAt <$> workspaceIndex w !! 0%nat) = Some a →
            (updatedAt <$> workspaceIndex w' !! 0%nat) = Some b → a < b).
Proof.
  vm_compute. repeat split; try reflexivity.
  intros H. specialize (H 5000 1000 eq_refl eq_refl). discriminate H.
Qed.

(** ** Creating a workspace *)

Lemma describeTabs_keptTab (env : Env) (s : Settings) (tabs : list BrowserTab) :
  describeTabs env s tabs = createTabDescriptor env <$> filter (λ tb, keptTab env s tb) tabs.
Proof.
  unfold describeTabs. f_equal. rewrite list_filter_filter.
  apply list_filter_iff. intros tb. unfold keptTab.
  rewrite andb_True. tauto.
Qed.

(** C8. Creating a workspace from a live window that holds three tabs that
    pass the capture filters and one tab with an excluded URL stores a
    snapshot of exactly three descriptors (those of the kept tabs, in tab
    order) at version 1, and appends a registry entry whose [tabCount] is 3.
    The window is bound to the new id, in memory and in the store, before
    the registry and the snapshot are written: the trace shows the binding
    write first. *)
Theorem createWorkspace_from_window (env : Env) (w : World) (d : CreateData)
    (windowId : Z) (tabs : list BrowserTab) :
  cd_fromCurrentWindow d = true →
  cd_windowId d = Some windowId →
  windowId ≠ 0 →
  windows (host w) !! windowId = Some tabs →
  length tabs = 4%nat →
  length (filter (λ tb, keptTab env (settings w) tb) tabs) = 3%nat →
  length (filter (λ tb, shouldExcludeUrl env (tab_url tb)) tabs) = 1%nat →
  let w' := exec (createWorkspace env (Some d)) w in
  let kept := createTabDescriptor env <$> filter (λ tb, keptTab env (settings w) tb) tabs in
  ∃ ws : Workspace,
    outcome (createWorkspace env (Some d)) w = Returned (RWorkspace (Some ws)) ∧
    id ws = generateId env (entropy (host w)) ∧
    tabCount ws = 3%nat ∧
    workspaceIndex w' = workspaceIndex w ++ [ws] ∧
    storedTabs w' (id ws) = kept ∧ length kept = 3%nat ∧
    storedVersion w' (id ws) = 1 ∧
    windowBindings w' = <[windowId := id ws]> (windowBindings w) ∧
    trace w' = trace w ++
      [SaveWindowBindings (<[windowId := id ws]> (windowBindings w));
       NotifyContentScripts windowId; UpdateWindowIndicators windowId;
       SaveWorkspaceIndex (workspaceIndex w ++ [ws]);
       SaveWorkspaceTabs (id ws) kept 1; SaveWorkspaceTabs (id ws) kept 1;
       UpdateContextMenu].
Proof.
  intros Hfrom Hwin Hnz Htabs _ Hkept _ w' kept.
  assert (Hlen : length kept = 3%nat) by (subst kept; by rewrite length_fmap).
  unfold storedTabs, storedVersion.
  assert (Hz : truthyZ windowId = true).
  { unfold truthyZ. apply negb_true_iff, Z.eqb_neq. done. }
  subst w'. unfold exec, outcome, createWorkspace, Browser.draw, Browser.Date_now,
    Browser.tabs_query, Storage.saveWindowBindings, Storage.saveWorkspaceIndex,
    Storage.saveWorkspaceTabs, Storage.write, Browser.on_host,
    notifyContentScripts, updateWindowIndicators, updateContextMenu.
  rewrite Hfrom, Hwin. cbn [truthyOptZ default andb from_option Datatypes.id].
  rewrite Hz.
  destruct (truthyOptStr (cd_color d)); calls;
    rewrite Htabs; cbn [default from_option Datatypes.id];
    rewrite !describeTabs_keptTab; fold kept; rewrite Hlen;
    cbn [with_tabCount id];
    (eexists; split; [reflexivity|]);
    cbn [with_tabCount id tabCount]; rewrite !lookup_insert_eq;
    repeat rewrite <- app_assoc; repeat split; reflexivity.
Qed.

(** The scenario of C8 on window 1 of [Scenario.oneWindow]. *)
Lemma createWorkspace_from_window_witness :
  let w := boot Scenario.allOn Scenario.oneWindow in
  let d := mkCreateData (Some "Research") (Some "#3B82F6") true (Some 1) in
  let w' := exec (createWorkspace Sample.env (Some d)) w in
  length (storedTabs w' "ws") = 3%nat ∧ storedVersion w' "ws" = 1 ∧
  (tabCount <$> last (workspaceIndex w')) = Some 3%nat ∧
  windowBindings w' !! 1 = Some "ws".
Proof.
  intros w d w'.
  destruct (createWorkspace_from_window Sample.env w d 1
              [mkTab 10 (Some "https://a.example") (Some "A") false;
               mkTab 11 (Some "https://b.example") (Some "B") false;
               mkTab 12 (Some "about:config") None false;
               mkTab 13 (Some "https://c.example") (Some "C") true]
              eq_refl eq_refl ltac:(discriminate) eq_refl eq_refl eq_refl eq_refl)
    as (ws & _ & Hid & Hcount & Hindex & Htabs & Hlen & Hver & Hbind & _).
  change (generateId Sample.env (entropy (host w))) with "ws" in Hid.
  fold w' in Hindex, Htabs, Hver, Hbind.
  rewrite Hid in Htabs, Hver, Hbind.
  rewrite Htabs, Hver, Hindex, Hbind, last_snoc, lookup_insert_eq. simpl.
  rewrite Hcount. repeat split; reflexivity.
Defined.

(** ** The binding table as JavaScript enumerates it *)

Lemma elem_of_entries (bindings : gmap Z string) k v :
  (k, v) ∈ entries bindings ↔ bindings !! k = Some v.
Proof.
  unfold entries. rewrite merge_sort_Permutation. apply elem_of_map_to_list.
Qed.

Global Instance key_le_total : Total key_le.
Proof. intros x y. unfold key_le. lia. Qed.
Global Instance key_le_trans : Transitive key_le.
Proof. intros x y z. unfold key_le. lia. Qed.

Lemma entries_sorted (bindings : gmap Z string) : StronglySorted key_le (entries bindings).
Proof. apply StronglySorted_merge_sort; apply _. Qed.

(** [find] answers with a window bound to the workspace, the one with the
    smallest id when there are several. *)
Lemma findWindow_Some bindings workspaceId k :
  findWindow bindings workspaceId = Some k →
  bindings !! k = Some workspaceId ∧
  ∀ k', bindings !! k' = Some workspaceId → k ≤ k'.
Proof.
  unfold findWindow. intros ([i [k0 v]] & Hfind & ->)%fmap_Some. simpl.
  apply list_find_Some in Hfind as (Hl & Hv & Hbefore). simpl in Hv. subst v.
  split; [by eapply elem_of_entries, list_elem_of_lookup_2|].
  intros k' Hk'. apply elem_of_entries, list_elem_of_lookup_1 in Hk' as [j Hj].
  destruct (decide (j < i)%nat) as [Hlt|Hge].
  - by destruct (Hbefore j (k', workspaceId) Hj Hlt).
  - destruct (decide (j = i)) as [->|Hne]; [by simplify_eq|].
    pose proof (entries_sorted bindings) as Hs.
    rewrite <- (take_drop_middle _ i _ Hl) in Hs, Hj.
    apply StronglySorted_app_1_r, StronglySorted_cons in Hs as [Hall _].
    rewrite Forall_forall in Hall.
    apply (Hall (k', workspaceId)).
    rewrite lookup_app_r in Hj by (rewrite length_take_le; [lia|]; apply lookup_lt_Some in Hl; lia).
    rewrite length_take_le in Hj by (apply lookup_lt_Some in Hl; lia).
    destruct (j - i)%nat as [|n] eqn:Hd; [lia|]. simpl in Hj.
    by eapply list_elem_of_lookup_2.
Qed.

Lemma findWindow_None bindings workspaceId :
  findWindow bindings workspaceId = None ↔ ∀ k, bindings !! k ≠ Some workspaceId.
Proof.
  unfold findWindow. rewrite fmap_None, list_find_None, Forall_forall. split.
  - intros H k Hk. apply elem_of_entries in Hk. by apply (H _ Hk).
  - intros H [k v] Hin Hv. simpl in Hv. subst v. apply elem_of_entries in Hin.
    by apply (H k).
Qed.


(** ** Moving a tab to another workspace *)

(** C6, on a binding whose window is gone.  "Research" was created from
    window 2, and window 2 has been closed without the table being told: no
    live window is bound to the workspace.  Moving tab 11 to it neither
    appends a descriptor nor removes the tab: [tabs.move] is called on
    window 2 and rejects, [moveTabToWorkspace] throws, and the stored
    snapshot, its version and the windows are as before.  [openWorkspace]
    catches this very failure and goes on; [moveTabToWorkspace] does not. *)
Theorem moveTabToWorkspace_closed_window_throws :
  let bound := step Sample.env (EvMessage (Scenario.create "Research" (Some 2)))
                 (boot Scenario.allOn Scenario.twoWindows) in
  let w := exec (Browser.on_host (λ h, set_windows (delete 2 (windows h)) h)) bound in
  let tab := mkTab 11 (Some "https://b.example") (Some "B") false in
  let w' := exec (moveTabToWorkspace Sample.env tab "ws") w in
  windowBindings w = {[ 2 := "ws" ]} ∧ windows (host w) !! 2 = None ∧
  Browser.find_tab 11 (windows (host w)) = Some tab ∧
  outcome (moveTabToWorkspace Sample.env tab "ws") w = Thrown "Invalid tab or window ID" ∧
  storedTabs w' "ws" = storedTabs w "ws" ∧
  storedVersion w' "ws" = storedVersion w "ws" ∧
  windows (host w') = windows (host w) ∧
  Browser.find_tab 11 (windows (host w')) = Some tab.
Proof. vm_compute. repeat split; reflexivity. Qed.

(** X19. [moveTabToWorkspace] on every world, case by case.  It goes by the
    binding table, not by the windows that are open.  For a table of window
    ids and a tab known to the browser: when some window is bound to the
    target workspace, [tabs.move] is called on the first such window (the
    lowest-numbered one) and nothing is written; if that window is open the
    tab leaves its window and becomes its last tab, and if it is not the call
    is rejected, [moveTabToWorkspace] throws, and the world stays as it was.
    When no window is bound to the workspace, the stored snapshot of the
    target grows by exactly the tab's descriptor, its version by exactly 1,
    in one snapshot write issued on the spot (no timer is armed, no capture
    runs), and the tab is removed from its window. *)
Theorem moveTabToWorkspace_cases (env : Env) (w : World) (tab : BrowserTab)
    (targetWorkspaceId : string) :
  indexKeys (windowBindings w) = true →
  is_Some (Browser.find_tab (tab_id tab) (windows (host w))) →
  let w' := exec (moveTabToWorkspace env tab targetWorkspaceId) w in
  let answer := outcome (moveTabToWorkspace env tab targetWorkspaceId) w in
  let elsewhere := filter (λ tb, tab_id tb ≠ tab_id tab) in
  workspaceIndex w' = workspaceIndex w ∧ windowBindings w' = windowBindings w ∧
  saveTimers w' = saveTimers w ∧ timers (host w') = timers (host w) ∧
  match findWindow (windowBindings w) targetWorkspaceId with
  | Some targetWindowId =>
      windowBindings w !! targetWindowId = Some targetWorkspaceId ∧
      (∀ k, windowBindings w !! k = Some targetWorkspaceId → targetWindowId ≤ k) ∧
      store w' = store w ∧ trace w' = trace w ∧
      match windows (host w) !! targetWindowId with
      | Some old =>
          answer = Returned () ∧
          (∃ moved,
              Browser.find_tab (tab_id tab) (windows (host w)) = Some moved ∧
              windows (host w') !! targetWindowId = Some (elsewhere old ++ [moved])) ∧
          (∀ k, k ≠ targetWindowId →
                windows (host w') !! k = elsewhere <$> windows (host w) !! k)
      | None =>
          answer = Thrown "Invalid tab or window ID" ∧ w' = w
      end
  | None =>
      answer = Returned () ∧
      (∀ k, windowBindings w !! k ≠ Some targetWorkspaceId) ∧
      storedTabs w' targetWorkspaceId =
        storedTabs w targetWorkspaceId ++ [createTabDescriptor env tab] ∧
      storedVersion w' targetWorkspaceId = storedVersion w targetWorkspaceId + 1 ∧
      trace w' = trace w ++
        [SaveWorkspaceTabs targetWorkspaceId
           (storedTabs w targetWorkspaceId ++ [createTabDescriptor env tab])
           (storedVersion w targetWorkspaceId + 1)] ∧
      (∀ k, windows (host w') !! k = elsewhere <$> windows (host w) !! k)
  end.
Proof.
  intros _ [moved Hmoved] w' answer elsewhere. subst w' answer.
  unfold exec, outcome, moveTabToWorkspace, storedTabs, storedVersion.
  rewrite mbind_gets.
  destruct (findWindow (windowBindings w) targetWorkspaceId) as [k|] eqn:Hfind.
  - apply findWindow_Some in Hfind as [Hbound Hlowest].
    unfold Browser.tabs_move, Browser.on_host. rewrite mbind_gets, Hmoved.
    destruct (windows (host w) !! k) as [old|] eqn:Hold.
    + calls. do 4 (split; [done|]). split; [done|]. split; [done|].
      split; [done|]. split; [done|]. split; [done|]. split.
      * exists moved. split; [done|].
        unfold Browser.drop_tab. rewrite lookup_alter_eq, lookup_fmap, Hold. done.
      * intros k' Hne. unfold Browser.drop_tab.
        rewrite lookup_alter_ne by done. by rewrite lookup_fmap.
    + rewrite throw_run. cbn [fst snd]. do 4 (split; [done|]). split; [done|].
      split; [done|]. done.
  - rewrite findWindow_None in Hfind.
    unfold Storage.getWorkspaceTabs, Storage.getWorkspaceVersion, Storage.saveWorkspaceTabs,
      Storage.write, Browser.tabs_remove, Browser.on_host. calls.
    rewrite !lookup_insert_eq. do 4 (split; [done|]). split; [done|]. split; [done|].
    split; [done|]. split; [done|]. split; [done|].
    intros k. unfold Browser.drop_tab. by rewrite lookup_fmap.
Qed.

(** Tab 11 of window 1 is moved to a workspace that has no window. *)
Lemma moveTabToWorkspace_cases_witness :
  let w := step Sample.env (EvMessage (Scenario.create "Later" None))
             (boot Scenario.allOn Scenario.oneWindow) in
  let tab := mkTab 11 (Some "https://b.example") (Some "B") false in
  let w' := exec (moveTabToWorkspace Sample.env tab "ws") w in
  storedVersion w' "ws" = 2 ∧
  storedTabs w' "ws" = [mkDesc (Some "about:newtab") (Some "New Tab") false;
                        mkDesc (Some "https://b.example") (Some "B") false] ∧
  (length <$> windows (host w') !! 1) = Some 3%nat.
Proof.
  intros w tab w'.
  pose proof (moveTabToWorkspace_cases Sample.env w tab "ws") as H.
  destruct H as (_ & _ & _ & _ & H).
  - vm_compute. reflexivity.
  - exists tab. vm_compute. reflexivity.
  - change (findWindow (windowBindings w) "ws") with (@None Z) in H.
    destruct H as (_ & _ & Htabs & Hver & _ & Hwin). fold w' in Htabs, Hver, Hwin.
    rewrite Htabs, Hver, Hwin. repeat split; vm_compute; reflexivity.
Defined.

(** ** Versions and fingerprints of the direct writes *)

(** C4, on [createWorkspace].  Whatever the request, [createWorkspace] ends
    by writing the new workspace's snapshot twice, both times with version 1:
    the second write carries the version the first one has just persisted,
    not a greater one. *)
Theorem createWorkspace_writes_version_1_twice (env : Env) (w : World) (d : CreateData) :
  let w' := exec (createWorkspace env (Some d)) w in
  ∃ (ws : Workspace) (tabs : list TabDescriptor) (before : list Effect),
    outcome (createWorkspace env (Some d)) w = Returned (RWorkspace (Some ws)) ∧
    trace w' = trace w ++ before ++
      [SaveWorkspaceTabs (id ws) tabs 1; SaveWorkspaceTabs (id ws) tabs 1; UpdateContextMenu] ∧
    snapshotWrites (id ws) before = [] ∧
    strictlyIncreasingFrom 0 (snapshotWrites (id ws) (drop (length (trace w)) (trace w')))
      = false.
Proof.
  intros w'. subst w'.
  unfold exec, outcome, createWorkspace, Browser.draw, Browser.Date_now,
    Browser.tabs_query, Storage.saveWindowBindings, Storage.saveWorkspaceIndex,
    Storage.saveWorkspaceTabs, Storage.write, Browser.on_host,
    notifyContentScripts, updateWindowIndicators, updateContextMenu.
  destruct (truthyOptStr (cd_color d));
    destruct (cd_fromCurrentWindow d && truthyOptZ (cd_windowId d)); calls;
    repeat rewrite <- app_assoc; cbn [app];
    first [ eexists _, _, [_; _; _; _]; split; [reflexivity|];
            split; [cbn [app]; reflexivity|]
          | eexists _, _, [_]; split; [reflexivity|];
            split; [cbn [app]; reflexivity|] ];
    rewrite drop_app_length; unfold snapshotWrites; simpl;
    rewrite !decide_True by done; split; reflexivity.
Qed.

(** C5, on [moveTabToWorkspace].  "Research" was captured (so its stored
    fingerprint matches its stored descriptors) and its window was closed.
    Moving tab 30 to it appends the tab's descriptor to the stored snapshot
    and leaves the stored fingerprint as it was: the fingerprint no longer
    matches the descriptors just written. *)
Theorem moveTabToWorkspace_stale_fingerprint :
  let w := Scenario.researchClosed in
  let tab := mkTab 30 (Some "https://d.example") (Some "D") false in
  let w' := exec (moveTabToWorkspace Sample.env tab "ws") w in
  findWindow (windowBindings w) "ws" = None ∧
  storedHash w "ws" = Some (fingerprint Sample.env (storedTabs w "ws")) ∧
  storedTabs w' "ws" = storedTabs w "ws" ++ [createTabDescriptor Sample.env tab] ∧
  storedVersion w' "ws" = storedVersion w "ws" + 1 ∧
  storedHash w' "ws" = storedHash w "ws" ∧
  storedHash w' "ws" ≠ Some (fingerprint Sample.env (storedTabs w' "ws")).
Proof.
  vm_compute. repeat split; try reflexivity. discriminate.
Qed.

(** The same on every world: the direct append never writes a fingerprint. *)
Lemma moveTabToWorkspace_keeps_fingerprint (env : Env) (w : World) (tab : BrowserTab)
    (targetWorkspaceId : string) :
  st_hash (store (exec (moveTabToWorkspace env tab targetWorkspaceId) w)) = st_hash (store w).
Proof.
  unfold exec, moveTabToWorkspace. rewrite mbind_gets.
  destruct (findWindow (windowBindings w) targetWorkspaceId) as [k|].
  - unfold Browser.tabs_move, Browser.on_host. rewrite mbind_gets.
    destruct (Browser.find_tab _ _); [destruct (windows (host w) !! k)|]; calls; done.
  - unfold Storage.getWorkspaceTabs, Storage.getWorkspaceVersion, Storage.saveWorkspaceTabs,
      Storage.write, Browser.tabs_remove, Browser.on_host. calls. done.
Qed.

(** ** Loops over browser calls *)

(** Adding tabs to a live window and pinning tabs only touch the browser's
    windows and its id counter, and keep the set of live windows. *)
Lemma tabs_create_run (k : Z) (url : string) (w : World) (l : list BrowserTab) :
  windows (host w) !! k = Some l →
  Browser.tabs_create k url w =
    (Returned (),
     set_host (set_nextId (nextId (host w) + 1)
                 (set_windows (<[k := l ++ [mkTab (nextId (host w)) (Some url) None false]]>
                                 (windows (host w))) (host w))) w).
Proof.
  intros Hl. unfold Browser.tabs_create, Browser.on_host. rewrite mbind_gets, Hl, modify_run.
  do 4 f_equal. apply map_eq. intros j. destruct (decide (j = k)) as [->|Hne].
  - by rewrite lookup_alter_eq, lookup_insert_eq, Hl.
  - by rewrite lookup_alter_ne, lookup_insert_ne.
Qed.

Lemma forEach_tabs_create (k : Z) (urls : list string) (w : World) :
  is_Some (windows (host w) !! k) →
  ∃ hw n,
    forEach urls (Browser.tabs_create k) w =
      (Returned (), set_host (set_nextId n (set_windows hw (host w))) w) ∧
    dom hw = dom (windows (host w)).
Proof.
  revert w. induction urls as [|url urls IH]; intros w [l Hl].
  - exists (windows (host w)), (nextId (host w)). split; [|done].
    cbn [forEach]. rewrite mret_run. by destruct w as [? ? ? ? ? []].
  - cbn [forEach]. erewrite mbind_run by (by apply tabs_create_run).
    match goal with |- context [forEach urls _ ?w1] => destruct (IH w1) as (hw & n & -> & Hd) end.
    { fields. rewrite lookup_insert_eq. eauto. }
    fields. exists hw, n. split; [done|].
    rewrite Hd, dom_insert_L. apply elem_of_dom_2 in Hl.
    apply subseteq_union_1_L, singleton_subseteq_l, Hl.
Qed.

Lemma forEach_tabs_pin (pairs : list (BrowserTab * TabDescriptor)) (w : World) :
  ∃ hw,
    forEach pairs (λ '(wt, d), if p d then Browser.tabs_pin (tab_id wt) else mret ()) w =
      (Returned (), set_host (set_windows hw (host w)) w) ∧
    dom hw = dom (windows (host w)).
Proof.
  revert w. induction pairs as [|[wt d] pairs IH]; intros w.
  - exists (windows (host w)). split; [|done].
    cbn [forEach]. rewrite mret_run. by destruct w as [? ? ? ? ? []].
  - cbn [forEach]. destruct (p d).
    + unfold Browser.tabs_pin, Browser.on_host. rewrite mbind_modify.
      match goal with |- context [forEach pairs _ ?w1] => destruct (IH w1) as (hw & Heq & Hd) end.
      exists hw. split; [exact Heq|]. rewrite Hd. fields. apply dom_fmap_L.
    + rewrite mbind_mret. apply IH.
Qed.

(** ** Opening a workspace *)

Section Open.

Variable env : Env.

Lemma openWorkspace_missing w workspaceId :
  findIndex (workspaceIndex w) workspaceId = None →
  openWorkspace env workspaceId w = (Returned (RError "Workspace not found"), w).
Proof.
  intros Hfind. unfold openWorkspace. rewrite mbind_gets, Hfind. by rewrite mret_run.
Qed.

(** The attempt to focus an existing window answers [focusable]: a failed
    [windows.update] is caught. *)
Lemma focus_attempt_run w workspaceId :
  match findWindow (windowBindings w) workspaceId with
  | Some existing =>
      if focusExistingWindow (settings w)
      then try_catch (Browser.windows_focus existing;; mret (Some existing))
                     (λ _, mret None)
      else mret None
  | None => mret None
  end w = (Returned (focusable w workspaceId), w).
Proof.
  unfold focusable.
  destruct (findWindow (windowBindings w) workspaceId) as [e|]; [|done].
  destruct (focusExistingWindow (settings w)); [|done].
  unfold try_catch, Browser.windows_focus. rewrite mbind_assoc, mbind_gets.
  destruct (windows (host w) !! e) eqn:He.
  - by rewrite mbind_mret, mret_run.
  - by rewrite mbind_throw.
Qed.

Lemma openWorkspace_focus w workspaceId i ws existing :
  findIndex (workspaceIndex w) workspaceId = Some (i, ws) →
  focusable w (id ws) = Some existing →
  openWorkspace env workspaceId w = (Returned (RWindowId existing), w).
Proof.
  intros Hfind Hfocus. apply findIndex_Some in Hfind as Hf. destruct Hf as (-> & _ & _).
  unfold openWorkspace. rewrite mbind_gets, Hfind. calls.
  erewrite mbind_run by apply focus_attempt_run. rewrite Hfocus. by rewrite mret_run.
Qed.

Lemma openWorkspace_new w workspaceId i ws :
  findIndex (workspaceIndex w) workspaceId = Some (i, ws) →
  focusable w (id ws) = None →
  ∃ hw n,
    openWorkspace env workspaceId w =
      (Returned (RWindowId (nextId (host w))), opened w (id ws) hw n) ∧
    dom hw = {[nextId (host w)]} ∪ dom (windows (host w)).
Proof.
  intros Hfind Hfocus. apply findIndex_Some in Hfind as Hf. destruct Hf as (-> & _ & _).
  unfold openWorkspace. rewrite mbind_gets, Hfind. calls.
  erewrite mbind_run by apply focus_attempt_run. rewrite Hfocus.
  unfold Storage.getWorkspaceTabs, Browser.windows_create, Browser.on_host. calls.
  set (urls := match restorableUrls env _ with [] => ["about:newtab"] | _ => _ end).
  match goal with |- context [(forEach (tail urls) _ ≫= _) ?w1] =>
    destruct (forEach_tabs_create (nextId (host w)) (tail urls) w1)
      as (hw1 & n1 & Hcreate & Hd1) end.
  { fields. rewrite lookup_insert_eq. eauto. }
  erewrite mbind_run by exact Hcreate. fields.
  unfold Browser.tabs_query. calls.
  match goal with |- context [(forEach ?l _ ≫= _) ?w2] =>
    destruct (forEach_tabs_pin l w2) as (hw2 & Hpin & Hd2) end.
  erewrite mbind_run by exact Hpin. fields.
  unfold Storage.saveWindowBindings, Storage.write, notifyContentScripts,
    updateWindowIndicators. calls.
  exists hw2, n1. split.
  - unfold opened. fields. by repeat rewrite <- app_assoc.
  - fields. rewrite Hd2, Hd1. fields. by rewrite dom_insert_L.
Qed.

End Open.

(** ** The message handler *)


Section Answers.

Variable env : Env.

Lemma createWorkspace_run w d :
  ∃ ws w',
    createWorkspace env (Some d) w = (Returned (RWorkspace (Some ws)), w') ∧
    id ws = generateId env (entropy (host w)) ∧
    workspaceIndex w' = workspaceIndex w ++ [ws] ∧
    settings w' = settings w ∧ saveTimers w' = saveTimers w ∧
    windows (host w') = windows (host w) ∧ timers (host w') = timers (host w) ∧
    (entropy (host w) < entropy (host w'))%nat ∧
    windowBindings w' =
      if cd_fromCurrentWindow d && truthyOptZ (cd_windowId d)
      then <[default 0 (cd_windowId d) := id ws]> (windowBindings w)
      else windowBindings w.
Proof.
  unfold createWorkspace, Browser.draw, Browser.Date_now,
    Browser.tabs_query, Storage.saveWindowBindings, Storage.saveWorkspaceIndex,
    Storage.saveWorkspaceTabs, Storage.write, Browser.on_host,
    notifyContentScripts, updateWindowIndicators, updateContextMenu.
  destruct (truthyOptStr (cd_color d));
    destruct (cd_fromCurrentWindow d && truthyOptZ (cd_windowId d)); calls;
    (eexists _, _; split; [reflexivity|]); fields; cbn [id with_tabCount];
    repeat split; lia.
Qed.











End Answers.




(** ** Closing a window and reaping stale bindings *)

Lemma windowClosed_run (w : World) (k : Z) :
  ∃ w',
    windowClosed k w = (Returned (), w') ∧
    workspaceIndex w' = workspaceIndex w ∧ settings w' = settings w ∧
    saveTimers w' = saveTimers w ∧ timers (host w') = timers (host w) ∧
    entropy (host w') = entropy (host w) ∧
    windows (host w') = delete k (windows (host w)) ∧
    windowBindings w' =
      if truthyOptStr (windowBindings w !! k) then delete k (windowBindings w)
      else windowBindings w.
Proof.
  unfold windowClosed, onWindowRemoved, Browser.on_host, Storage.saveWindowBindings,
    Storage.write, updateWindowIndicators. calls.
  destruct (truthyOptStr (windowBindings w !! k)); calls; eexists; (split; [reflexivity|]);
    fields; repeat split.
Qed.

(** The loop of [cleanupStaleBindings] keeps exactly the entries whose key
    is a valid window id. *)
Lemma reap_loop_lookup (valid : gset Z) (l : list (Z * string)) (k : Z) (v : string) :
  NoDup l.*1 →
  foldl (λ (acc : gmap Z string) kv,
           if decide (kv.1 ∈ valid) then <[kv.1 := kv.2]> acc else acc) ∅ l !! k = Some v
  ↔ (k, v) ∈ l ∧ k ∈ valid.
Proof.
  induction l as [|[k0 v0] l IH] using rev_ind; intros Hnd.
  - simpl. rewrite lookup_empty, elem_of_nil. split; [done|tauto].
  - rewrite fmap_app, NoDup_app in Hnd. destruct Hnd as (Hnd & Hdisj & _).
    rewrite foldl_app. cbn [foldl fst snd]. rewrite elem_of_app, list_elem_of_singleton.
    destruct (decide (k0 ∈ valid)) as [Hv|Hv].
    + destruct (decide (k = k0)) as [->|Hne].
      * rewrite lookup_insert_eq. split.
        -- intros [= ->]. auto.
        -- intros [[Hin|[= ->]] _]; [|done].
           exfalso. apply (Hdisj k0); [|simpl; left].
           apply list_elem_of_fmap. by exists (k0, v).
      * rewrite lookup_insert_ne by done. rewrite (IH Hnd).
        split; [tauto|]. intros [[Hin|[= Hk _]] Hval]; [tauto|done].
    + rewrite (IH Hnd).
      split; [tauto|]. intros [[Hin|[= -> _]] Hval]; [tauto|done].
Qed.

Lemma cleanupStaleBindings_run (w : World) :
  ∃ w',
    cleanupStaleBindings w = (Returned (), w') ∧
    workspaceIndex w' = workspaceIndex w ∧ settings w' = settings w ∧
    saveTimers w' = saveTimers w ∧ host w' = host w ∧
    ∀ k v, windowBindings w' !! k = Some v ↔
           windowBindings w !! k = Some v ∧ is_Some (windows (host w) !! k).
Proof.
  unfold cleanupStaleBindings, Browser.windows_getAll, Storage.saveWindowBindings,
    Storage.write. calls.
  eexists. split; [reflexivity|]. fields. do 4 (split; [done|]).
  assert (Hnd : NoDup (entries (windowBindings w)).*1).
  { unfold entries. rewrite merge_sort_Permutation. apply NoDup_fst_map_to_list. }
  intros k v. rewrite (reap_loop_lookup _ _ _ _ Hnd), elem_of_entries.
  by rewrite elem_of_list_to_set, elem_of_elements, elem_of_dom.
Qed.

(** ** The binding invariant *)

Section BindingInvariant.

Variable env : Env.
Hypothesis generateId_inj : Inj (=) (=) (generateId env).
Hypothesis generateId_truthy : ∀ n, generateId env n ≠ "".

(** What each operation maintains: the invariant, the well-formedness of
    the ids, and the setting that gates the second window. *)
Let Good (w : World) : Prop :=
  focusExistingWindow (settings w) = true ∧ WellFormed env w ∧ BindingInvariant w.

Lemma functional_bindings w : oneWorkspacePerWindow w.
Proof. intros k v1 v2 H1 H2. congruence. Qed.

Lemma create_good w d :
  Good w → opReady w (OpCreate d) → Good (exec (applyOp env (OpCreate d)) w).
Proof.
  intros (Hfocus & (Hreg & Hbound & Hfresh) & _ & Huniq & Hlive) Hready.
  destruct (createWorkspace_run env w d)
    as (ws & w' & Hrun & Hid & Hindex & Hset & _ & Hwin & _ & Hent & Hbind).
  unfold exec, applyOp. erewrite mbind_run by exact Hrun. rewrite mret_run. cbn [snd].
  assert (Hnew : ∀ k v, windowBindings w' !! k = Some v →
                        windowBindings w !! k = Some v ∨
                        (v = id ws ∧ is_Some (windows (host w) !! k))).
  { intros k v. rewrite Hbind.
    destruct (cd_fromCurrentWindow d) eqn:Hfrom; cbn [andb]; [|auto].
    destruct (cd_windowId d) as [k0|] eqn:Hk0; cbn [truthyOptZ default from_option]; [|auto].
    destruct (truthyZ k0) eqn:Hz; [|auto].
    destruct (decide (k = k0)) as [->|Hne].
    - rewrite lookup_insert_eq. intros [= <-]. right. split; [done|].
      apply (Hready Hfrom k0 Hk0). intros ->. done.
    - rewrite lookup_insert_ne by done. auto. }
  assert (Hunused : ∀ k, windowBindings w !! k ≠ Some (id ws)).
  { rewrite Hid. by apply (Hfresh (entropy (host w))). }
  split; [by rewrite Hset|]. split; [split; [|split]|split; [|split]].
  - intros ws0. rewrite Hindex, elem_of_app, list_elem_of_singleton.
    intros [Hin| ->]; [by apply Hreg|]. by rewrite Hid.
  - intros k v Hk. destruct (Hnew k v Hk) as [Hold|[-> _]]; [by eapply Hbound|].
    by rewrite Hid.
  - intros n Hn. destruct (Hfresh n ltac:(lia)) as [Hr Hb]. split.
    + intros ws0. rewrite Hindex, elem_of_app, list_elem_of_singleton.
      intros [Hin| ->]; [by apply Hr|].
      rewrite Hid. intros Heq. apply generateId_inj in Heq. lia.
    + intros k Hk. destruct (Hnew k _ Hk) as [Hold|[Heq _]]; [by apply (Hb k)|].
      rewrite Hid in Heq. apply generateId_inj in Heq. lia.
  - apply functional_bindings.
  - intros k1 k2 v H1 H2.
    destruct (Hnew k1 v H1) as [Hold1|[Heq1 _]], (Hnew k2 v H2) as [Hold2|[Heq2 _]].
    + by eapply Huniq.
    + subst v. by destruct (Hunused k1).
    + subst v. by destruct (Hunused k2).
    + subst v. revert H1 H2. rewrite Hbind.
      destruct (cd_fromCurrentWindow d && truthyOptZ (cd_windowId d)).
      * intros H1 H2.
        destruct (decide (k1 = default 0 (cd_windowId d))) as [->|Hne1];
          [|rewrite lookup_insert_ne in H1 by done; by destruct (Hunused k1)].
        destruct (decide (k2 = default 0 (cd_windowId d))) as [->|Hne2]; [done|].
        rewrite lookup_insert_ne in H2 by done. by destruct (Hunused k2).
      * intros H1. by destruct (Hunused k1).
  - intros k v Hk. rewrite Hwin.
    destruct (Hnew k v Hk) as [Hold|[_ Hl]]; [by eapply Hlive|done].
Qed.

Lemma open_good w workspaceId :
  Good w → Good (exec (applyOp env (OpOpen workspaceId)) w).
Proof.
  intros Hgood. pose proof Hgood as (Hfocus & (Hreg & Hbound & Hfresh) & _ & Huniq & Hlive).
  unfold exec, applyOp.
  destruct (findIndex (workspaceIndex w) workspaceId) as [[i ws]|] eqn:Hfind.
  2:{ erewrite mbind_run by (by apply openWorkspace_missing). by rewrite mret_run. }
  destruct (focusable w (id ws)) as [e|] eqn:Hfoc.
  { erewrite mbind_run by (by eapply openWorkspace_focus). by rewrite mret_run. }
  destruct (openWorkspace_new env w workspaceId i ws Hfind Hfoc) as (hw & n & Hrun & Hdom).
  erewrite mbind_run by exact Hrun. rewrite mret_run. cbn [snd].
  assert (Hunbound : ∀ k, windowBindings w !! k ≠ Some (id ws)).
  { apply findWindow_None. unfold focusable in Hfoc. rewrite Hfocus in Hfoc.
    destruct (findWindow (windowBindings w) (id ws)) as [e|] eqn:He; [|done].
    apply findWindow_Some in He as [He _]. destruct (Hlive _ _ He) as [l Hl].
    by rewrite Hl in Hfoc. }
  apply findIndex_elem_of in Hfind as Hin.
  unfold opened.
  split; [done|]. split; [split; [|split]|split; [|split]];
    unfold oneWorkspacePerWindow, oneWindowPerWorkspace, boundToLive;
    cbn [workspaceIndex windowBindings host set_nextId set_windows windows entropy].
  - done.
  - intros k v. destruct (decide (k = nextId (host w))) as [->|Hne].
    + rewrite lookup_insert_eq. intros [= <-]. by apply Hreg.
    + rewrite lookup_insert_ne by done. by apply Hbound.
  - intros m Hm. destruct (Hfresh m Hm) as [Hr Hb]. split; [done|].
    intros k. destruct (decide (k = nextId (host w))) as [->|Hne].
    + rewrite lookup_insert_eq. intros [= Heq]. by apply (Hr ws).
    + rewrite lookup_insert_ne by done. apply Hb.
  - intros k v1 v2 H1 H2. congruence.
  - intros k1 k2 v.
    destruct (decide (k1 = nextId (host w))) as [->|Hne1];
      destruct (decide (k2 = nextId (host w))) as [->|Hne2]; [done|..];
      rewrite ?lookup_insert_eq, ?lookup_insert_ne by done.
    + intros [= <-] H2. by destruct (Hunbound k2).
    + intros H1 [= <-]. by destruct (Hunbound k1).
    + apply Huniq.
  - intros k v. rewrite <- elem_of_dom, Hdom, elem_of_union, elem_of_singleton, elem_of_dom.
    destruct (decide (k = nextId (host w))) as [->|Hne]; [auto|].
    rewrite lookup_insert_ne by done. intros Hk. right. by eapply Hlive.
Qed.

Lemma close_good w k :
  Good w → Good (exec (applyOp env (OpClose k)) w).
Proof.
  intros (Hfocus & (Hreg & Hbound & Hfresh) & _ & Huniq & Hlive).
  destruct (windowClosed_run w k)
    as (w' & Hrun & Hindex & Hset & _ & _ & Hent & Hwin & Hbind).
  unfold exec, applyOp. rewrite Hrun. cbn [snd].
  assert (Hsub : ∀ j v, windowBindings w' !! j = Some v →
                        j ≠ k ∧ windowBindings w !! j = Some v).
  { intros j v. rewrite Hbind.
    destruct (windowBindings w !! k) as [vk|] eqn:Hk; cbn [truthyOptStr].
    - assert (truthyStr vk = true) as ->.
      { unfold truthyStr. apply negb_true_iff, String.eqb_neq. by eapply Hbound. }
      destruct (decide (j = k)) as [->|Hne]; [by rewrite lookup_delete_eq|].
      by rewrite lookup_delete_ne.
    - intros Hj. split; [|done]. intros ->. congruence. }
  split; [by rewrite Hset|]. split; [split; [|split]|split; [|split]].
  - by rewrite Hindex.
  - intros j v Hj. destruct (Hsub j v Hj). by eapply Hbound.
  - intros n Hn. rewrite Hent in Hn. destruct (Hfresh n Hn) as [Hr Hb].
    split; [by rewrite Hindex|]. intros j Hj. destruct (Hsub j _ Hj). by apply (Hb j).
  - apply functional_bindings.
  - intros k1 k2 v H1 H2. destruct (Hsub _ _ H1), (Hsub _ _ H2). by eapply Huniq.
  - intros j v Hj. destruct (Hsub j v Hj) as [Hne Hold]. rewrite Hwin.
    rewrite lookup_delete_ne by done. by eapply Hlive.
Qed.

Lemma reap_good w : Good w → Good (exec (applyOp env OpReap) w).
Proof.
  intros (Hfocus & (Hreg & Hbound & Hfresh) & _ & Huniq & Hlive).
  destruct (cleanupStaleBindings_run w) as (w' & Hrun & Hindex & Hset & _ & Hhost & Hbind).
  unfold exec, applyOp. rewrite Hrun. cbn [snd].
  split; [by rewrite Hset|]. split; [split; [|split]|split; [|split]].
  - by rewrite Hindex.
  - intros j v Hj. apply Hbind in Hj as [Hj _]. by eapply Hbound.
  - intros n Hn. rewrite Hhost in Hn. destruct (Hfresh n Hn) as [Hr Hb].
    split; [by rewrite Hindex|]. intros j Hj. apply Hbind in Hj as [Hj _]. by apply (Hb j).
  - apply functional_bindings.
  - intros k1 k2 v H1 H2. apply Hbind in H1 as [H1 _], H2 as [H2 _]. by eapply Huniq.
  - intros j v Hj. apply Hbind in Hj as [_ Hj]. by rewrite Hhost.
Qed.

Lemma applyOps_good ops w : Good w → opsReady env w ops → Good (applyOps env ops w).
Proof.
  revert w. induction ops as [|op ops IH]; intros w Hgood Hready; [done|].
  destruct Hready as [Hop Hrest]. cbn [applyOps foldl]. apply IH; [|done].
  destruct op; auto using create_good, open_good, close_good, reap_good.
Qed.

End BindingInvariant.

Lemma sample_generateId_inj : Inj (=) (=) (generateId Sample.env).
Proof.
  intros n m Heq. simpl in Heq. unfold Sample.generateId in Heq. simpl in Heq.
  injection Heq as Heq. revert m Heq.
  induction n as [|n IH]; intros [|m] Heq; simpl in Heq; try done.
  injection Heq as Heq. f_equal. by apply IH.
Qed.

Lemma sample_generateId_truthy n : generateId Sample.env n ≠ "".
Proof. done. Qed.

(** ** Liveness of the bound windows, whatever the setting *)

Section Liveness.

Variable env : Env.

Hypothesis generateId_truthy : ∀ n, generateId env n ≠ "".

Let Live (w : World) : Prop := TruthyIds w ∧ boundToLive w.

Lemma create_live w d :
  Live w → opReady w (OpCreate d) → Live (exec (applyOp env (OpCreate d)) w).
Proof.
  intros ((Hreg & Hbound) & Hlive) Hready.
  destruct (createWorkspace_run env w d)
    as (ws & w' & Hrun & Hid & Hindex & _ & _ & Hwin & _ & _ & Hbind).
  unfold exec, applyOp. erewrite mbind_run by exact Hrun. rewrite mret_run. cbn [snd].
  assert (Hnew : ∀ k v, windowBindings w' !! k = Some v →
                        windowBindings w !! k = Some v ∨
                        (v = id ws ∧ is_Some (windows (host w) !! k))).
  { intros k v. rewrite Hbind.
    destruct (cd_fromCurrentWindow d) eqn:Hfrom; cbn [andb]; [|auto].
    destruct (cd_windowId d) as [k0|] eqn:Hk0; cbn [truthyOptZ default from_option]; [|auto].
    destruct (truthyZ k0) eqn:Hz; [|auto].
    destruct (decide (k = k0)) as [->|Hne].
    - rewrite lookup_insert_eq. intros [= <-]. right. split; [done|].
      apply (Hready Hfrom k0 Hk0). intros ->. done.
    - rewrite lookup_insert_ne by done. auto. }
  split; [split|].
  - intros ws0. rewrite Hindex, elem_of_app, list_elem_of_singleton.
    intros [Hin| ->]; [by apply Hreg|]. by rewrite Hid.
  - intros k v Hk. destruct (Hnew k v Hk) as [Hold|[-> _]]; [by eapply Hbound|].
    by rewrite Hid.
  - intros k v Hk. rewrite Hwin.
    destruct (Hnew k v Hk) as [Hold|[_ Hl]]; [by eapply Hlive|done].
Qed.

Lemma open_live w workspaceId :
  Live w → Live (exec (applyOp env (OpOpen workspaceId)) w).
Proof.
  intros Hgood. pose proof Hgood as ((Hreg & Hbound) & Hlive).
  unfold exec, applyOp.
  destruct (findIndex (workspaceIndex w) workspaceId) as [[i ws]|] eqn:Hfind.
  2:{ erewrite mbind_run by (by apply openWorkspace_missing). by rewrite mret_run. }
  destruct (focusable w (id ws)) as [e|] eqn:Hfoc.
  { erewrite mbind_run by (by eapply openWorkspace_focus). by rewrite mret_run. }
  destruct (openWorkspace_new env w workspaceId i ws Hfind Hfoc) as (hw & n & Hrun & Hdom).
  erewrite mbind_run by exact Hrun. rewrite mret_run. cbn [snd].
  apply findIndex_elem_of in Hfind as Hin.
  unfold opened. split; [split|]; unfold boundToLive;
    cbn [workspaceIndex windowBindings host set_nextId set_windows windows].
  - done.
  - intros k v. destruct (decide (k = nextId (host w))) as [->|Hne].
    + rewrite lookup_insert_eq. intros [= <-]. by apply Hreg.
    + rewrite lookup_insert_ne by done. by apply Hbound.
  - intros k v. rewrite <- elem_of_dom, Hdom, elem_of_union, elem_of_singleton, elem_of_dom.
    destruct (decide (k = nextId (host w))) as [->|Hne]; [auto|].
    rewrite lookup_insert_ne by done. intros Hk. right. by eapply Hlive.
Qed.

Lemma close_live w k :
  Live w → Live (exec (applyOp env (OpClose k)) w).
Proof.
  intros ((Hreg & Hbound) & Hlive).
  destruct (windowClosed_run w k)
    as (w' & Hrun & Hindex & _ & _ & _ & _ & Hwin & Hbind).
  unfold exec, applyOp. rewrite Hrun. cbn [snd].
  assert (Hsub : ∀ j v, windowBindings w' !! j = Some v →
                        j ≠ k ∧ windowBindings w !! j = Some v).
  { intros j v. rewrite Hbind.
    destruct (windowBindings w !! k) as [vk|] eqn:Hk; cbn [truthyOptStr].
    - assert (truthyStr vk = true) as ->.
      { unfold truthyStr. apply negb_true_iff, String.eqb_neq. by eapply Hbound. }
      destruct (decide (j = k)) as [->|Hne]; [by rewrite lookup_delete_eq|].
      by rewrite lookup_delete_ne.
    - intros Hj. split; [|done]. intros ->. congruence. }
  split; [split|].
  - by rewrite Hindex.
  - intros j v Hj. destruct (Hsub j v Hj). by eapply Hbound.
  - intros j v Hj. destruct (Hsub j v Hj) as [Hne Hold]. rewrite Hwin.
    rewrite lookup_delete_ne by done. by eapply Hlive.
Qed.

(** The reap makes every bound window live, whatever the table held. *)
Lemma reap_live w : TruthyIds w → Live (exec (applyOp env OpReap) w).
Proof.
  intros (Hreg & Hbound).
  destruct (cleanupStaleBindings_run w) as (w' & Hrun & Hindex & _ & _ & Hhost & Hbind).
  unfold exec, applyOp. rewrite Hrun. cbn [snd]. split; [split|].
  - by rewrite Hindex.
  - intros j v Hj. apply Hbind in Hj as [Hj _]. by eapply Hbound.
  - intros j v Hj. apply Hbind in Hj as [_ Hj]. by rewrite Hhost.
Qed.

Lemma applyOps_live ops w : Live w → opsReady env w ops → Live (applyOps env ops w).
Proof.
  revert w. induction ops as [|op ops IH]; intros w Hgood Hready; [done|].
  destruct Hready as [Hop Hrest]. cbn [applyOps foldl]. apply IH; [|done].
  destruct op; auto using create_live, open_live, close_live.
  apply reap_live, Hgood.
Qed.

(** After the reap, the ids are still unused and no two windows share a
    workspace when none did. *)
Lemma reap_wellFormed w :
  WellFormed env w → oneWindowPerWorkspace w →
  WellFormed env (exec cleanupStaleBindings w) ∧
  oneWindowPerWorkspace (exec cleanupStaleBindings w).
Proof.
  intros (Hreg & Hbound & Hfresh) Huniq.
  destruct (cleanupStaleBindings_run w) as (w' & Hrun & Hindex & _ & _ & Hhost & Hbind).
  unfold exec. rewrite Hrun. cbn [snd]. split; [split; [|split]|].
  - by rewrite Hindex.
  - intros j v Hj. apply Hbind in Hj as [Hj _]. by eapply Hbound.
  - intros n Hn. rewrite Hhost in Hn. destruct (Hfresh n Hn) as [Hr Hb].
    split; [by rewrite Hindex|]. intros j Hj. apply Hbind in Hj as [Hj _]. by apply (Hb j).
  - intros k1 k2 v H1 H2. apply Hbind in H1 as [H1 _], H2 as [H2 _]. by eapply Huniq.
Qed.

Lemma reap_keeps_settings w : settings (exec cleanupStaleBindings w) = settings w.
Proof.
  destruct (cleanupStaleBindings_run w) as (w' & Hrun & _ & Hset & _).
  unfold exec. by rewrite Hrun.
Qed.

End Liveness.

(** C2, as the code has it.  Take the world the start-up reap leaves,
    whatever table was stored, with truthy ids, and run any sequence of
    [createWorkspace], [openWorkspace], window closings and reaps, one
    operation at a time, in which a create-from-window request names a live
    window.  Then, for either value of [focusExistingWindow], the binding
    table maps each window to at most one workspace and every key is a live
    window.  With [focusExistingWindow] set, ids that are unique and not yet
    in use, and no two windows bound to one workspace at the start, no two
    windows are bound to one workspace at the end. *)
Theorem bindings_invariant (env : Env) (ops : list BindingOp) (stored : World) :
  (∀ n, generateId env n ≠ "") →
  TruthyIds stored →
  let w := exec cleanupStaleBindings stored in
  opsReady env w ops →
  let w' := applyOps env ops w in
  oneWorkspacePerWindow w' ∧
  boundToLive w ∧ boundToLive w' ∧
  (focusExistingWindow (settings stored) = true →
   Inj (=) (=) (generateId env) →
   WellFormed env stored →
   oneWindowPerWorkspace stored →
   oneWindowPerWorkspace w').
Proof.
  intros Htruthy Hids w Hready w'.
  pose proof (reap_live env stored Hids) as Hlive. unfold exec, applyOp in Hlive.
  fold (exec cleanupStaleBindings stored) in Hlive. fold w in Hlive.
  split; [apply functional_bindings|]. split; [apply Hlive|]. split.
  - by apply (applyOps_live env Htruthy ops w).
  - intros Hfocus Hinj Hwf Huniq.
    destruct (reap_wellFormed env stored Hwf Huniq) as [Hwf' Huniq']. fold w in Hwf', Huniq'.
    assert (Hgood : focusExistingWindow (settings w) = true ∧ WellFormed env w ∧
                    BindingInvariant w).
    { split; [subst w; by rewrite reap_keeps_settings|]. split; [done|].
      split; [apply functional_bindings|]. split; [done|]. apply Hlive. }
    by destruct (applyOps_good env Hinj Htruthy ops w Hgood Hready) as (_ & _ & _ & Hu & _).
Qed.

(** Window 7 of the stored table is gone at start-up and is reaped.  Then:
    create from window 1, open (focuses window 1), close window 1, open
    again (a new window), reap. *)
Lemma bindings_invariant_witness :
  let stored := set_windowBindings {[ 7 := "old" ]}
                  (boot Scenario.allOn Scenario.oneWindow) in
  let w' := applyOps Sample.env
              [OpCreate (mkCreateData (Some "Research") None true (Some 1));
               OpOpen (Some "ws"); OpClose 1; OpOpen (Some "ws"); OpReap]
              (exec cleanupStaleBindings stored) in
  ¬ boundToLive stored ∧ boundToLive w' ∧ oneWindowPerWorkspace w' ∧
  windowBindings w' = {[ 20 := "ws" ]}.
Proof.
  intros stored w'.
  assert (Hids : TruthyIds stored).
  { split.
    - intros ws Hin. cbn in Hin. by apply elem_of_nil in Hin.
    - intros k v Hk. cbn in Hk. apply lookup_singleton_Some in Hk as [_ <-]. done. }
  destruct (bindings_invariant Sample.env
              [OpCreate (mkCreateData (Some "Research") None true (Some 1));
               OpOpen (Some "ws"); OpClose 1; OpOpen (Some "ws"); OpReap]
              stored sample_generateId_truthy Hids) as (_ & _ & Hlive & Huniq).
  { cbn [opsReady opReady]. repeat split.
    intros _ k [= <-] _. vm_compute. eauto. }
  split; [|split; [exact Hlive|split; [|vm_compute; reflexivity]]].
  - intros Hl. destruct (Hl 7 "old") as [l Hl7]; [done|]. vm_compute in Hl7. discriminate Hl7.
  - apply Huniq.
    + reflexivity.
    + exact sample_generateId_inj.
    + split; [apply Hids|]. split; [apply Hids|]. intros n _. split.
      * intros ws Hin. cbn in Hin. by apply elem_of_nil in Hin.
      * intros k Hk. cbn in Hk. apply lookup_singleton_Some in Hk as [_ Hk].
        discriminate Hk.
    + intros k1 k2 v H1 H2. cbn in H1, H2.
      apply lookup_singleton_Some in H1 as [<- _], H2 as [<- _]. done.
Defined.

(** C2, as the claim states it, fails: with [focusExistingWindow] off,
    opening a workspace that is already open binds a second live window to
    it. *)
Lemma two_windows_one_workspace :
  let w := applyOps Sample.env
             [OpCreate (mkCreateData (Some "Research") None false None);
              OpOpen (Some "ws"); OpOpen (Some "ws")]
             (boot Scenario.noFocus emptyHost) in
  windowBindings w !! 1 = Some "ws" ∧ windowBindings w !! 3 = Some "ws" ∧
  is_Some (windows (host w) !! 1) ∧ is_Some (windows (host w) !! 3) ∧
  ¬ BindingInvariant w.
Proof.
  assert (H1 : windowBindings
                 (applyOps Sample.env
                    [OpCreate (mkCreateData (Some "Research") None false None);
                     OpOpen (Some "ws"); OpOpen (Some "ws")]
                    (boot Scenario.noFocus emptyHost)) !! 1 = Some "ws")
    by (vm_compute; reflexivity).
  assert (H3 : windowBindings
                 (applyOps Sample.env
                    [OpCreate (mkCreateData (Some "Research") None false None);
                     OpOpen (Some "ws"); OpOpen (Some "ws")]
                    (boot Scenario.noFocus emptyHost)) !! 3 = Some "ws")
    by (vm_compute; reflexivity).
  intros w. split; [exact H1|]. split; [exact H3|].
  split; [vm_compute; eauto|]. split; [vm_compute; eauto|].
  intros (_ & Huniq & _). specialize (Huniq 1 3 "ws" H1 H3). discriminate Huniq.
Qed.

(** ** What a handler leaves alone *)

Section Frame.

Context {B : Type} (observe : World → B).

Lemma preserves_mret {A} (a : A) : preserves observe (mret a).
Proof. by intros w. Qed.
Lemma preserves_gets {A} (f : World → A) : preserves observe (gets f).
Proof. by intros w. Qed.
Lemma preserves_throw {A} (e : string) : preserves observe (throw (A := A) e).
Proof. by intros w. Qed.
Lemma preserves_modify (f : World → World) :
  (∀ w, observe (f w) = observe w) → preserves observe (modify f).
Proof. intros Hf w. apply Hf. Qed.
Lemma preserves_bind {A C} (m : M A) (k : A → M C) :
  preserves observe m → (∀ a, preserves observe (k a)) → preserves observe (m ≫= k).
Proof.
  intros Hm Hk w. specialize (Hm w). unfold mbind, M_bind, bind.
  destruct (m w) as [[a|e] w1]; cbn [snd] in *; [|done]. by rewrite Hk.
Qed.
Lemma preserves_try_catch {A} (body : M A) (handler : string → M A) :
  preserves observe body → (∀ e, preserves observe (handler e)) →
  preserves observe (try_catch body handler).
Proof.
  intros Hb Hh w. specialize (Hb w). unfold try_catch.
  destruct (body w) as [[a|e] w1]; cbn [snd] in *; [done|]. by rewrite Hh.
Qed.
Lemma preserves_forEach {A} (l : list A) (f : A → M unit) :
  (∀ x, preserves observe (f x)) → preserves observe (forEach l f).
Proof.
  intros Hf. induction l as [|x l IH]; cbn [forEach].
  - apply preserves_mret.
  - apply preserves_bind; [apply Hf|done].
Qed.

End Frame.

(** Walk through a handler and check each state update against the
    observation. *)
Ltac frame :=
  repeat first
    [ apply preserves_mret | apply preserves_gets | apply preserves_throw
    | apply preserves_bind; [|intros ?]
    | apply preserves_try_catch; [|intros ?]
    | apply preserves_forEach; intros ?
    | apply preserves_modify; intros ?; fields; reflexivity
    | match goal with
      | |- preserves _ (match ?x with _ => _ end) => destruct x
      end ].

Section Timers.

Variable env : Env.







End Timers.

(** ** The debounce timer *)




(** * Further properties of the handlers *)

(** ** Tab events and the debounce timers *)

(** X1. A tab listener call never saves anything by itself: registry,
    bindings, settings, store, trace, windows and clock are as before, and at
    most the timers change.  With auto-save off, or when the window it names
    is not bound to a workspace, it changes nothing at all. *)
Theorem handleTabChange_only_arms (w : World) (info : TabChangeInfo) :
  let w' := exec (handleTabChange info) w in
  outcome (handleTabChange info) w = Returned () ∧
  workspaceIndex w' = workspaceIndex w ∧ windowBindings w' = windowBindings w ∧
  settings w' = settings w ∧ store w' = store w ∧ trace w' = trace w ∧
  windows (host w') = windows (host w) ∧ clock (host w') = clock (host w) ∧
  (autoSave (settings w) = false → w' = w) ∧
  ((∀ k, orElseZ (info_windowId info) (info_id info) = Some k →
         truthyOptStr (windowBindings w !! k) = false) → w' = w).
Proof.
  intros w'. subst w'. unfold exec, outcome, handleTabChange.
  rewrite mbind_gets.
  destruct (autoSave (settings w)); cbn [negb]; [|by rewrite mret_run].
  rewrite mbind_gets.
  destruct (orElseZ (info_windowId info) (info_id info)) as [k|]; [|by rewrite mret_run].
  destruct (windowBindings w !! k) as [workspaceId|] eqn:Hk; [|by rewrite mret_run].
  destruct (truthyStr workspaceId) eqn:Htruthy; cbn [negb].
  - unfold Browser.clearTimeout, Browser.setTimeout, Browser.on_host.
    rewrite mbind_gets.
    destruct (truthyOptZ (saveTimers w !! workspaceId)); calls;
      (do 8 (split; [done|])); (split; [done|]);
      intros Hun; specialize (Hun k eq_refl); rewrite Hk in Hun; cbn in Hun; congruence.
  - by rewrite mret_run.
Qed.

(** X2. Closing a tab, reordering tabs, and a tab update that does not
    change the URL never arm a timer: the listeners for removal and move
    receive a bare tab id, on which [handleTabChange] finds no window. *)
Theorem tab_removal_and_move_never_arm (w : World) (tabId windowId : Z) :
  onTabEvent (TabRemoved tabId) w = (Returned (), w) ∧
  onTabEvent (TabMoved tabId) w = (Returned (), w) ∧
  onTabEvent (TabUpdated tabId None windowId) w = (Returned (), w).
Proof.
  unfold onTabEvent, handleTabChange. cbn [truthyOptStr].
  rewrite !mbind_gets. destruct (autoSave (settings w)); cbn [negb]; by rewrite ?mbind_gets.
Qed.

(** ** One pending timer per workspace *)

Section Coalescing.

Variable env : Env.

Let timerState (w : World) : gmap string Z * gmap Z (string * Z) * Z :=
  (saveTimers w, timers (host w), nextTimer (host w)).

Lemma coalesced_ext w w' :
  timerState w' = timerState w → TimersCoalesced w → TimersCoalesced w'.
Proof.
  unfold timerState, TimersCoalesced. intros [= Hs Ht Hn]. by rewrite Hs, Ht, Hn.
Qed.

Lemma handleMessage_keeps_timerState message :
  preserves timerState (handleMessage env message).
Proof.
  unfold handleMessage, createWorkspace, openWorkspace, deleteWorkspace, renameWorkspace,
    toggleWorkspacePin, getCurrentWorkspace,
    Browser.draw, Browser.Date_now, Browser.tabs_query, Browser.windows_focus,
    Browser.windows_create, Browser.tabs_create, Browser.tabs_pin, Browser.on_host,
    Storage.getWorkspaceTabs, Storage.saveWindowBindings, Storage.saveWorkspaceIndex,
    Storage.saveWorkspaceTabs, Storage.saveSettings, Storage.deleteWorkspaceData,
    Storage.write, notifyContentScripts, updateWindowIndicators, updateContextMenu,
    refreshAllWindowIndicators.
  frame.
Qed.

Lemma saveWorkspaceSnapshot_keeps_timerState workspaceId windowId :
  preserves timerState (saveWorkspaceSnapshot env workspaceId windowId).
Proof.
  unfold saveWorkspaceSnapshot, Browser.tabs_query, Storage.getLastHash,
    Storage.getWorkspaceVersion, Storage.saveWorkspaceTabs, Storage.saveLastHash,
    Storage.saveWorkspaceIndex, Storage.write, Browser.Date_now. frame.
Qed.

Lemma moveTabToWorkspace_keeps_timerState tab target :
  preserves timerState (moveTabToWorkspace env tab target).
Proof.
  unfold moveTabToWorkspace, Browser.tabs_move, Browser.tabs_remove, Browser.on_host,
    Storage.getWorkspaceTabs, Storage.getWorkspaceVersion, Storage.saveWorkspaceTabs,
    Storage.write. frame.
Qed.

Lemma init_keeps_timerState : preserves timerState init.
Proof.
  unfold init, cleanupStaleBindings, Storage.getSettings, Storage.getWorkspaceIndex,
    Storage.getWindowBindings, Browser.windows_getAll, Storage.saveWindowBindings,
    Storage.write, refreshAllWindowIndicators, updateContextMenu. frame.
Qed.

Lemma handleTabChange_coalesced info w :
  TimersCoalesced w → TimersCoalesced (exec (handleTabChange info) w).
Proof.
  intros (Hpos & Hrange & Hrec). unfold exec, handleTabChange.
  rewrite mbind_gets.
  destruct (autoSave (settings w)); cbn [negb]; [|by rewrite mret_run].
  rewrite mbind_gets.
  destruct (orElseZ (info_windowId info) (info_id info)) as [k|]; [|by rewrite mret_run].
  destruct (windowBindings w !! k) as [workspaceId|] eqn:Hk; [|by rewrite mret_run].
  destruct (truthyStr workspaceId) eqn:Htruthy; cbn [negb]; [|by rewrite mret_run].
  unfold Browser.clearTimeout, Browser.setTimeout, Browser.on_host.
  rewrite mbind_gets.
  assert (Hgone : ∀ h wid (kept : gmap Z (string * Z)),
            kept = (if truthyOptZ (saveTimers w !! workspaceId)
                    then delete (default 0 (saveTimers w !! workspaceId)) (timers (host w))
                    else timers (host w)) →
            kept !! h = Some (workspaceId, wid) → False).
  { intros h wid kept -> Hh.
    destruct (saveTimers w !! workspaceId) as [old|] eqn:Hold; cbn [truthyOptZ default from_option] in Hh.
    - destruct (truthyZ old) eqn:Hz.
      + destruct (decide (h = old)) as [->|Hne]; [by rewrite lookup_delete_eq in Hh|].
        rewrite lookup_delete_ne in Hh by done. apply Hrec in Hh. congruence.
      + pose proof (Hrec _ _ _ Hh) as Hs. pose proof (Hrange _ _ Hh) as Hr.
        assert (old = h) by congruence. subst old. unfold truthyZ in Hz.
        apply negb_false_iff, Z.eqb_eq in Hz. lia.
    - apply Hrec in Hh. congruence. }
  assert (Hsub : ∀ h c (kept : gmap Z (string * Z)),
            kept = (if truthyOptZ (saveTimers w !! workspaceId)
                    then delete (default 0 (saveTimers w !! workspaceId)) (timers (host w))
                    else timers (host w)) →
            kept !! h = Some c → timers (host w) !! h = Some c).
  { intros h c kept -> Hh. destruct (truthyOptZ _); [|done].
    apply lookup_delete_Some in Hh. tauto. }
  destruct (truthyOptZ (saveTimers w !! workspaceId)) eqn:Hold; calls;
    unfold TimersCoalesced; fields; (split; [lia|]); (split;
    [ intros h c; destruct (decide (h = nextTimer (host w))) as [->|Hne];
      [ lia
      | rewrite lookup_insert_ne by done; intros Hh;
        eapply Hsub in Hh; [|reflexivity]; apply Hrange in Hh; lia ]
    | intros h ws wid; destruct (decide (h = nextTimer (host w))) as [->|Hne];
      [ rewrite lookup_insert_eq; intros [= <- <-]; by rewrite lookup_insert_eq
      | rewrite lookup_insert_ne by done; intros Hh;
        destruct (decide (ws = workspaceId)) as [->|Hws];
        [ exfalso; eapply Hgone; [reflexivity|exact Hh]
        | rewrite lookup_insert_ne by done;
          eapply Hsub in Hh; [|reflexivity]; by apply Hrec in Hh ] ] ]).
Qed.

Lemma step_coalesced ev w : TimersCoalesced w → TimersCoalesced (step env ev w).
Proof.
  intros Hinv. unfold step, exec.
  destruct ev as [message|info|h|k|tab target|newValue|ms|]; cbn [handle].
  - eapply coalesced_ext; [|exact Hinv].
    apply (preserves_bind timerState); [apply handleMessage_keeps_timerState|].
    intros ?. apply preserves_mret.
  - by apply handleTabChange_coalesced.
  - unfold fireTimer. rewrite mbind_gets.
    destruct (timers (host w) !! h) as [[workspaceId windowId]|] eqn:Hh; [|done].
    unfold Browser.clearTimeout, Browser.on_host. rewrite mbind_modify.
    match goal with |- context [saveWorkspaceSnapshot _ _ _ ?w1] =>
      eapply (coalesced_ext w1);
        [apply (saveWorkspaceSnapshot_keeps_timerState workspaceId windowId w1)|] end.
    destruct Hinv as (Hpos & Hrange & Hrec). split; [done|]. fields. split.
    + intros h' c Hh'. apply lookup_delete_Some in Hh' as [_ Hh']. by eapply Hrange.
    + intros h' ws wid Hh'. apply lookup_delete_Some in Hh' as [_ Hh']. by eapply Hrec.
  - eapply coalesced_ext; [|exact Hinv].
    apply (preserves_bind timerState).
    + unfold Browser.on_host. frame.
    + intros ?. unfold onWindowRemoved, Storage.saveWindowBindings, Storage.write,
        updateWindowIndicators. frame.
  - eapply coalesced_ext; [|exact Hinv]. apply moveTabToWorkspace_keeps_timerState.
  - eapply coalesced_ext; [|exact Hinv]. done.
  - eapply coalesced_ext; [|exact Hinv]. done.
  - unfold reload. rewrite mbind_modify.
    match goal with |- context [init ?w1] =>
      eapply (coalesced_ext w1); [apply (init_keeps_timerState w1)|] end.
    destruct Hinv as (Hpos & _ & _). split; [done|]. fields.
    split; intros *; by rewrite lookup_empty.
Qed.

Lemma run_coalesced evs w : TimersCoalesced w → TimersCoalesced (run env evs w).
Proof.
  revert w. induction evs as [|ev evs IH]; intros w Hinv; [done|].
  cbn [run foldl]. apply IH. by apply step_coalesced.
Qed.

End Coalescing.

(** X3. Debounce coalescing.  Starting from a world whose timers are
    coalesced (such as a first start), after every sequence of events there
    is at most one pending timer per workspace, and it is the one recorded
    in [saveTimers]: re-arming cancels the previous timer instead of queuing
    a second capture. *)
Theorem one_pending_timer_per_workspace (env : Env) (evs : list Event) (w : World) :
  TimersCoalesced w →
  let w' := run env evs w in
  TimersCoalesced w' ∧
  ∀ h1 h2 workspaceId wid1 wid2,
    timers (host w') !! h1 = Some (workspaceId, wid1) →
    timers (host w') !! h2 = Some (workspaceId, wid2) →
    h1 = h2 ∧ wid1 = wid2 ∧ saveTimers w' !! workspaceId = Some h1.
Proof.
  intros Hinv w'. pose proof (run_coalesced env evs w Hinv) as Hinv'. fold w' in Hinv'.
  split; [done|]. intros h1 h2 workspaceId wid1 wid2 H1 H2.
  destruct Hinv' as (_ & _ & Hrec).
  pose proof (Hrec _ _ _ H1) as Hs1. pose proof (Hrec _ _ _ H2) as Hs2.
  assert (h1 = h2) by congruence. subst h2. split; [done|]. split; [congruence|done].
Qed.

(** Three tab events in window 1, bound to "Research", leave one timer. *)
Lemma one_pending_timer_per_workspace_witness :
  let w' := run Sample.env
                [EvTabChange (mkInfo (Some 1) (Some 10));
                 EvTabChange (mkInfo (Some 1) (Some 11));
                 EvTabChange (mkInfo (Some 1) None)]
                (Scenario.research Scenario.allOn) in
  TimersCoalesced w' ∧ size (timers (host w')) = 1%nat.
Proof.
  intros w'. split; [|vm_compute; reflexivity].
  apply (one_pending_timer_per_workspace Sample.env
           [EvTabChange (mkInfo (Some 1) (Some 10));
            EvTabChange (mkInfo (Some 1) (Some 11));
            EvTabChange (mkInfo (Some 1) None)]
           (Scenario.research Scenario.allOn)).
  split; [vm_compute; reflexivity|]. split.
  - intros h c Hh. vm_compute in Hh. discriminate Hh.
  - intros h ws wid Hh. vm_compute in Hh. discriminate Hh.
Defined.

(** ** What a capture touches *)

(** X4. A capture for one workspace leaves every other workspace's stored
    snapshot, version and fingerprint alone, as well as the bindings, the
    settings, the timers and the browser; in the registry it can only rewrite
    the first entry with that id, and when it writes, that entry's [tabCount]
    is the length of the snapshot just stored, its [updatedAt] the clock
    reading, and the registry persisted is the one in memory. *)
Theorem capture_touches_one_workspace (env : Env) (w : World)
    (workspaceId : string) (windowId : Z) :
  let w' := exec (saveWorkspaceSnapshot env workspaceId windowId) w in
  windowBindings w' = windowBindings w ∧ settings w' = settings w ∧
  saveTimers w' = saveTimers w ∧ host w' = host w ∧
  st_bindings (store w') = st_bindings (store w) ∧
  st_settings (store w') = st_settings (store w) ∧
  (∀ other, other ≠ workspaceId →
            storedTabs w' other = storedTabs w other ∧
            storedVersion w' other = storedVersion w other ∧
            storedHash w' other = storedHash w other) ∧
  length (workspaceIndex w') = length (workspaceIndex w) ∧
  (∀ j ws, workspaceIndex w !! j = Some ws → id ws ≠ workspaceId →
           workspaceIndex w' !! j = Some ws) ∧
  (storedHash w workspaceId ≠ Some (fingerprint env (captured env w windowId)) →
   ∀ i ws, findIndex (workspaceIndex w) (Some workspaceId) = Some (i, ws) →
           workspaceIndex w' !! i =
             Some (mkWorkspace (id ws) (name ws) (color ws) (pinned ws) (archived ws)
                               (createdAt ws) (clock (host w))
                               (length (storedTabs w' workspaceId))) ∧
           st_index (store w') = workspaceIndex w').
Proof.
  intros w'. subst w'.
  destruct (decide (storedHash w workspaceId = Some (fingerprint env (captured env w windowId))))
    as [Heq|Hne].
  { unfold exec. rewrite (saveWorkspaceSnapshot_skip env w workspaceId windowId Heq).
    cbn [snd]. repeat split; try done. }
  unfold exec, saveWorkspaceSnapshot, try_catch, storedHash, storedTabs, storedVersion,
    captured, Storage.getLastHash, Storage.getWorkspaceVersion, Storage.saveWorkspaceTabs,
    Storage.saveLastHash, Storage.saveWorkspaceIndex, Storage.write, Browser.tabs_query,
    Browser.Date_now in *.
  rewrite mbind_gets, mbind_gets, mbind_gets. rewrite decide_False by done.
  destruct (findIndex (workspaceIndex w) (Some workspaceId)) as [[i ws]|] eqn:Hfind; calls;
    rewrite Hfind; calls.
  - apply findIndex_Some in Hfind as Hf. destruct Hf as ([= Hid] & Hl & _).
    apply lookup_lt_Some in Hl as Hlt.
    do 6 (split; [done|]). split; [|split; [|split]].
    + intros other Hother. by rewrite !lookup_insert_ne.
    + by rewrite length_insert.
    + intros j ws' Hj Hid'. destruct (decide (j = i)) as [->|Hji]; [congruence|].
      by rewrite list_lookup_insert_ne.
    + intros _ i' ws' [= <- <-]. rewrite list_lookup_insert_eq by done.
      rewrite !lookup_insert_eq. done.
  - do 6 (split; [done|]). split; [|split; [|split]]; try done.
    intros other Hother. by rewrite !lookup_insert_ne.
Qed.

(** ** Reaping, start-up and closing a window *)

Lemma reap_entries_nodup (bindings : gmap Z string) : NoDup (entries bindings).*1.
Proof. unfold entries. rewrite merge_sort_Permutation. apply NoDup_fst_map_to_list. Qed.

Lemma cleanupStaleBindings_full (w : World) :
  ∃ kept : gmap Z string,
    cleanupStaleBindings w =
      (Returned (),
       mkWorld (workspaceIndex w) kept (settings w) (saveTimers w)
               (mkStore (st_index (store w)) (st_tabs (store w)) (st_version (store w))
                        (st_hash (store w)) kept (st_settings (store w)))
               (host w) (trace w ++ [SaveWindowBindings kept])) ∧
    ∀ k v, kept !! k = Some v ↔
           windowBindings w !! k = Some v ∧ is_Some (windows (host w) !! k).
Proof.
  unfold cleanupStaleBindings, Browser.windows_getAll, Storage.saveWindowBindings,
    Storage.write. calls.
  eexists. split; [reflexivity|].
  intros k v. rewrite (reap_loop_lookup _ _ _ _ (reap_entries_nodup _)), elem_of_entries.
  by rewrite elem_of_list_to_set, elem_of_elements, elem_of_dom.
Qed.

(** X5. The start-up reap keeps exactly the bindings whose window is live,
    each with its workspace, and persists the table it kept.  Reaping again
    changes nothing more, and a table whose windows are all live is kept
    whole. *)
Theorem cleanupStaleBindings_keeps_live (w : World) :
  let w' := exec cleanupStaleBindings w in
  outcome cleanupStaleBindings w = Returned () ∧
  (∀ k v, windowBindings w' !! k = Some v ↔
          windowBindings w !! k = Some v ∧ is_Some (windows (host w) !! k)) ∧
  boundToLive w' ∧
  st_bindings (store w') = windowBindings w' ∧
  trace w' = trace w ++ [SaveWindowBindings (windowBindings w')] ∧
  workspaceIndex w' = workspaceIndex w ∧ settings w' = settings w ∧ host w' = host w ∧
  windowBindings (exec cleanupStaleBindings w') = windowBindings w' ∧
  (boundToLive w → windowBindings w' = windowBindings w).
Proof.
  intros w'. subst w'. destruct (cleanupStaleBindings_full w) as (kept & Hrun & Hkept).
  unfold outcome, exec. rewrite Hrun. cbn [fst snd].
  set (w1 := mkWorld _ _ _ _ _ _ _).
  destruct (cleanupStaleBindings_full w1) as (kept' & Hrun' & Hkept').
  rewrite Hrun'. subst w1.
  cbn [snd windowBindings store st_bindings trace workspaceIndex settings host] in *.
  split; [done|]. split; [done|]. split.
  { intros k v Hk. cbn [windowBindings host] in *. by apply Hkept in Hk as [_ Hlive]. }
  do 5 (split; [done|]). split.
  - apply map_eq. intros k. apply option_eq. intros v.
    rewrite Hkept', !Hkept. tauto.
  - intros Hlive. apply map_eq. intros k. apply option_eq. intros v.
    rewrite Hkept. split; [tauto|]. intros Hk. split; [done|]. by eapply Hlive.
Qed.

(** X6. [init] rebuilds the in-memory state from the store: the settings and
    the registry are the stored ones, and the binding table is the stored
    table cut down to the live windows, written back to the store.  The
    snapshots, versions and fingerprints in the store are not touched. *)
Theorem init_rebuilds_from_store (w : World) :
  let w' := exec init w in
  outcome init w = Returned () ∧
  settings w' = st_settings (store w) ∧
  workspaceIndex w' = st_index (store w) ∧
  (∀ k v, windowBindings w' !! k = Some v ↔
          st_bindings (store w) !! k = Some v ∧ is_Some (windows (host w) !! k)) ∧
  boundToLive w' ∧
  st_bindings (store w') = windowBindings w' ∧
  st_index (store w') = st_index (store w) ∧
  st_tabs (store w') = st_tabs (store w) ∧
  st_version (store w') = st_version (store w) ∧
  st_hash (store w') = st_hash (store w) ∧
  st_settings (store w') = st_settings (store w) ∧
  host w' = host w.
Proof.
  intros w'. subst w'. unfold exec, outcome, init, Storage.getSettings,
    Storage.getWorkspaceIndex, Storage.getWindowBindings. calls.
  match goal with |- context [(cleanupStaleBindings ≫= _) ?w1] =>
    destruct (cleanupStaleBindings_full w1) as (kept & Hrun & Hkept) end.
  fields. erewrite !mbind_run by exact Hrun.
  unfold refreshAllWindowIndicators, updateContextMenu. calls.
  do 3 (split; [done|]). split; [done|]. split; [|done].
  intros k v Hk. by apply Hkept in Hk as [_ Hlive].
Qed.

(** X7. Closing a window removes the window and, when it was bound, its
    binding, persisting the table and refreshing the indicator; every other
    binding stays.  Closing an unbound window writes nothing.  Either way
    the registry, the settings, the snapshots and the timers are left as they
    were: a timer pending for the closed window's workspace is not
    cancelled. *)
Theorem window_close_unbinds_that_window (w : World) (k : Z) :
  let w' := exec (windowClosed k) w in
  outcome (windowClosed k) w = Returned () ∧
  windows (host w') = delete k (windows (host w)) ∧
  (∀ j, j ≠ k → windowBindings w' !! j = windowBindings w !! j) ∧
  workspaceIndex w' = workspaceIndex w ∧ settings w' = settings w ∧
  saveTimers w' = saveTimers w ∧ timers (host w') = timers (host w) ∧
  st_tabs (store w') = st_tabs (store w) ∧ st_version (store w') = st_version (store w) ∧
  st_hash (store w') = st_hash (store w) ∧
  (truthyOptStr (windowBindings w !! k) = true →
     windowBindings w' = delete k (windowBindings w) ∧
     st_bindings (store w') = windowBindings w' ∧
     trace w' = trace w ++ [SaveWindowBindings (windowBindings w');
                            UpdateWindowIndicators k]) ∧
  (truthyOptStr (windowBindings w !! k) = false →
     windowBindings w' = windowBindings w ∧ store w' = store w ∧ trace w' = trace w).
Proof.
  intros w'. subst w'. unfold exec, outcome, windowClosed, onWindowRemoved,
    Browser.on_host, Storage.saveWindowBindings, Storage.write, updateWindowIndicators.
  calls.
  destruct (truthyOptStr (windowBindings w !! k)); calls.
  - split; [done|]. split; [done|]. split.
    { intros j Hj. by rewrite lookup_delete_ne. }
    do 7 (split; [done|]). split; [|done]. intros _.
    split; [done|]. split; [done|]. by rewrite <- app_assoc.
  - split; [done|]. split; [done|]. split; [done|].
    do 7 (split; [done|]). split; [done|]. intros _. by destruct w as [? ? ? ? [] ? ?].
Qed.

(** ** Deleting a workspace *)

Lemma unbind_loop (workspaceId : string) (l : list (Z * string)) (w : World) :
  forEach l (λ '(windowId, bound),
               if decide (bound = workspaceId) then
                 modify (λ w, set_windowBindings (delete windowId (windowBindings w)) w);;
                 updateWindowIndicators windowId
               else mret ()) w =
    (Returned (),
     mkWorld (workspaceIndex w)
             (foldl (λ (b : gmap Z string) kv,
                       if decide (kv.2 = workspaceId) then delete kv.1 b else b)
                    (windowBindings w) l)
             (settings w) (saveTimers w) (store w) (host w)
             (trace w ++ ((λ kv, UpdateWindowIndicators kv.1) <$>
                            filter (λ kv, kv.2 = workspaceId) l))).
Proof.
  revert w. induction l as [|[k bound] l IH]; intros w; cbn [forEach foldl].
  - rewrite mret_run, filter_nil, fmap_nil, app_nil_r. by destruct w.
  - cbn [fst snd]. rewrite filter_cons. cbn [snd].
    destruct (decide (bound = workspaceId)) as [->|Hne].
    + unfold updateWindowIndicators. calls. rewrite IH. fields.
      rewrite fmap_cons. cbn [fst]. by rewrite <- app_assoc.
    + rewrite mbind_mret. apply IH.
Qed.

Lemma unbind_fold_lookup (workspaceId : string) (l : list (Z * string))
    (b : gmap Z string) (k : Z) (v : string) :
  foldl (λ (b : gmap Z string) kv, if decide (kv.2 = workspaceId) then delete kv.1 b else b)
        b l !! k = Some v
  ↔ b !! k = Some v ∧ (k, workspaceId) ∉ l.
Proof.
  revert b. induction l as [|[k0 v0] l IH]; intros b; cbn [foldl fst snd].
  - rewrite elem_of_nil. tauto.
  - rewrite IH, not_elem_of_cons. destruct (decide (v0 = workspaceId)) as [->|Hne].
    + rewrite lookup_delete_Some. split.
      * intros [[Hk Hb] Hl]. split; [done|]. split; [|done]. intros [= Heq]. done.
      * intros [Hb [Hk Hl]]. split; [|done]. split; [|done]. intros ->. done.
    + split; [|tauto]. intros [Hb Hl]. split; [done|]. split; [|done].
      intros [= _ Heq]. done.
Qed.

(** X8. Deleting a workspace found in the registry removes that registry
    entry, deletes the workspace's snapshot, version and fingerprint from the
    store, and unbinds every window bound to it; the other entries, the
    other workspaces' data and the other bindings stay, and registry and
    binding table are persisted as left.  Settings, windows and timers are
    not touched: a pending timer of the deleted workspace stays pending. *)
Theorem deleteWorkspace_removes_everything (w : World) (workspaceId : string)
    (i : nat) (ws : Workspace) :
  findIndex (workspaceIndex w) (Some workspaceId) = Some (i, ws) →
  let w' := exec (deleteWorkspace (Some workspaceId)) w in
  outcome (deleteWorkspace (Some workspaceId)) w = Returned RSuccess ∧
  workspaceIndex w' = delete i (workspaceIndex w) ∧
  st_index (store w') = workspaceIndex w' ∧
  st_tabs (store w') = delete workspaceId (st_tabs (store w)) ∧
  st_version (store w') = delete workspaceId (st_version (store w)) ∧
  st_hash (store w') = delete workspaceId (st_hash (store w)) ∧
  (∀ k v, windowBindings w' !! k = Some v ↔
          windowBindings w !! k = Some v ∧ v ≠ workspaceId) ∧
  st_bindings (store w') = windowBindings w' ∧
  settings w' = settings w ∧ host w' = host w ∧ saveTimers w' = saveTimers w.
Proof.
  intros Hfind w'. subst w'. unfold exec, outcome, deleteWorkspace.
  rewrite mbind_gets, Hfind.
  unfold Storage.saveWorkspaceIndex, Storage.deleteWorkspaceData, Storage.write,
    updateContextMenu. calls.
  erewrite mbind_run by apply unbind_loop. fields.
  unfold Storage.saveWindowBindings, Storage.write. calls.
  do 6 (split; [done|]). split; [|done].
  intros k v. rewrite unbind_fold_lookup. split.
  - intros [Hb Hnot]. split; [done|]. intros ->. apply Hnot. by apply elem_of_entries.
  - intros [Hb Hne]. split; [done|]. intros Hin. apply elem_of_entries in Hin. congruence.
Qed.

(** "Research", bound to window 1, is deleted. *)
Lemma deleteWorkspace_removes_everything_witness :
  let w := Scenario.research Scenario.allOn in
  let w' := exec (deleteWorkspace (Some "ws")) w in
  workspaceIndex w' = [] ∧ windowBindings w' !! 1 = None ∧
  st_tabs (store w') !! "ws" = None.
Proof.
  intros w w'.
  destruct (deleteWorkspace_removes_everything w "ws" 0
              (mkWorkspace "ws" "Research" "#3B82F6" false false 1000 1000 3))
    as (_ & Hindex & _ & Htabs & _ & _ & Hbind & _).
  - vm_compute. reflexivity.
  - fold w' in Hindex, Htabs, Hbind. rewrite Hindex, Htabs, lookup_delete_eq.
    split; [vm_compute; reflexivity|]. split; [|done].
    destruct (windowBindings w' !! 1) as [v|] eqn:Hv; [|done].
    apply Hbind in Hv as [Hv Hne]. vm_compute in Hv. congruence.
Defined.

(** Evaluate a handler applied to a world in one pass. *)
Ltac evaluate :=
  cbv beta iota zeta delta
    [mbind mret M_bind M_ret bind ret gets modify throw try_catch exec outcome fst snd
     Storage.write Browser.on_host
     set_workspaceIndex set_windowBindings set_settings set_saveTimers set_store
     set_host emit set_windows set_nextId set_clock set_timers set_nextTimer set_entropy
     workspaceIndex windowBindings settings saveTimers store host trace
     windows nextId clock timers nextTimer entropy
     st_index st_tabs st_version st_hash st_bindings st_settings].

(** ** Pinning, creating and looking up *)

Lemma findIndex_insert_same_id (index : list Workspace) (k : string) (i : nat)
    (ws ws' : Workspace) :
  findIndex index (Some k) = Some (i, ws) → id ws' = id ws →
  findIndex (<[i := ws']> index) (Some k) = Some (i, ws').
Proof.
  cbn [findIndex]. intros (Hl & Hid & Hbefore)%list_find_Some Hsame.
  apply list_find_Some. apply lookup_lt_Some in Hl as Hlt.
  split; [by rewrite list_lookup_insert_eq|]. split; [congruence|].
  intros j y Hj Hji. rewrite list_lookup_insert_ne in Hj by lia. by eapply Hbefore.
Qed.

(** X9. Toggling the pin of a workspace flips the [pinned] flag of its
    registry entry and nothing else in it (its [updatedAt] included), answers
    with the new flag, and persists the registry; toggling twice gives back
    the registry as it was. *)
Theorem toggleWorkspacePin_twice (w : World) (workspaceId : string)
    (i : nat) (ws : Workspace) :
  findIndex (workspaceIndex w) (Some workspaceId) = Some (i, ws) →
  let once := exec (toggleWorkspacePin (Some workspaceId)) w in
  let twice := exec (toggleWorkspacePin (Some workspaceId)) once in
  outcome (toggleWorkspacePin (Some workspaceId)) w = Returned (RPinned (negb (pinned ws))) ∧
  workspaceIndex once =
    <[i := mkWorkspace (id ws) (name ws) (color ws) (negb (pinned ws)) (archived ws)
                       (createdAt ws) (updatedAt ws) (tabCount ws)]> (workspaceIndex w) ∧
  st_index (store once) = workspaceIndex once ∧
  outcome (toggleWorkspacePin (Some workspaceId)) once = Returned (RPinned (pinned ws)) ∧
  workspaceIndex twice = workspaceIndex w ∧
  st_index (store twice) = workspaceIndex w.
Proof.
  intros Hfind once twice.
  assert (Hrun : ∀ w0 ws0, findIndex (workspaceIndex w0) (Some workspaceId) = Some (i, ws0) →
            toggleWorkspacePin (Some workspaceId) w0 =
              (Returned (RPinned (negb (pinned ws0))),
               emit (SaveWorkspaceIndex (<[i := with_pinned (negb (pinned ws0)) ws0]>
                                           (workspaceIndex w0)))
                 (set_store (mkStore (<[i := with_pinned (negb (pinned ws0)) ws0]>
                                        (workspaceIndex w0))
                                     (st_tabs (store w0)) (st_version (store w0))
                                     (st_hash (store w0)) (st_bindings (store w0))
                                     (st_settings (store w0)))
                    (set_workspaceIndex (<[i := with_pinned (negb (pinned ws0)) ws0]>
                                           (workspaceIndex w0)) w0)))).
  { intros w0 ws0 Hf. unfold toggleWorkspacePin. rewrite mbind_gets, Hf.
    unfold Storage.saveWorkspaceIndex, Storage.write. calls. done. }
  pose proof (Hrun w ws Hfind) as Hone.
  assert (Hfind' : findIndex (workspaceIndex once) (Some workspaceId)
                   = Some (i, with_pinned (negb (pinned ws)) ws)).
  { subst once. unfold exec. rewrite Hone. fields.
    by apply (findIndex_insert_same_id _ _ _ ws). }
  pose proof (Hrun once _ Hfind') as Htwo.
  subst twice. unfold outcome, exec in *. rewrite Htwo.
  subst once. unfold exec in *. rewrite Hone in *. fields.
  cbn [pinned with_pinned]. rewrite negb_involutive.
  apply findIndex_Some in Hfind as (_ & Hl & _).
  assert (Hback : <[i := with_pinned (pinned ws) (with_pinned (negb (pinned ws)) ws)]>
                    (<[i := with_pinned (negb (pinned ws)) ws]> (workspaceIndex w))
                  = workspaceIndex w).
  { rewrite list_insert_insert_eq. apply list_insert_id. by destruct ws. }
  rewrite Hback. done.
Qed.

(** "Research" is pinned and unpinned. *)
Lemma toggleWorkspacePin_twice_witness :
  let w := Scenario.research Scenario.allOn in
  workspaceIndex (exec (toggleWorkspacePin (Some "ws"))
                    (exec (toggleWorkspacePin (Some "ws")) w)) = workspaceIndex w.
Proof.
  intros w.
  destruct (toggleWorkspacePin_twice w "ws" 0
              (mkWorkspace "ws" "Research" "#3B82F6" false false 1000 1000 3))
    as (_ & _ & _ & _ & Hback & _).
  - vm_compute. reflexivity.
  - exact Hback.
Defined.

(** X10. Without a window to capture (no [fromCurrentWindow], or a missing
    or zero [windowId]) [createWorkspace] makes a workspace of one default
    tab: the registry gains exactly one entry, appended, with the supplied
    name (or the default name when none is given), unpinned, not archived,
    stamped with the clock and counting one tab; its snapshot is the single
    [about:newtab] descriptor at version 1; and no window is bound. *)
Theorem createWorkspace_without_window (env : Env) (w : World) (d : CreateData) :
  cd_fromCurrentWindow d && truthyOptZ (cd_windowId d) = false →
  let w' := exec (createWorkspace env (Some d)) w in
  ∃ ws : Workspace,
    outcome (createWorkspace env (Some d)) w = Returned (RWorkspace (Some ws)) ∧
    workspaceIndex w' = workspaceIndex w ++ [ws] ∧
    st_index (store w') = workspaceIndex w' ∧
    id ws = generateId env (entropy (host w)) ∧
    name ws = (if truthyOptStr (cd_name d) then default "" (cd_name d)
               else getDefaultWorkspaceName env (workspaceIndex w)) ∧
    pinned ws = false ∧ archived ws = false ∧
    createdAt ws = clock (host w) ∧ updatedAt ws = clock (host w) ∧
    tabCount ws = 1%nat ∧
    storedTabs w' (id ws) = [mkDesc (Some "about:newtab") (Some "New Tab") false] ∧
    storedVersion w' (id ws) = 1 ∧
    windowBindings w' = windowBindings w ∧
    st_bindings (store w') = st_bindings (store w) ∧
    windows (host w') = windows (host w).
Proof.
  intros Hno w'. subst w'.
  unfold storedTabs, storedVersion, createWorkspace, Browser.draw,
    Browser.Date_now, Storage.saveWorkspaceIndex, Storage.saveWorkspaceTabs,
    updateContextMenu.
  rewrite Hno.
  destruct (truthyOptStr (cd_color d)); evaluate;
    (eexists; split; [reflexivity|]); cbn [id name pinned archived createdAt updatedAt
                                            tabCount with_tabCount];
    rewrite !lookup_insert_eq; repeat split; reflexivity.
Qed.

(** A create request that asks for the current window but names none. *)
Lemma createWorkspace_without_window_witness :
  let w := boot Scenario.allOn Scenario.oneWindow in
  let w' := exec (createWorkspace Sample.env
                    (Some (mkCreateData None None true None))) w in
  (name <$> last (workspaceIndex w')) = Some "Workspace" ∧ windowBindings w' = ∅ ∧
  storedVersion w' "ws" = 1.
Proof.
  intros w w'.
  destruct (createWorkspace_without_window Sample.env w (mkCreateData None None true None)
              eq_refl)
    as (ws & _ & Hindex & _ & Hid & Hname & _ & _ & _ & _ & _ & _ & Hver & Hbind & _).
  fold w' in Hindex, Hver, Hbind. rewrite Hindex, last_snoc, Hbind. cbn [fmap option_fmap option_map].
  rewrite Hname. change (generateId Sample.env (entropy (host w))) with "ws" in Hid.
  rewrite Hid in Hver. repeat split; done.
Defined.

(** X11. A workspace created from a window is that window's current
    workspace: when the generated id is non-empty and not yet the id of a
    registry entry, [getCurrentWorkspace] on the window answers with the
    record [createWorkspace] returned. *)
Theorem created_workspace_is_current (env : Env) (w : World) (d : CreateData) (k : Z) :
  cd_fromCurrentWindow d = true →
  cd_windowId d = Some k →
  k ≠ 0 →
  generateId env (entropy (host w)) ≠ "" →
  (∀ ws0, ws0 ∈ workspaceIndex w → id ws0 ≠ generateId env (entropy (host w))) →
  let w' := exec (createWorkspace env (Some d)) w in
  ∃ ws : Workspace,
    outcome (createWorkspace env (Some d)) w = Returned (RWorkspace (Some ws)) ∧
    getCurrentWorkspace (Some k) w' = (Returned (RWorkspace (Some ws)), w').
Proof.
  intros Hfrom Hwin Hk Htruthy Hfresh w'. subst w'.
  destruct (createWorkspace_run env w d)
    as (ws & w' & Hrun & Hid & Hindex & _ & _ & _ & _ & _ & Hbind).
  unfold exec, outcome. rewrite Hrun. cbn [fst snd]. exists ws. split; [done|].
  assert (Hz : truthyZ k = true) by (unfold truthyZ; by apply negb_true_iff, Z.eqb_neq).
  rewrite Hfrom, Hwin in Hbind. cbn [truthyOptZ andb default from_option] in Hbind.
  rewrite Hz in Hbind.
  unfold getCurrentWorkspace. cbn [truthyOptZ]. rewrite Hz. cbn [negb mbind option_bind].
  rewrite mbind_gets, Hbind. cbn [mbind option_bind]. rewrite lookup_insert_eq.
  cbn [truthyOptStr].
  assert (truthyStr (id ws) = true) as ->.
  { unfold truthyStr. apply negb_true_iff, String.eqb_neq. by rewrite Hid. }
  cbn [negb]. rewrite mbind_gets, Hindex.
  assert (Hfind : findIndex (workspaceIndex w ++ [ws]) (Some (id ws))
                  = Some (length (workspaceIndex w), ws)).
  { cbn [findIndex]. apply list_find_Some. split; [|split; [done|]].
    - by rewrite lookup_app_r, Nat.sub_diag by lia.
    - intros j y Hj Hlt. rewrite lookup_app_l in Hj by done.
      rewrite Hid. apply Hfresh. by eapply list_elem_of_lookup_2. }
  rewrite Hfind. by rewrite mret_run.
Qed.

(** On a first start with one window. *)
Lemma created_workspace_is_current_witness :
  let w := boot Scenario.allOn Scenario.oneWindow in
  let d := mkCreateData (Some "Research") None true (Some 1) in
  ∃ ws, getCurrentWorkspace (Some 1) (exec (createWorkspace Sample.env (Some d)) w)
        = (Returned (RWorkspace (Some ws)), exec (createWorkspace Sample.env (Some d)) w).
Proof.
  intros w d.
  destruct (created_workspace_is_current Sample.env w d 1) as (ws & _ & Hcur);
    [reflexivity | reflexivity | discriminate | discriminate | | by exists ws].
  intros ws0 Hin. cbn in Hin. by apply elem_of_nil in Hin.
Defined.

(** ** Opening a workspace: the two stretches, and the window that is built *)

Section Build.

Variable env : Env.

(** [openWorkspace] is its check followed by the rest. *)
Lemma openWorkspace_stretches (workspaceId : option string) (w : World) :
  openWorkspace env workspaceId w =
    (openWorkspace_check workspaceId ≫= openWorkspace_resume env) w.
Proof.
  unfold openWorkspace, openWorkspace_check. rewrite mbind_assoc, !mbind_gets.
  destruct (findIndex (workspaceIndex w) workspaceId) as [[i ws]|]; [|by rewrite mbind_mret].
  destruct workspaceId as [wsId|]; [|by rewrite mbind_mret].
  rewrite !mbind_assoc, !mbind_gets, !mbind_assoc, !mbind_gets, !mbind_assoc.
  erewrite !mbind_run by apply focus_attempt_run.
  destruct (focusable w wsId); by rewrite mbind_mret.
Qed.

Lemma openWorkspace_check_run (w : World) (workspaceId : option string)
    (i : nat) (ws : Workspace) :
  findIndex (workspaceIndex w) workspaceId = Some (i, ws) →
  openWorkspace_check workspaceId w =
    (Returned (match focusable w (id ws) with
               | Some existing => inl (RWindowId existing)
               | None => inr (id ws)
               end), w).
Proof.
  intros Hfind. apply findIndex_Some in Hfind as Hf. destruct Hf as (-> & _ & _).
  unfold openWorkspace_check. rewrite mbind_gets, Hfind. calls.
  erewrite mbind_run by apply focus_attempt_run.
  destruct (focusable w (id ws)); by rewrite mret_run.
Qed.

Lemma freshTabs_lookup (h : Host) (k : Z) (l : list BrowserTab) (tb : BrowserTab) :
  freshTabs h = true → windows h !! k = Some l → tb ∈ l → tab_id tb < nextId h.
Proof.
  unfold freshTabs, Browser.all_tabs. rewrite forallb_forall. intros Hall Hk Hin.
  apply Z.ltb_lt, Hall, in_concat.
  exists l. split; [|by apply list_elem_of_In]. apply list_elem_of_In, list_elem_of_fmap.
  exists (k, l). split; [done|]. by apply elem_of_map_to_list.
Qed.

Lemma forEach_tabs_create_full (k : Z) (urls : list string) (w : World)
    (l : list BrowserTab) (N : Z) :
  windows (host w) !! k = Some l →
  N ≤ nextId (host w) →
  Forall (λ tb, N ≤ tab_id tb) l →
  ∃ l' n,
    forEach urls (Browser.tabs_create k) w =
      (Returned (), set_host (set_nextId n (set_windows (<[k := l']> (windows (host w)))
                                              (host w))) w) ∧
    tab_url <$> l' = (tab_url <$> l) ++ (Some <$> urls) ∧
    nextId (host w) ≤ n ∧
    Forall (λ tb, N ≤ tab_id tb) l'.
Proof.
  revert w l. induction urls as [|url urls IH]; intros w l Hl HN Hall.
  - exists l, (nextId (host w)). split; [|by rewrite app_nil_r].
    cbn [forEach]. rewrite mret_run, insert_id by done. by destruct w as [? ? ? ? ? []].
  - cbn [forEach]. erewrite mbind_run by (by apply tabs_create_run).
    match goal with |- context [forEach urls _ ?w1] =>
      destruct (IH w1 (l ++ [mkTab (nextId (host w)) (Some url) None false]))
        as (l' & n & Hrun & Hurls & Hn & Hall') end.
    { fields. by rewrite lookup_insert_eq. }
    { fields. lia. }
    { apply Forall_app. split; [done|]. by repeat constructor. }
    exists l', n. split; [|split; [|split]].
    + rewrite Hrun. fields. by rewrite insert_insert_eq.
    + rewrite Hurls, fmap_app. cbn. by rewrite <- app_assoc.
    + fields. lia.
    + done.
Qed.

Lemma forEach_tabs_pin_full (pairs : list (BrowserTab * TabDescriptor)) (w : World) (N : Z) :
  Forall (λ pair : BrowserTab * TabDescriptor, N ≤ tab_id pair.1) pairs →
  ∃ hw,
    forEach pairs (λ '(wt, d), if p d then Browser.tabs_pin (tab_id wt) else mret ()) w =
      (Returned (), set_host (set_windows hw (host w)) w) ∧
    (∀ j, fmap tab_url <$> hw !! j = fmap tab_url <$> windows (host w) !! j) ∧
    (∀ j l, windows (host w) !! j = Some l → Forall (λ tb, tab_id tb < N) l →
            hw !! j = Some l).
Proof.
  revert w. induction pairs as [|[wt d] pairs IH]; intros w Hall.
  - exists (windows (host w)). split; [|done].
    cbn [forEach]. rewrite mret_run. by destruct w as [? ? ? ? ? []].
  - apply Forall_cons in Hall as [Hwt Hall]. cbn [fst] in Hwt. cbn [forEach]. destruct (p d).
    + unfold Browser.tabs_pin, Browser.on_host. rewrite mbind_modify.
      match goal with |- context [forEach pairs _ ?w1] =>
        destruct (IH w1 Hall) as (hw & Heq & Hd & Hold) end.
      exists hw. split; [exact Heq|]. split.
      * intros j. rewrite Hd. fields.
        rewrite lookup_fmap. destruct (windows (host w) !! j) as [l|]; [|done].
        cbn. f_equal. rewrite <- list_fmap_compose. apply list_fmap_ext.
        intros ? tb _. cbn. by destruct (decide (tab_id tb = tab_id wt)).
      * intros j l Hj Hl. apply Hold; [|done]. fields. rewrite lookup_fmap, Hj. cbn.
        f_equal. rewrite <- (list_fmap_id l) at 2. apply list_fmap_ext.
        intros n tb Hn. rewrite Forall_forall in Hl.
        apply list_elem_of_lookup_2, Hl in Hn.
        destruct (decide (tab_id tb = tab_id wt)); [lia|done].
    + rewrite mbind_mret. by apply IH.
Qed.

(** What the second stretch does, in any world. *)
Lemma openWorkspace_build_run (w : World) (wsId : string) :
  let urls := restorableUrls env (storedTabs w wsId) in
  ∃ hw n,
    openWorkspace_build env wsId w =
      (Returned (RWindowId (nextId (host w))), opened w wsId hw n) ∧
    nextId (host w) < n ∧
    (∃ tabs, hw !! nextId (host w) = Some tabs ∧
             tab_url <$> tabs =
               Some <$> (match urls with [] => ["about:newtab"] | _ => urls end)) ∧
    (∀ j, j ≠ nextId (host w) →
          is_Some (hw !! j) ↔ is_Some (windows (host w) !! j)) ∧
    (freshTabs (host w) = true →
     ∀ j, j ≠ nextId (host w) → hw !! j = windows (host w) !! j).
Proof.
  intros urls0. unfold openWorkspace_build.
  unfold Storage.getWorkspaceTabs, Browser.windows_create, Browser.on_host. calls.
  subst urls0. unfold storedTabs.
  set (urls := match restorableUrls env _ with [] => ["about:newtab"] | _ => _ end).
  match goal with |- context [(forEach (tail urls) _ ≫= _) ?w1] =>
    destruct (forEach_tabs_create_full (nextId (host w)) (tail urls) w1
                [mkTab (nextId (host w) + 1) (Some (default "" (head urls))) None false]
                (nextId (host w)))
      as (l1 & n1 & Hcreate & Hurls1 & Hn1 & Hall1) end.
  { fields. by rewrite lookup_insert_eq. }
  { fields. lia. }
  { repeat constructor. cbn. lia. }
  erewrite !mbind_run by exact Hcreate. fields.
  unfold Browser.tabs_query. calls.
  match goal with |- context [(forEach ?l _ ≫= _) ?w2] =>
    destruct (forEach_tabs_pin_full l w2 (nextId (host w))) as (hw2 & Hpin & Hurls2 & Hold2) end.
  { rewrite insert_insert_eq, lookup_insert_eq. cbn [default from_option].
    rewrite Forall_forall. intros [wt d] Hin. cbn [fst].
    apply elem_of_zip_l in Hin. rewrite Forall_forall in Hall1. by apply Hall1. }
  erewrite !mbind_run by exact Hpin. fields.
  unfold Storage.saveWindowBindings, Storage.write, notifyContentScripts,
    updateWindowIndicators. calls.
  fields. rewrite insert_insert_eq in Hurls2, Hold2.
  exists hw2, n1. split; [|split; [|split; [|split]]].
  - unfold opened. fields. by repeat rewrite <- app_assoc.
  - lia.
  - pose proof (Hurls2 (nextId (host w))) as Hn. rewrite lookup_insert_eq in Hn.
    destruct (hw2 !! nextId (host w)) as [tabs|]; [|done]. injection Hn as Hn.
    exists tabs. split; [done|]. rewrite Hn, Hurls1. cbn.
    assert (Hne : urls ≠ []) by (subst urls; by destruct (restorableUrls env _)).
    destruct urls as [|u0 rest]; [done|]. done.
  - intros j Hj. pose proof (Hurls2 j) as Hu. rewrite lookup_insert_ne in Hu by done.
    destruct (hw2 !! j), (windows (host w) !! j); cbn in Hu; try done;
      split; eauto.
  - intros Hfresh j Hj. destruct (windows (host w) !! j) as [l|] eqn:Hl.
    + apply Hold2; [by rewrite lookup_insert_ne|].
      rewrite Forall_forall. intros tb Hin. by eapply freshTabs_lookup.
    + pose proof (Hurls2 j) as Hu. rewrite lookup_insert_ne, Hl in Hu by done.
      by destruct (hw2 !! j).
Qed.

End Build.

Section OpenCases.

Variable env : Env.

(** The run of [openWorkspace] when no window is focused. *)
Lemma openWorkspace_builds (w : World) (workspaceId : option string)
    (i : nat) (ws : Workspace) :
  findIndex (workspaceIndex w) workspaceId = Some (i, ws) →
  focusable w (id ws) = None →
  openWorkspace env workspaceId w = openWorkspace_build env (id ws) w.
Proof.
  intros Hfind Hfoc. rewrite openWorkspace_stretches.
  erewrite mbind_run by (by eapply openWorkspace_check_run). by rewrite Hfoc.
Qed.

Lemma focusable_None_unbound (w : World) (wsId : string) :
  focusExistingWindow (settings w) = false ∨ (∀ k, windowBindings w !! k ≠ Some wsId) →
  focusable w wsId = None.
Proof.
  unfold focusable. intros [Hoff|Hnone].
  - rewrite Hoff. by destruct (findWindow _ _).
  - apply findWindow_None in Hnone. by rewrite Hnone.
Qed.

End OpenCases.

(** X12. When [focusExistingWindow] is off, or no window is bound to the
    workspace, [openWorkspace] builds a new window whose tabs carry, in
    order, the stored URLs that are non-empty and not excluded, or the single
    URL [about:newtab] when there is none; it binds that window to the
    workspace, persists the table, and answers with the window's id.  With
    tab ids handed out fresh by the browser, every other window is exactly
    as it was; the registry and the stored snapshots, versions and
    fingerprints are left alone. *)
Theorem openWorkspace_restores_urls (env : Env) (w : World) (workspaceId : option string)
    (i : nat) (ws : Workspace) :
  findIndex (workspaceIndex w) workspaceId = Some (i, ws) →
  focusExistingWindow (settings w) = false ∨
    (∀ k, windowBindings w !! k ≠ Some (id ws)) →
  freshTabs (host w) = true →
  let w' := exec (openWorkspace env workspaceId) w in
  let newWindow := nextId (host w) in
  let urls := restorableUrls env (storedTabs w (id ws)) in
  outcome (openWorkspace env workspaceId) w = Returned (RWindowId newWindow) ∧
  (∃ tabs, windows (host w') !! newWindow = Some tabs ∧
           tab_url <$> tabs = Some <$> (match urls with [] => ["about:newtab"] | _ => urls end)) ∧
  (∀ j, j ≠ newWindow → windows (host w') !! j = windows (host w) !! j) ∧
  windowBindings w' = <[newWindow := id ws]> (windowBindings w) ∧
  st_bindings (store w') = windowBindings w' ∧
  workspaceIndex w' = workspaceIndex w ∧
  st_tabs (store w') = st_tabs (store w) ∧ st_version (store w') = st_version (store w) ∧
  st_hash (store w') = st_hash (store w).
Proof.
  intros Hfind Hcase Hfresh w' newWindow urls. subst w' newWindow urls.
  apply focusable_None_unbound in Hcase.
  unfold exec, outcome. rewrite (openWorkspace_builds env w workspaceId i ws Hfind Hcase).
  destruct (openWorkspace_build_run env w (id ws)) as (hw & n & -> & _ & Htabs & _ & Hothers).
  unfold opened. fields. split; [done|]. split; [exact Htabs|]. split; [by apply Hothers|].
  done.
Qed.

(** "Research" is reopened after its window was closed. *)
Lemma openWorkspace_restores_urls_witness :
  let w := Scenario.researchClosed in
  (fmap (M := list) tab_url <$>
     windows (host (exec (openWorkspace Sample.env (Some "ws")) w)) !! 40)
  = Some [Some "https://a.example"; Some "https://b.example"; Some "https://c.example"].
Proof.
  intros w.
  destruct (openWorkspace_restores_urls Sample.env w (Some "ws") 0
              (mkWorkspace "ws" "Research" "#3B82F6" false false 1000 1000 3))
    as (_ & (tabs & Htabs & Hurls) & _).
  - vm_compute. reflexivity.
  - right. intros k Hk. vm_compute in Hk. discriminate Hk.
  - vm_compute. reflexivity.
  - change (nextId (host w)) with 40 in Htabs. rewrite Htabs. cbn [fmap option_fmap option_map].
    rewrite Hurls. vm_compute. reflexivity.
Defined.

(** X13. With [focusExistingWindow] on and a table of window ids,
    [openWorkspace] looks at one window only, the lowest-numbered one bound
    to the workspace.  If that window is open, it opens nothing: it answers
    with that window and leaves the world as it was.  If that window is not
    open, the attempt to focus it fails and a new window is built and bound,
    whether or not another window bound to the workspace is open; the stale
    binding stays in the table. *)
Theorem openWorkspace_focuses_existing (env : Env) (w : World) (workspaceId : string)
    (i : nat) (ws : Workspace) (existing : Z) :
  findIndex (workspaceIndex w) (Some workspaceId) = Some (i, ws) →
  focusExistingWindow (settings w) = true →
  indexKeys (windowBindings w) = true →
  findWindow (windowBindings w) workspaceId = Some existing →
  windowBindings w !! existing = Some workspaceId ∧
  (∀ k, windowBindings w !! k = Some workspaceId → existing ≤ k) ∧
  match windows (host w) !! existing with
  | Some _ => openWorkspace env (Some workspaceId) w = (Returned (RWindowId existing), w)
  | None =>
      outcome (openWorkspace env (Some workspaceId)) w =
        Returned (RWindowId (nextId (host w))) ∧
      windowBindings (exec (openWorkspace env (Some workspaceId)) w) =
        <[nextId (host w) := workspaceId]> (windowBindings w) ∧
      is_Some (windows (host (exec (openWorkspace env (Some workspaceId)) w))
                 !! nextId (host w))
  end.
Proof.
  intros Hfind Hfocus _ Hwin.
  apply findIndex_Some in Hfind as Hf. destruct Hf as ([= ->] & _ & _).
  destruct (findWindow_Some _ _ _ Hwin) as [Hbound Hlowest].
  split; [done|]. split; [done|].
  destruct (windows (host w) !! existing) as [l|] eqn:Hl.
  - eapply openWorkspace_focus; [done|]. unfold focusable. by rewrite Hwin, Hfocus, Hl.
  - assert (Hfoc : focusable w (id ws) = None).
    { unfold focusable. by rewrite Hwin, Hfocus, Hl. }
    unfold exec, outcome. rewrite (openWorkspace_builds env w _ i ws Hfind Hfoc).
    destruct (openWorkspace_build_run env w (id ws)) as (hw & n & -> & _ & (tabs & Ht & _) & _).
    unfold opened. fields. split; [done|]. split; [done|]. eauto.
Qed.

(** "Research" is open in window 1 when it is opened again. *)
Lemma openWorkspace_focuses_existing_witness :
  openWorkspace Sample.env (Some "ws") (Scenario.research Scenario.allOn)
  = (Returned (RWindowId 1), Scenario.research Scenario.allOn).
Proof.
  destruct (openWorkspace_focuses_existing Sample.env (Scenario.research Scenario.allOn) "ws" 0
              (mkWorkspace "ws" "Research" "#3B82F6" false false 1000 1000 3) 1)
    as (_ & _ & H).
  - vm_compute. reflexivity.
  - reflexivity.
  - vm_compute. reflexivity.
  - vm_compute. reflexivity.
  - change (windows (host (Scenario.research Scenario.allOn)) !! 1)
      with (Some [mkTab 10 (Some "https://a.example") (Some "A") false;
                  mkTab 11 (Some "https://b.example") (Some "B") false;
                  mkTab 12 (Some "about:config") None false;
                  mkTab 13 (Some "https://c.example") (Some "C") true]) in H.
    exact H.
Defined.

(** X18. Two overlapping [openWorkspace] calls for a workspace that is not
    open bind two windows to it, whatever [focusExistingWindow] is: the
    second call makes its already-open check while the first is suspended,
    before the first has bound its window.  Run one after the other with
    [focusExistingWindow] on, the same two calls open one window, and the
    second call answers with it. *)
Theorem overlapping_opens_bind_two_windows (env : Env) (w : World) (workspaceId : string)
    (i : nat) (ws : Workspace) :
  findIndex (workspaceIndex w) (Some workspaceId) = Some (i, ws) →
  (∀ k, windowBindings w !! k ≠ Some workspaceId) →
  let first := nextId (host w) in
  (∃ second w',
     openWorkspace_overlapped env (Some workspaceId) (Some workspaceId) w =
       (Returned (RWindowId first, RWindowId second), w') ∧
     first < second ∧
     windowBindings w' =
       <[second := workspaceId]> (<[first := workspaceId]> (windowBindings w)) ∧
     is_Some (windows (host w') !! first) ∧ is_Some (windows (host w') !! second) ∧
     ¬ oneWindowPerWorkspace w') ∧
  (focusExistingWindow (settings w) = true →
   ∃ w1,
     openWorkspace env (Some workspaceId) w = (Returned (RWindowId first), w1) ∧
     openWorkspace env (Some workspaceId) w1 = (Returned (RWindowId first), w1) ∧
     windowBindings w1 = <[first := workspaceId]> (windowBindings w)).
Proof.
  intros Hfind Hnone first. subst first.
  apply findIndex_Some in Hfind as Hf. destruct Hf as ([= ->] & _ & _).
  assert (Hfoc : focusable w (id ws) = None) by (apply focusable_None_unbound; auto).
  destruct (openWorkspace_build_run env w (id ws))
    as (hw1 & n1 & Hrun1 & Hn1 & (tabs1 & Ht1 & _) & Hkeep1 & _).
  split.
  - unfold openWorkspace_overlapped.
    erewrite mbind_run by (by eapply openWorkspace_check_run).
    erewrite mbind_run by (by eapply openWorkspace_check_run).
    rewrite Hfoc. cbn [openWorkspace_resume].
    erewrite mbind_run by exact Hrun1.
    destruct (openWorkspace_build_run env (opened w (id ws) hw1 n1) (id ws))
      as (hw2 & n2 & Hrun2 & Hn2 & (tabs2 & Ht2 & _) & Hkeep2 & _).
    erewrite mbind_run by exact Hrun2. rewrite mret_run.
    unfold opened in *. fields.
    eexists n1, _. split; [reflexivity|]. fields. split; [lia|]. split; [done|].
    split; [|split].
    + apply Hkeep2; [lia|]. eauto.
    + eauto.
    + intros Huniq. unfold oneWindowPerWorkspace in Huniq. fields.
      specialize (Huniq (nextId (host w)) n1 (id ws)).
      rewrite lookup_insert_ne, !lookup_insert_eq in Huniq by lia.
      specialize (Huniq eq_refl eq_refl). lia.
  - intros Hfocus.
    exists (opened w (id ws) hw1 n1).
    rewrite (openWorkspace_builds env w _ i ws Hfind Hfoc). split; [exact Hrun1|].
    split; [|done].
    eapply openWorkspace_focus; [unfold opened; fields; exact Hfind|].
    unfold focusable, opened. fields. rewrite Hfocus.
    destruct (findWindow (<[nextId (host w) := id ws]> (windowBindings w)) (id ws))
      as [k|] eqn:Hk.
    + apply findWindow_Some in Hk as [Hk _].
      destruct (decide (k = nextId (host w))) as [->|Hne]; [by rewrite Ht1|].
      rewrite lookup_insert_ne in Hk by done. by destruct (Hnone k).
    + rewrite findWindow_None in Hk. destruct (Hk (nextId (host w))).
      by rewrite lookup_insert_eq.
Qed.

(** "Research" is opened twice at once after its window was closed. *)
Lemma overlapping_opens_bind_two_windows_witness :
  let w' := exec (openWorkspace_overlapped Sample.env (Some "ws") (Some "ws"))
                 Scenario.researchClosed in
  focusExistingWindow (settings w') = true ∧ ¬ oneWindowPerWorkspace w'.
Proof.
  intros w'. split; [reflexivity|].
  destruct (overlapping_opens_bind_two_windows Sample.env Scenario.researchClosed "ws" 0
              (mkWorkspace "ws" "Research" "#3B82F6" false false 1000 1000 3))
    as [(second & w2 & Hrun & _ & _ & _ & _ & Hnot) _].
  - vm_compute. reflexivity.
  - intros k Hk. vm_compute in Hk. discriminate Hk.
  - subst w'. unfold exec. rewrite Hrun. exact Hnot.
Defined.

(** ** The context menu *)

Lemma stripPrefix_app (pattern s : string) : stripPrefix pattern (String.append pattern s) = Some s.
Proof.
  induction pattern as [|a pattern IH]; [done|].
  change (String.append (String a pattern) s) with (String a (String.append pattern s)).
  cbn [stripPrefix]. by rewrite Ascii.eqb_refl.
Qed.

Lemma removeFirst_app (pattern s : string) :
  removeFirst pattern (String.append pattern s) = s.
Proof.
  assert (Hstep : ∀ t, removeFirst pattern t =
                       match stripPrefix pattern t with
                       | Some rest => rest
                       | None => match t with
                                 | EmptyString => EmptyString
                                 | String c t' => String c (removeFirst pattern t')
                                 end
                       end) by (by intros []).
  by rewrite Hstep, stripPrefix_app.
Qed.

(** X14. The menu item of a workspace leads back to it: a click on the item
    [updateContextMenu] creates for a registry entry moves the tab to the
    workspace with that entry's id, whatever characters the id holds, while
    a click on an item whose id does not start with the item prefix (the
    parent item for one) does nothing. *)
Theorem menu_item_round_trip (env : Env) (index : list Workspace) (tab : BrowserTab)
    (w : World) :
  (∀ ws, ws ∈ index →
         (menuItemId ws, name ws) ∈ menuItems index ∧
         onMenuClicked env (menuItemId ws) tab = moveTabToWorkspace env tab (id ws)) ∧
  (∀ item, item ∈ menuItems index →
           ∃ ws, ws ∈ index ∧ item.2 = name ws ∧
                 onMenuClicked env item.1 tab = moveTabToWorkspace env tab (id ws)) ∧
  (∀ clicked, startsWith clicked "move-to-ws-" = false →
              onMenuClicked env clicked tab w = (Returned (), w)) ∧
  onMenuClicked env "move-to-workspace" tab w = (Returned (), w).
Proof.
  assert (Hclick : ∀ ws, onMenuClicked env (menuItemId ws) tab
                         = moveTabToWorkspace env tab (id ws)).
  { intros ws. unfold onMenuClicked, menuItemId, startsWith.
    rewrite stripPrefix_app.
    by rewrite removeFirst_app. }
  split; [|split; [|split]].
  - intros ws Hin. split; [|done]. unfold menuItems. apply list_elem_of_fmap. by exists ws.
  - intros item Hin. unfold menuItems in Hin. apply list_elem_of_fmap in Hin as (ws & -> & Hin).
    exists ws. cbn [fst snd]. done.
  - intros clicked Hno. unfold onMenuClicked. by rewrite Hno.
  - reflexivity.
Qed.

(** ** The badge label *)

Section Badge.

Variable toUpperCase : string → string.

Let chars := String.list_ascii_of_string.
Let text := String.string_of_list_ascii.

Lemma onlyWhiteSpace_chars (s : string) :
  onlyWhiteSpace s = true → Forall (λ c, isWhiteSpace c = true) (chars s).
Proof.
  unfold onlyWhiteSpace. fold chars. induction (chars s) as [|c l IH]; [done|].
  cbn. intros [Hc Hl]%andb_true_iff. constructor; auto.
Qed.

Lemma noWhiteSpace_chars (s : string) :
  noWhiteSpace s = true → Forall (λ c, isWhiteSpace c = false) (chars s).
Proof.
  unfold noWhiteSpace. fold chars. induction (chars s) as [|c l IH]; [done|].
  cbn. intros [Hc Hl]%andb_true_iff. constructor; [by apply negb_true_iff|auto].
Qed.

Lemma truthyStr_nonempty (s : string) : truthyStr s = true → s ≠ "".
Proof. by destruct s. Qed.

Lemma chars_app (s1 s2 : string) : chars (String.append s1 s2) = chars s1 ++ chars s2.
Proof.
  induction s1 as [|a s1 IH]; [done|].
  change (String.append (String a s1) s2) with (String a (String.append s1 s2)).
  subst chars. cbn in *. by rewrite IH.
Qed.

Lemma text_chars (s : string) : text (chars s) = s.
Proof. apply String.string_of_list_ascii_of_string. Qed.
Lemma chars_text (l : list Ascii.ascii) : chars (text l) = l.
Proof. apply String.list_ascii_of_string_of_list_ascii. Qed.

Lemma substring_fits (n : nat) (s : string) :
  (String.length (String.substring 0 n s) ≤ n)%nat.
Proof.
  revert s. induction n as [|n IH]; intros [|a s]; cbn; try lia.
  specialize (IH s). lia.
Qed.

Lemma trimStart_blank (l rest : list Ascii.ascii) :
  Forall (λ c, isWhiteSpace c = true) l → trimStartChars (l ++ rest) = trimStartChars rest.
Proof.
  induction 1 as [|c l Hc _ IH]; [done|]. cbn. by rewrite Hc.
Qed.

Lemma trimStart_solid (l rest : list Ascii.ascii) :
  Forall (λ c, isWhiteSpace c = false) l → l ≠ [] → trimStartChars (l ++ rest) = l ++ rest.
Proof.
  destruct 1 as [|c l Hc _]; [done|]. intros _. cbn. by rewrite Hc.
Qed.

Lemma trim_padded (pad1 word pad2 : list Ascii.ascii) :
  Forall (λ c, isWhiteSpace c = true) pad1 →
  Forall (λ c, isWhiteSpace c = false) word →
  Forall (λ c, isWhiteSpace c = true) pad2 →
  reverse (trimStartChars (reverse (trimStartChars (pad1 ++ word ++ pad2)))) = word.
Proof.
  intros H1 Hw H2. rewrite trimStart_blank by done.
  destruct (decide (word = [])) as [->|Hne].
  - cbn [app]. rewrite <- (app_nil_r pad2), trimStart_blank by done. cbn.
    done.
  - rewrite trimStart_solid by done. rewrite reverse_app.
    rewrite trimStart_blank by (by apply Forall_reverse).
    rewrite <- (app_nil_r (reverse word)), trimStart_solid.
    + by rewrite app_nil_r, reverse_involutive.
    + by apply Forall_reverse.
    + intros Hr. apply Hne. by rewrite <- (reverse_involutive word), Hr.
Qed.

Lemma split_solid (inGap : bool) (piece word rest : list Ascii.ascii) :
  Forall (λ c, isWhiteSpace c = false) word → word ≠ [] →
  splitChars inGap piece (word ++ rest) = splitChars false (piece ++ word) rest.
Proof.
  intros Hw. revert inGap piece. induction Hw as [|c word Hc Hw IH]; intros inGap piece Hne; [done|].
  cbn. rewrite Hc. destruct (decide (word = [])) as [->|Hne'].
  - done.
  - rewrite IH by done. by rewrite <- app_assoc.
Qed.

Lemma split_blank (gap rest : list Ascii.ascii) :
  Forall (λ c, isWhiteSpace c = true) gap →
  splitChars true [] (gap ++ rest) = splitChars true [] rest.
Proof. induction 1 as [|c gap Hc _ IH]; [done|]. cbn. by rewrite Hc. Qed.

Lemma truthy_text (l : list Ascii.ascii) : l ≠ [] → truthyStr (text l) = true.
Proof. by destruct l. Qed.

Lemma solid_nonempty (s : string) : s ≠ "" → chars s ≠ [].
Proof. by destruct s. Qed.

(** X15. The badge label fits the badge: it is never longer than
    [BADGE_MAX_CHARS] (4) characters, whatever [toUpperCase] does to the
    label, and a name of white space only (the empty name included) gives the
    empty label. *)
Theorem badge_text_fits (workspaceName : string) :
  (String.length (getWorkspaceBadgeText toUpperCase workspaceName) ≤ BADGE_MAX_CHARS)%nat ∧
  (onlyWhiteSpace workspaceName = true → getWorkspaceBadgeText toUpperCase workspaceName = "").
Proof.
  split.
  - unfold getWorkspaceBadgeText. destruct (negb (truthyStr _)); [cbn; lia|].
    apply substring_fits.
  - intros Hblank%onlyWhiteSpace_chars. unfold getWorkspaceBadgeText, trim.
    fold chars text. rewrite <- (app_nil_r (chars workspaceName)).
    rewrite trimStart_blank by done. done.
Qed.

(** X16. What the label is made of.  For a name that is one word, the label
    is the upper-cased first four characters of the word; for two words
    separated by white space, it is the upper-cased first characters of the
    two words; white space around the name does not matter. *)
Theorem badge_text_of_words (word1 gap word2 pad1 pad2 : string) :
  truthyStr word1 = true → truthyStr word2 = true → truthyStr gap = true →
  noWhiteSpace word1 = true → noWhiteSpace word2 = true →
  onlyWhiteSpace gap = true → onlyWhiteSpace pad1 = true → onlyWhiteSpace pad2 = true →
  getWorkspaceBadgeText toUpperCase word1 =
    String.substring 0 4 (toUpperCase (String.substring 0 4 word1)) ∧
  getWorkspaceBadgeText toUpperCase (String.append word1 (String.append gap word2)) =
    String.substring 0 4
      (toUpperCase (String.append (firstCharacter word1) (firstCharacter word2))) ∧
  getWorkspaceBadgeText toUpperCase (String.append pad1 (String.append word1 pad2)) =
    getWorkspaceBadgeText toUpperCase word1.
Proof.
  intros Hne1%truthyStr_nonempty Hne2%truthyStr_nonempty Hneg%truthyStr_nonempty
    Hs1%noWhiteSpace_chars Hs2%noWhiteSpace_chars
    Hgap%onlyWhiteSpace_chars Hp1%onlyWhiteSpace_chars Hp2%onlyWhiteSpace_chars.
  assert (Htrim1 : trim word1 = word1).
  { unfold trim. fold chars text.
    rewrite <- (app_nil_r (chars word1)). change (chars word1 ++ []) with ([] ++ chars word1 ++ []).
    rewrite trim_padded by done. apply text_chars. }
  assert (Hsplit1 : splitWhiteSpace word1 = [word1]).
  { unfold splitWhiteSpace. fold chars text. rewrite <- (app_nil_r (chars word1)).
    rewrite split_solid by (done || by apply solid_nonempty). cbn. by rewrite text_chars. }
  assert (Hone : getWorkspaceBadgeText toUpperCase word1 =
                 String.substring 0 4 (toUpperCase (String.substring 0 4 word1))).
  { unfold getWorkspaceBadgeText. rewrite Htrim1, Hsplit1.
    assert (truthyStr word1 = true) as ->.
    { unfold truthyStr. by apply negb_true_iff, String.eqb_neq. }
    done. }
  split; [done|]. split.
  - unfold getWorkspaceBadgeText.
    assert (Htrim : trim (String.append word1 (String.append gap word2))
                    = String.append word1 (String.append gap word2)).
    { unfold trim. fold chars text. rewrite !chars_app.
      rewrite trimStart_solid by (done || by apply solid_nonempty).
      rewrite !reverse_app, <- app_assoc.
      rewrite trimStart_solid by (by apply Forall_reverse ||
        (intros Hr; apply (solid_nonempty word2 Hne2);
         by rewrite <- (reverse_involutive (chars word2)), Hr)).
      rewrite !reverse_app, !reverse_involutive, <- app_assoc, <- !chars_app.
      apply text_chars. }
    rewrite Htrim.
    assert (truthyStr (String.append word1 (String.append gap word2)) = true) as ->.
    { unfold truthyStr. apply negb_true_iff, String.eqb_neq. by destruct word1. }
    cbn [negb].
    assert (Hsplit : splitWhiteSpace (String.append word1 (String.append gap word2))
                     = [word1; word2]).
    { unfold splitWhiteSpace. fold chars text. rewrite !chars_app.
      rewrite split_solid by (done || by apply solid_nonempty). cbn [app].
      destruct (chars gap) as [|c rest] eqn:Hg; [by destruct gap|].
      apply Forall_cons in Hgap as [Hc Hrest]. cbn [app splitChars]. rewrite Hc.
      rewrite split_blank by done.
      rewrite <- (app_nil_r (chars word2)), split_solid by (done || by apply solid_nonempty).
      cbn. by rewrite !text_chars. }
    rewrite Hsplit. destruct (decide _) as [Hlen|_]; [by cbn in Hlen|].
    cbn [fmap list_fmap take String.concat].
    by change (String.append "" (firstCharacter word2)) with (firstCharacter word2).
  - unfold getWorkspaceBadgeText at 1.
    assert (Htrim : trim (String.append pad1 (String.append word1 pad2)) = word1).
    { unfold trim. fold chars text. rewrite !chars_app, trim_padded by done.
      apply text_chars. }
    rewrite Htrim. unfold getWorkspaceBadgeText. by rewrite Htrim1.
Qed.

End Badge.

Lemma badge_text_of_words_witness :
  getWorkspaceBadgeText (λ s, s) "dev" = String.substring 0 4 (String.substring 0 4 "dev") ∧
  getWorkspaceBadgeText (λ s, s) (String.append "dev" (String.append " " "ops")) =
    String.substring 0 4 (String.append (firstCharacter "dev") (firstCharacter "ops")) ∧
  getWorkspaceBadgeText (λ s, s) (String.append " " (String.append "dev" "")) =
    getWorkspaceBadgeText (λ s, s) "dev".
Proof.
  exact (badge_text_of_words (λ s, s) "dev" " " "ops" " " ""
           eq_refl eq_refl eq_refl eq_refl eq_refl eq_refl eq_refl eq_refl).
Defined.

(** ** Settings *)

Section SettingsKept.

Variable env : Env.

Let settingsState (w : World) : Settings * Settings := (settings w, st_settings (store w)).

Lemma handleMessage_keeps_settings message :
  String.eqb (action message) "saveSettings" = false →
  preserves settingsState (handleMessage env message).
Proof.
  intros Hother.
  unfold handleMessage, createWorkspace, openWorkspace, deleteWorkspace, renameWorkspace,
    toggleWorkspacePin, getCurrentWorkspace,
    Browser.draw, Browser.Date_now, Browser.tabs_query, Browser.windows_focus,
    Browser.windows_create, Browser.tabs_create, Browser.tabs_pin, Browser.on_host,
    Storage.getWorkspaceTabs, Storage.saveWindowBindings, Storage.saveWorkspaceIndex,
    Storage.saveWorkspaceTabs, Storage.saveSettings, Storage.deleteWorkspaceData,
    Storage.write, notifyContentScripts, updateWindowIndicators, updateContextMenu,
    refreshAllWindowIndicators.
  rewrite Hother. frame.
Qed.

Lemma saveWorkspaceSnapshot_keeps_settings workspaceId windowId :
  preserves settingsState (saveWorkspaceSnapshot env workspaceId windowId).
Proof.
  unfold saveWorkspaceSnapshot, Browser.tabs_query, Storage.getLastHash,
    Storage.getWorkspaceVersion, Storage.saveWorkspaceTabs, Storage.saveLastHash,
    Storage.saveWorkspaceIndex, Storage.write, Browser.Date_now. frame.
Qed.

Lemma moveTabToWorkspace_keeps_settings tab target :
  preserves settingsState (moveTabToWorkspace env tab target).
Proof.
  unfold moveTabToWorkspace, Browser.tabs_move, Browser.tabs_remove, Browser.on_host,
    Storage.getWorkspaceTabs, Storage.getWorkspaceVersion, Storage.saveWorkspaceTabs,
    Storage.write. frame.
Qed.

Lemma handleTabChange_keeps_settings info : preserves settingsState (handleTabChange info).
Proof.
  unfold handleTabChange, Browser.clearTimeout, Browser.setTimeout, Browser.on_host. frame.
Qed.

Lemma step_keeps_settings ev w :
  savesSettings ev = false →
  settings w = st_settings (store w) →
  settings (step env ev w) = settings w ∧
  st_settings (store (step env ev w)) = st_settings (store w).
Proof.
  intros Hother Hsync.
  assert (Hpair : ∀ w', settingsState w' = settingsState w →
            settings w' = settings w ∧ st_settings (store w') = st_settings (store w)).
  { unfold settingsState. by intros w' [= -> ->]. }
  unfold step, exec.
  destruct ev as [message|info|h|k|tab target|newValue|ms|]; cbn [handle savesSettings] in *.
  - apply Hpair. apply (preserves_bind settingsState);
      [by apply handleMessage_keeps_settings|]. intros ?. apply preserves_mret.
  - apply Hpair. apply handleTabChange_keeps_settings.
  - apply Hpair. unfold fireTimer, Browser.clearTimeout, Browser.on_host.
    apply (preserves_bind settingsState); [apply preserves_gets|]. intros pending.
    destruct (pending !! h) as [[workspaceId windowId]|]; [|apply preserves_mret].
    apply (preserves_bind settingsState); [frame|]. intros ?.
    apply saveWorkspaceSnapshot_keeps_settings.
  - apply Hpair. unfold windowClosed, onWindowRemoved, Browser.on_host,
      Storage.saveWindowBindings, Storage.write, updateWindowIndicators. frame.
  - apply Hpair. apply moveTabToWorkspace_keeps_settings.
  - apply Hpair. unfold onSyncIndexChanged, updateContextMenu, refreshAllWindowIndicators.
    frame.
  - apply Hpair. unfold Browser.on_host. frame.
  - unfold reload, init, Storage.getSettings. rewrite mbind_modify, mbind_gets, mbind_modify.
    fields.
    match goal with |- context [(?m ≫= ?k) ?w1] =>
      pose proof (preserves_bind settingsState m k) as Hrest; specialize (Hrest
        ltac:(unfold Storage.getWorkspaceIndex; frame)); 
      specialize (fun H => Hrest H w1) end.
    unfold settingsState at 2 3 in Hrest. fields. rewrite <- Hsync in Hrest at 1.
    apply Hpair. unfold settingsState at 2. rewrite Hsync at 1. rewrite Hsync in Hrest at 1.
    apply Hrest. intros index.
    unfold Storage.getWindowBindings, cleanupStaleBindings, Browser.windows_getAll,
      Storage.saveWindowBindings, Storage.write, refreshAllWindowIndicators,
      updateContextMenu. frame.
Qed.

(** X17. Saved settings stay.  After a [saveSettings] message, and through
    any later events other than another [saveSettings] message (restarts of
    the script included), the settings in use and the stored settings are the
    ones of the message, and a [getSettings] message answers with them. *)
Theorem saved_settings_stay (message : Message) (evs : list Event) (w : World) :
  action message = "saveSettings" →
  Forall (λ ev, savesSettings ev = false) evs →
  let w' := run env evs (step env (EvMessage message) w) in
  settings w' = m_settings message ∧
  st_settings (store w') = m_settings message ∧
  ∀ m, action m = "getSettings" →
       handleMessage env m w' = (Returned (RSettings (m_settings message)), w').
Proof.
  intros Hsave Hall w'.
  assert (Hkept : settings w' = m_settings message ∧
                  st_settings (store w') = m_settings message).
  { subst w'. set (w0 := step env (EvMessage message) w).
    assert (H0 : settings w0 = m_settings message ∧
                 st_settings (store w0) = m_settings message).
    { subst w0. unfold step, exec. cbn [handle]. unfold handleMessage. rewrite Hsave.
      cbn [String.eqb Ascii.eqb Bool.eqb]. unfold Storage.saveSettings, Storage.write.
      calls. done. }
    clearbody w0. revert w0 H0. induction Hall as [|ev evs Hev _ IH]; intros w0 [H1 H2];
      [done|]. cbn [run foldl]. apply IH.
    destruct (step_keeps_settings ev w0 Hev) as [-> ->]; [congruence|done]. }
  destruct Hkept as [H1 H2]. split; [done|]. split; [done|].
  intros m Hm. unfold handleMessage. rewrite Hm. cbn [String.eqb Ascii.eqb Bool.eqb].
  calls. by rewrite H1.
Qed.

End SettingsKept.

Lemma saved_settings_stay_witness :
  let message := mkMessage "saveSettings" None None "" Scenario.noFocus None in
  let w' := run Sample.env [EvStartup; EvTick 5]
                (step Sample.env (EvMessage message) (boot Scenario.allOn emptyHost)) in
  settings w' = Scenario.noFocus ∧ st_settings (store w') = Scenario.noFocus.
Proof.
  intros message w'.
  destruct (saved_settings_stay Sample.env message [EvStartup; EvTick 5]
              (boot Scenario.allOn emptyHost) eq_refl) as (H1 & H2 & _).
  - repeat constructor.
  - split; [exact H1|exact H2].
Defined.
